(** * net_manager: the event dispatcher, the interface lifecycle and the
      configuration store of the ESP-IDF network manager component

    A shallow embedding of [net_manager.c] / [net_manager.h].

    - The file-scope [static] variables of [net_manager.c] form the record
      [component]; every function takes the component and returns the new one.
    - Calls that leave the component (the subscriber callback, [vTaskDelay],
      the Wi-Fi / Ethernet / netif drivers) are recorded, in program order,
      as a list of [action]s.  What the drivers answer is read from a record
      [drivers].
    - [ESP_ERROR_CHECK] and [assert] abort the program; functions that use
      them run in the monad [M], whose result is [Aborted] or [Returned].
    - [LOCK()] / [UNLOCK()] bracket every handler and every public call; the
      model is sequential and runs each of them as one atomic step. *)

From Stdlib Require Import ZArith Lia List Bool.
From stdpp Require Import base gmap strings list.

Local Open Scope Z_scope.

(** ** Machine integers and pointers *)

(** [uint8_t]: arithmetic is modulo 2^8. *)
Definition wrap_uint8 (z : Z) : Z := z mod 256.

(** [int] is 32 bits wide on the ESP32 targets. *)
Definition INT_MAX : Z := 2147483647.
Definition wrap_int32 (z : Z) : Z := (z + 2 ^ 31) mod 2 ^ 32 - 2 ^ 31.

(** [a << k] on [int].  C defines the result only while [a * 2^k] fits in
    [int] and [0 <= k < 32]; there it is [a * 2^k].  Outside that range the
    model does what the target's shifter does (count taken modulo 32, result
    truncated to 32 bits); the theorems below only rely on the defined
    range. *)
Definition shl_int32 (a k : Z) : Z := wrap_int32 (Z.shiftl a (k mod 32)).

(** Pointers are addresses; [NULL] is address zero. *)
Definition ptr : Type := Z.
Definition NULL : ptr := 0.
Definition is_null (p : ptr) : bool := p =? NULL.

(** ** [esp_err_t] *)

Definition esp_err_t : Type := Z.
Definition ESP_OK : esp_err_t := 0.
Definition ESP_FAIL : esp_err_t := -1.
Definition ESP_ERR_INVALID_ARG : esp_err_t := 258.          (* 0x102 *)
Definition ESP_ERR_NVS_NOT_INITIALIZED : esp_err_t := 4353. (* 0x1101 *)
Definition ESP_ERR_NVS_NOT_FOUND : esp_err_t := 4354.       (* 0x1102 *)
Definition ESP_ERR_NVS_INVALID_LENGTH : esp_err_t := 4364.  (* 0x110c *)

(** ** Public types of [net_manager.h] *)

Inductive net_status_t : Type :=
| NET_STATUS_UNINITIALIZED
| NET_STATUS_STOPPED
| NET_STATUS_STARTED
| NET_STATUS_CONNECTING
| NET_STATUS_CONNECTED
| NET_STATUS_DISCONNECTED
| NET_STATUS_WAITING_FOR_RECONNECT
| NET_STATUS_CLIENT_CONNECTED
| NET_STATUS_CLIENT_DISCONNECTED.

Global Instance net_status_eq_dec : EqDecision net_status_t.
Proof. solve_decision. Defined.

Inductive net_event_source_t : Type :=
| NET_EVENT_SOURCE_STA
| NET_EVENT_SOURCE_AP
| NET_EVENT_SOURCE_ETHERNET.

Global Instance net_event_source_eq_dec : EqDecision net_event_source_t.
Proof. solve_decision. Defined.

(** [esp_netif_ip_info_t]: three IPv4 addresses, each a [uint32_t]. *)
Record esp_netif_ip_info_t : Type := mk_ip_info {
  ip : Z;
  netmask : Z;
  gw : Z
}.

Global Instance ip_info_eq_dec : EqDecision esp_netif_ip_info_t.
Proof. solve_decision. Defined.

Definition ip_info_zero : esp_netif_ip_info_t := mk_ip_info 0 0 0.

(** What the [void *data] of a dispatched event points to. *)
Inductive event_payload : Type :=
| NoData                                      (* .data left NULL *)
| IpInfoData (info : esp_netif_ip_info_t)     (* an esp_netif_ip_info_t *)
| ClientData (raw : list Byte.byte).          (* the driver's client descriptor *)

Record net_manager_event_t : Type := mk_event {
  source : net_event_source_t;
  status : net_status_t;
  data : event_payload
}.

Record net_manager_status_t : Type := mk_status {
  sta_status : net_status_t;
  ap_status : net_status_t;
  eth_status : net_status_t;
  sta_ip_info : esp_netif_ip_info_t;
  ap_ip_info : esp_netif_ip_info_t;
  eth_ip_info : esp_netif_ip_info_t;
  ap_connected_clients : Z                    (* uint8_t *)
}.

(** [memset(&s_status, 0, sizeof(s_status))]: the enumerator with value 0
    is [NET_STATUS_UNINITIALIZED]. *)
Definition status_zero : net_manager_status_t :=
  mk_status NET_STATUS_UNINITIALIZED NET_STATUS_UNINITIALIZED
            NET_STATUS_UNINITIALIZED ip_info_zero ip_info_zero ip_info_zero 0.

(** ** The component: the static variables of [net_manager.c] *)

Record component : Type := mk_component {
  s_is_initialized : bool;
  s_netif_sta : ptr;
  s_netif_ap : ptr;
  s_netif_eth : ptr;
  s_eth_handles : ptr;
  s_eth_handles_num : Z;                      (* uint8_t *)
  s_status : net_manager_status_t;
  s_user_callback : ptr;
  s_sta_retry_count : Z                       (* int *)
}.

(** Field updates. *)
Definition with_status (f : net_manager_status_t -> net_manager_status_t)
    (st : component) : component :=
  mk_component (s_is_initialized st) (s_netif_sta st) (s_netif_ap st)
    (s_netif_eth st) (s_eth_handles st) (s_eth_handles_num st)
    (f (s_status st)) (s_user_callback st) (s_sta_retry_count st).

Definition with_retry_count (n : Z) (st : component) : component :=
  mk_component (s_is_initialized st) (s_netif_sta st) (s_netif_ap st)
    (s_netif_eth st) (s_eth_handles st) (s_eth_handles_num st)
    (s_status st) (s_user_callback st) n.

Definition set_sta_status (v : net_status_t) (s : net_manager_status_t) :=
  mk_status v (ap_status s) (eth_status s)
    (sta_ip_info s) (ap_ip_info s) (eth_ip_info s) (ap_connected_clients s).

Definition set_ap_status (v : net_status_t) (s : net_manager_status_t) :=
  mk_status (sta_status s) v (eth_status s)
    (sta_ip_info s) (ap_ip_info s) (eth_ip_info s) (ap_connected_clients s).

Definition set_eth_status (v : net_status_t) (s : net_manager_status_t) :=
  mk_status (sta_status s) (ap_status s) v
    (sta_ip_info s) (ap_ip_info s) (eth_ip_info s) (ap_connected_clients s).

Definition set_sta_ip_info (i : esp_netif_ip_info_t) (s : net_manager_status_t) :=
  mk_status (sta_status s) (ap_status s) (eth_status s)
    i (ap_ip_info s) (eth_ip_info s) (ap_connected_clients s).

Definition set_ap_ip_info (i : esp_netif_ip_info_t) (s : net_manager_status_t) :=
  mk_status (sta_status s) (ap_status s) (eth_status s)
    (sta_ip_info s) i (eth_ip_info s) (ap_connected_clients s).

Definition set_eth_ip_info (i : esp_netif_ip_info_t) (s : net_manager_status_t) :=
  mk_status (sta_status s) (ap_status s) (eth_status s)
    (sta_ip_info s) (ap_ip_info s) i (ap_connected_clients s).

Definition set_ap_connected_clients (n : Z) (s : net_manager_status_t) :=
  mk_status (sta_status s) (ap_status s) (eth_status s)
    (sta_ip_info s) (ap_ip_info s) (eth_ip_info s) n.

(** ** Raw events delivered by the ESP-IDF event loop *)

(** The [WIFI_EVENT] ids the handler has a [case] for; every other id is
    [WIFI_EVENT_OTHER]. *)
Inductive wifi_event_t : Type :=
| WIFI_EVENT_STA_START
| WIFI_EVENT_STA_DISCONNECTED
| WIFI_EVENT_AP_START
| WIFI_EVENT_AP_STOP
| WIFI_EVENT_AP_STACONNECTED
| WIFI_EVENT_AP_STADISCONNECTED
| WIFI_EVENT_OTHER (id : Z).

Inductive eth_event_t : Type :=
| ETHERNET_EVENT_START
| ETHERNET_EVENT_STOP
| ETHERNET_EVENT_CONNECTED
| ETHERNET_EVENT_DISCONNECTED
| ETHERNET_EVENT_OTHER (id : Z).

(** [ip_event_got_ip_t], as far as the handler reads it. *)
Record ip_event_got_ip_t : Type := mk_got_ip {
  esp_netif : ptr;
  ip_info : esp_netif_ip_info_t
}.

(** [(event_base, event_id, event_data)].  The handler is registered with
    [ESP_EVENT_ANY_ID] on the three bases and reads the data of every
    [IP_EVENT], whatever its id, as an [ip_event_got_ip_t]. *)
Inductive raw_event : Type :=
| WIFI_EVENT (id : wifi_event_t) (event_data : list Byte.byte)
| IP_EVENT (id : Z) (event_data : ip_event_got_ip_t)
| ETH_EVENT (id : eth_event_t)
| OTHER_EVENT (base : string) (id : Z).

(** ** Calls that leave the component *)

Inductive wifi_interface_t : Type := ESP_IF_WIFI_STA | ESP_IF_WIFI_AP.

Inductive wifi_mode_t : Type :=
| WIFI_MODE_NULL | WIFI_MODE_STA | WIFI_MODE_AP | WIFI_MODE_APSTA.

Inductive wifi_auth_mode_t : Type := WIFI_AUTH_OPEN | WIFI_AUTH_WPA2_PSK.

Inductive esp_netif_dns_type_t : Type :=
| ESP_NETIF_DNS_MAIN | ESP_NETIF_DNS_BACKUP | ESP_NETIF_DNS_FALLBACK.

(** The [wifi_config_t] handed to [esp_wifi_set_config]. *)
Inductive wifi_config_t : Type :=
| wifi_sta_config (ssid password : list Byte.byte)
| wifi_ap_config (ssid password : list Byte.byte)
                 (channel max_connection : Z) (authmode : wifi_auth_mode_t).

Inductive action : Type :=
| Callback (ev : net_manager_event_t)         (* s_user_callback(&ev) *)
| TaskDelay (ms : Z)                          (* vTaskDelay(pdMS_TO_TICKS(ms)) *)
| WifiConnect                                 (* esp_wifi_connect() *)
| WifiInit                                    (* esp_wifi_init() *)
| WifiSetMode (mode : wifi_mode_t)            (* esp_wifi_set_mode() *)
| WifiSetConfig (ifx : wifi_interface_t) (cfg : wifi_config_t)
| WifiStart                                   (* esp_wifi_start() *)
| WifiStop                                    (* esp_wifi_stop() *)
| WifiDeinit                                  (* esp_wifi_deinit() *)
| NetifCreate (netif : ptr)                   (* esp_netif_create_default_wifi_* / esp_netif_new *)
| NetifDestroy (netif : ptr)                  (* esp_netif_destroy() *)
| NetifDhcpcStop (netif : ptr)                (* esp_netif_dhcpc_stop() *)
| NetifSetIpInfo (netif : ptr) (info : esp_netif_ip_info_t)
| NetifSetDnsInfo (netif : ptr) (type : esp_netif_dns_type_t) (addr : Z)
| NetifAttach (netif : ptr) (eth_handle : ptr)
| EthernetInitAll                             (* ethernet_init_all() *)
| EthernetDeinitAll (handles : ptr)           (* ethernet_deinit_all() *)
| EthStart (eth_handle : ptr).                (* esp_eth_start() *)

(** What the drivers answer. *)
Record drivers : Type := mk_drivers {
  drv_netif_ip_info : ptr -> esp_netif_ip_info_t;
  drv_netif_dns_info : ptr -> esp_netif_dns_type_t -> esp_err_t * Z;
  drv_wifi_init : esp_err_t;
  drv_wifi_set_mode : esp_err_t;
  drv_wifi_set_config : wifi_interface_t -> esp_err_t;
  drv_wifi_start : esp_err_t;
  drv_create_default_wifi_sta : ptr;
  drv_create_default_wifi_ap : ptr;
  drv_netif_new : ptr;
  drv_dhcpc_stop : ptr -> esp_err_t;
  drv_set_ip_info : ptr -> esp_err_t;
  drv_set_dns_info : ptr -> esp_netif_dns_type_t -> esp_err_t;
  drv_ethernet_init_all : esp_err_t * ptr * Z; (* result, *handles, *num *)
  drv_eth_handle0 : ptr;                       (* s_eth_handles[0] *)
  drv_netif_attach : esp_err_t;
  drv_eth_start : esp_err_t
}.

(** [esp_netif_get_ip_info(netif, &buf)]: refuses a NULL netif and leaves
    the buffer alone, otherwise fills it. *)
Definition esp_netif_get_ip_info (drv : drivers) (netif : ptr)
    (buf : esp_netif_ip_info_t) : esp_err_t * esp_netif_ip_info_t :=
  if is_null netif then (ESP_ERR_INVALID_ARG, buf)
  else (ESP_OK, drv_netif_ip_info drv netif).

(** ** The event dispatcher: [event_handler] *)

Section Dispatcher.

(** The Kconfig constant [CONFIG_NET_MANAGER_STA_RECONNECT_ATTEMPTS]. *)
Variable CONFIG_NET_MANAGER_STA_RECONNECT_ATTEMPTS : Z.
Variable drv : drivers.

(** [if (s_user_callback) s_user_callback(&ev);] *)
Definition notify (st : component) (ev : net_manager_event_t) : list action :=
  if is_null (s_user_callback st) then [] else [Callback ev].

(** The common tail of the handler: dispatch [event_to_dispatch]. *)
Definition dispatch (st : component) (done : list action)
    (ev : net_manager_event_t) : component * list action :=
  (st, done ++ notify st ev).

Definition event_handler (st : component) (e : raw_event)
    : component * list action :=
  match e with
  | WIFI_EVENT WIFI_EVENT_STA_START _ =>
      let st1 := with_status (set_sta_status NET_STATUS_CONNECTING) st in
      dispatch st1 [WifiConnect]
        (mk_event NET_EVENT_SOURCE_STA NET_STATUS_CONNECTING NoData)
  | WIFI_EVENT WIFI_EVENT_STA_DISCONNECTED _ =>
      let max_retries := CONFIG_NET_MANAGER_STA_RECONNECT_ATTEMPTS in
      let st1 := with_status (set_sta_status NET_STATUS_DISCONNECTED) st in
      let ev := mk_event NET_EVENT_SOURCE_STA NET_STATUS_DISCONNECTED NoData in
      let notified := notify st1 ev in
      if (max_retries <? 0) || (s_sta_retry_count st1 <? max_retries) then
        let st2 := with_retry_count (wrap_int32 (s_sta_retry_count st1 + 1)) st1 in
        let waited := [TaskDelay (shl_int32 1000 (s_sta_retry_count st2)); WifiConnect] in
        let st3 := with_status (set_sta_status NET_STATUS_CONNECTING) st2 in
        dispatch st3 (notified ++ waited)
          (mk_event NET_EVENT_SOURCE_STA NET_STATUS_CONNECTING NoData)
      else
        dispatch st1 notified ev
  | WIFI_EVENT WIFI_EVENT_AP_START _ =>
      let st1 := with_status (set_ap_status NET_STATUS_STARTED) st in
      let got := esp_netif_get_ip_info drv (s_netif_ap st1) (ap_ip_info (s_status st1)) in
      let st2 := with_status (set_ap_ip_info (snd got)) st1 in
      dispatch st2 []
        (mk_event NET_EVENT_SOURCE_AP NET_STATUS_STARTED
                  (IpInfoData (ap_ip_info (s_status st2))))
  | WIFI_EVENT WIFI_EVENT_AP_STOP _ =>
      let st1 := with_status (set_ap_status NET_STATUS_STOPPED) st in
      dispatch st1 [] (mk_event NET_EVENT_SOURCE_AP NET_STATUS_STOPPED NoData)
  | WIFI_EVENT WIFI_EVENT_AP_STACONNECTED event =>
      let n := wrap_uint8 (ap_connected_clients (s_status st) + 1) in
      let st1 := with_status (set_ap_connected_clients n) st in
      dispatch st1 []
        (mk_event NET_EVENT_SOURCE_AP NET_STATUS_CLIENT_CONNECTED (ClientData event))
  | WIFI_EVENT WIFI_EVENT_AP_STADISCONNECTED event =>
      let n := wrap_uint8 (ap_connected_clients (s_status st) - 1) in
      let st1 := with_status (set_ap_connected_clients n) st in
      dispatch st1 []
        (mk_event NET_EVENT_SOURCE_AP NET_STATUS_CLIENT_DISCONNECTED (ClientData event))
  | WIFI_EVENT (WIFI_EVENT_OTHER _) _ => (st, [])
  | IP_EVENT _ event =>
      if esp_netif event =? s_netif_sta st then
        let st1 := with_retry_count 0 st in
        let st2 := with_status (set_sta_status NET_STATUS_CONNECTED) st1 in
        let st3 := with_status (set_sta_ip_info (ip_info event)) st2 in
        dispatch st3 []
          (mk_event NET_EVENT_SOURCE_STA NET_STATUS_CONNECTED (IpInfoData (ip_info event)))
      else if esp_netif event =? s_netif_eth st then
        let st1 := with_status (set_eth_status NET_STATUS_CONNECTED) st in
        let st2 := with_status (set_eth_ip_info (ip_info event)) st1 in
        dispatch st2 []
          (mk_event NET_EVENT_SOURCE_ETHERNET NET_STATUS_CONNECTED (IpInfoData (ip_info event)))
      else (st, [])
  | ETH_EVENT ETHERNET_EVENT_CONNECTED =>
      let st1 := with_status (set_eth_status NET_STATUS_CONNECTING) st in
      dispatch st1 [] (mk_event NET_EVENT_SOURCE_ETHERNET NET_STATUS_CONNECTING NoData)
  | ETH_EVENT ETHERNET_EVENT_DISCONNECTED =>
      let st1 := with_status (set_eth_status NET_STATUS_DISCONNECTED) st in
      dispatch st1 [] (mk_event NET_EVENT_SOURCE_ETHERNET NET_STATUS_DISCONNECTED NoData)
  | ETH_EVENT ETHERNET_EVENT_START =>
      let st1 := with_status (set_eth_status NET_STATUS_STARTED) st in
      dispatch st1 [] (mk_event NET_EVENT_SOURCE_ETHERNET NET_STATUS_STARTED NoData)
  | ETH_EVENT ETHERNET_EVENT_STOP =>
      let st1 := with_status (set_eth_status NET_STATUS_STOPPED) st in
      dispatch st1 [] (mk_event NET_EVENT_SOURCE_ETHERNET NET_STATUS_STOPPED NoData)
  | ETH_EVENT (ETHERNET_EVENT_OTHER _) => (st, [])
  | OTHER_EVENT _ _ => (st, [])
  end.

(** The event loop task hands the events to the handler one after the
    other. *)
Fixpoint run_events (st : component) (es : list raw_event)
    : component * list action :=
  match es with
  | [] => (st, [])
  | e :: es' =>
      let '(st1, tr1) := event_handler st e in
      let '(st2, tr2) := run_events st1 es' in
      (st2, tr1 ++ tr2)
  end.

End Dispatcher.

(** [net_manager_get_status]: a copy of [s_status]; [assert]s that the
    component is initialised ([None] is the failed assertion). *)
Definition net_manager_get_status (st : component)
    : option (esp_err_t * net_manager_status_t) :=
  if s_is_initialized st then Some (ESP_OK, s_status st) else None.

(** ** The monad of the lifecycle functions *)

(** A run either aborts ([ESP_ERROR_CHECK] on a failed driver call, a failed
    [assert]) or returns a value and the new component; both carry the calls
    made so far. *)
Inductive result (A : Type) : Type :=
| Aborted (tr : list action)
| Returned (v : A) (st : component) (tr : list action).

Arguments Aborted {A} tr.
Arguments Returned {A} v st tr.

Definition M (A : Type) : Type := component -> result A.

Global Instance M_ret : MRet M := fun A v st => Returned v st [].

Global Instance M_bind : MBind M := fun A B f m st =>
  match m st with
  | Aborted tr => Aborted tr
  | Returned v st1 tr1 =>
      match f v st1 with
      | Aborted tr2 => Aborted (tr1 ++ tr2)
      | Returned w st2 tr2 => Returned w st2 (tr1 ++ tr2)
      end
  end.

Definition get : M component := fun st => Returned st st [].
Definition modify (f : component -> component) : M unit := fun st => Returned tt (f st) [].
Definition call (a : action) : M unit := fun st => Returned tt st [a].
Definition abort {A : Type} : M A := fun _ => Aborted [].

(** [assert(b)] *)
Definition assert (b : bool) : M unit := if b then mret tt else abort.

(** [ESP_ERROR_CHECK(e)] *)
Definition ESP_ERROR_CHECK (e : esp_err_t) : M unit :=
  if e =? ESP_OK then mret tt else abort.

(** [ESP_ERROR_CHECK(f(...))] for a driver call [a] that answers [e]. *)
Definition checked (a : action) (e : esp_err_t) : M unit :=
  call a;; ESP_ERROR_CHECK e.

(** A call whose return value the caller does not look at. *)
Definition discard {A : Type} (m : M A) : M unit := _ ← m; mret tt.

(** [if (b) { m }] *)
Definition when (b : bool) (m : M unit) : M unit := if b then m else mret tt.

Definition with_netif_sta (p : ptr) (st : component) : component :=
  mk_component (s_is_initialized st) p (s_netif_ap st)
    (s_netif_eth st) (s_eth_handles st) (s_eth_handles_num st)
    (s_status st) (s_user_callback st) (s_sta_retry_count st).

Definition with_netif_ap (p : ptr) (st : component) : component :=
  mk_component (s_is_initialized st) (s_netif_sta st) p
    (s_netif_eth st) (s_eth_handles st) (s_eth_handles_num st)
    (s_status st) (s_user_callback st) (s_sta_retry_count st).

Definition with_netif_eth (p : ptr) (st : component) : component :=
  mk_component (s_is_initialized st) (s_netif_sta st) (s_netif_ap st)
    p (s_eth_handles st) (s_eth_handles_num st)
    (s_status st) (s_user_callback st) (s_sta_retry_count st).

Definition with_eth_handles (p : ptr) (n : Z) (st : component) : component :=
  mk_component (s_is_initialized st) (s_netif_sta st) (s_netif_ap st)
    (s_netif_eth st) p n
    (s_status st) (s_user_callback st) (s_sta_retry_count st).

(** ** [net_manager_config_t] as the bytes it occupies

    [net_manager_start] copies the configuration with [memcpy] and the
    store keeps it as a blob of [sizeof(net_manager_config_t)] bytes, so a
    configuration is modelled by its object representation.  The offsets
    are those of the header's structs under the 32-bit ABI of the ESP32
    ([bool] and [char] one byte, [uint32_t] aligned to four). *)

Definition sizeof_net_manager_config_t : nat := 248.

Definition offsetof_wifi_sta_enabled : nat := 0.
Definition offsetof_wifi_ap_enabled : nat := 1.
Definition offsetof_ethernet_enabled : nat := 2.
Definition offsetof_wifi_sta_config : nat := 4.    (* 120 bytes *)
Definition offsetof_wifi_ap_config : nat := 124.   (*  98 bytes *)
Definition offsetof_ethernet_config : nat := 224.  (*  24 bytes *)

(** Inside [net_config_wifi_sta_t]. *)
Definition sta_ssid : nat := 0.                    (* char[32] *)
Definition sta_password : nat := 32.               (* char[64] *)
Definition sta_use_static_ip : nat := 96.
Definition sta_ip_info_off : nat := 100.
Definition sta_dns1 : nat := 112.
Definition sta_dns2 : nat := 116.

(** Inside [net_config_wifi_ap_t]. *)
Definition ap_ssid : nat := 0.                     (* char[32] *)
Definition ap_password : nat := 32.                (* char[64] *)
Definition ap_channel : nat := 96.
Definition ap_max_connections : nat := 97.

(** Inside [net_config_ethernet_t]. *)
Definition eth_use_static_ip : nat := 0.
Definition eth_ip_info_off : nat := 4.
Definition eth_dns1 : nat := 16.
Definition eth_dns2 : nat := 20.

Definition Z_of_byte (b : Byte.byte) : Z := Z.of_N (Byte.to_N b).

Definition byte_of_Z (z : Z) : Byte.byte :=
  default Byte.x00 (Byte.of_N (Z.to_N (z mod 256))).

Definition load_u8 (obj : list Byte.byte) (off : nat) : Z :=
  Z_of_byte (nth off obj Byte.x00).

Definition load_bool (obj : list Byte.byte) (off : nat) : bool :=
  negb (load_u8 obj off =? 0).

(** A little-endian [uint32_t]. *)
Definition load_u32 (obj : list Byte.byte) (off : nat) : Z :=
  load_u8 obj off + 256 * (load_u8 obj (off + 1)
    + 256 * (load_u8 obj (off + 2) + 256 * load_u8 obj (off + 3))).

Definition load_ip_info (obj : list Byte.byte) (off : nat) : esp_netif_ip_info_t :=
  mk_ip_info (load_u32 obj off) (load_u32 obj (off + 4)) (load_u32 obj (off + 8)).

Definition load_bytes (obj : list Byte.byte) (off len : nat) : list Byte.byte :=
  take len (drop off obj).

(** Overwrite [obj] from offset [off] with [bs]. *)
Definition store_bytes (obj : list Byte.byte) (off : nat) (bs : list Byte.byte)
    : list Byte.byte :=
  take off obj ++ bs ++ drop (off + length bs) obj.

(** [strncpy(dst, src, n)]: the [n] bytes written to [dst].  [src] is the
    source array; the end of the list stands for the NUL that ends a string
    literal. *)
Fixpoint strncpy (src : list Byte.byte) (n : nat) : list Byte.byte :=
  match n with
  | O => []
  | S n' =>
      match src with
      | [] => repeat Byte.x00 n
      | c :: src' =>
          if Z_of_byte c =? 0 then repeat Byte.x00 n else c :: strncpy src' n'
      end
  end.

(** The Kconfig defaults [get_default_config_from_kconfig] is compiled
    with; an [#ifdef] that is not defined is [None] / [false]. *)
Record kconfig : Type := mk_kconfig {
  CONFIG_NET_MANAGER_WIFI_STA_ENABLED_DEFAULT : bool;
  CONFIG_NET_MANAGER_WIFI_STA_SSID_DEFAULT : list Byte.byte;
  CONFIG_NET_MANAGER_WIFI_STA_PASSWORD_DEFAULT : list Byte.byte;
  CONFIG_NET_MANAGER_WIFI_AP_ENABLED_DEFAULT : bool;
  CONFIG_NET_MANAGER_WIFI_AP_SSID_DEFAULT : list Byte.byte;
  CONFIG_NET_MANAGER_WIFI_AP_PASSWORD_DEFAULT : list Byte.byte;
  CONFIG_NET_MANAGER_WIFI_AP_CHANNEL_DEFAULT : Z;
  CONFIG_NET_MANAGER_WIFI_AP_MAX_CONN_DEFAULT : Z;
  CONFIG_NET_MANAGER_ETHERNET_ENABLED_DEFAULT : bool
}.

Definition true_byte : list Byte.byte := [Byte.x01].

Definition get_default_config_from_kconfig (k : kconfig) : list Byte.byte :=
  let c0 := repeat Byte.x00 sizeof_net_manager_config_t in
  let c1 :=
    if CONFIG_NET_MANAGER_WIFI_STA_ENABLED_DEFAULT k then
      let a := store_bytes c0 offsetof_wifi_sta_enabled true_byte in
      let b := store_bytes a (offsetof_wifi_sta_config + sta_ssid)
                 (strncpy (CONFIG_NET_MANAGER_WIFI_STA_SSID_DEFAULT k) (32 - 1)) in
      store_bytes b (offsetof_wifi_sta_config + sta_password)
        (strncpy (CONFIG_NET_MANAGER_WIFI_STA_PASSWORD_DEFAULT k) (64 - 1))
    else c0 in
  let c2 :=
    if CONFIG_NET_MANAGER_WIFI_AP_ENABLED_DEFAULT k then
      let a := store_bytes c1 offsetof_wifi_ap_enabled true_byte in
      let b := store_bytes a (offsetof_wifi_ap_config + ap_ssid)
                 (strncpy (CONFIG_NET_MANAGER_WIFI_AP_SSID_DEFAULT k) (32 - 1)) in
      let c := store_bytes b (offsetof_wifi_ap_config + ap_password)
                 (strncpy (CONFIG_NET_MANAGER_WIFI_AP_PASSWORD_DEFAULT k) (64 - 1)) in
      let d := store_bytes c (offsetof_wifi_ap_config + ap_channel)
                 [byte_of_Z (CONFIG_NET_MANAGER_WIFI_AP_CHANNEL_DEFAULT k)] in
      store_bytes d (offsetof_wifi_ap_config + ap_max_connections)
        [byte_of_Z (CONFIG_NET_MANAGER_WIFI_AP_MAX_CONN_DEFAULT k)]
    else c1 in
  if CONFIG_NET_MANAGER_ETHERNET_ENABLED_DEFAULT k then
    store_bytes c2 offsetof_ethernet_enabled true_byte
  else c2.

(** ** The NVS key-value store

    NVS belongs to ESP-IDF, not to this component.  The model keeps, per
    namespace, the blobs by key, and follows the documented contract of the
    four calls the component makes: [nvs_open] fails with
    [ESP_ERR_NVS_NOT_INITIALIZED] before [nvs_flash_init] and, read-only,
    with [ESP_ERR_NVS_NOT_FOUND] on a namespace that does not exist yet;
    [nvs_get_blob] answers [ESP_ERR_NVS_NOT_FOUND] for a missing key,
    [ESP_ERR_NVS_INVALID_LENGTH] (writing the needed length back, nothing
    copied) when the blob is longer than the buffer, and otherwise copies
    the blob and writes its length back. *)

Record nvs_store : Type := mk_nvs {
  nvs_ready : bool;
  nvs_data : gmap string (gmap string (list Byte.byte))
}.

Inductive nvs_open_mode_t : Type := NVS_READONLY | NVS_READWRITE.

Definition NVS_NAMESPACE : string := "net_manager".
Definition NVS_CONFIG_KEY : string := "net_config".

Definition nvs_open (s : nvs_store) (namespace : string) (mode : nvs_open_mode_t)
    : esp_err_t * nvs_store :=
  if negb (nvs_ready s) then (ESP_ERR_NVS_NOT_INITIALIZED, s)
  else match nvs_data s !! namespace, mode with
       | Some _, _ => (ESP_OK, s)
       | None, NVS_READONLY => (ESP_ERR_NVS_NOT_FOUND, s)
       | None, NVS_READWRITE =>
           (ESP_OK, mk_nvs (nvs_ready s) (<[namespace := ∅]> (nvs_data s)))
       end.

Definition nvs_set_blob (s : nvs_store) (namespace key : string)
    (value : list Byte.byte) : esp_err_t * nvs_store :=
  let entries := default ∅ (nvs_data s !! namespace) in
  (ESP_OK, mk_nvs (nvs_ready s) (<[namespace := <[key := value]> entries]> (nvs_data s))).

Definition nvs_commit (s : nvs_store) : esp_err_t := ESP_OK.

(** [nvs_get_blob(h, key, out, &length)]: the result, the buffer and
    [length] afterwards. *)
Definition nvs_get_blob (s : nvs_store) (namespace key : string)
    (out : list Byte.byte) (length : nat) : esp_err_t * list Byte.byte * nat :=
  match default ∅ (nvs_data s !! namespace) !! key with
  | None => (ESP_ERR_NVS_NOT_FOUND, out, length)
  | Some blob =>
      if (length <? List.length blob)%nat
      then (ESP_ERR_NVS_INVALID_LENGTH, out, List.length blob)
      else (ESP_OK, blob ++ drop (List.length blob) out, List.length blob)
  end.

(** [net_manager_save_config_to_nvs]; [None] is the failed [assert]. *)
Definition net_manager_save_config_to_nvs (st : component) (s : nvs_store)
    (config : list Byte.byte) : option (esp_err_t * nvs_store) :=
  if negb (s_is_initialized st) then None
  else
    let '(err, s1) := nvs_open s NVS_NAMESPACE NVS_READWRITE in
    if negb (err =? ESP_OK) then Some (err, s1)
    else
      let '(err, s2) :=
        nvs_set_blob s1 NVS_NAMESPACE NVS_CONFIG_KEY
          (take sizeof_net_manager_config_t config) in
      let err := if err =? ESP_OK then nvs_commit s2 else err in
      Some (err, s2).

(** [net_manager_load_config_from_nvs]: the result and the caller's buffer
    afterwards; [None] is the failed [assert]. *)
Definition net_manager_load_config_from_nvs (st : component) (s : nvs_store)
    (config : list Byte.byte) : option (esp_err_t * list Byte.byte) :=
  if negb (s_is_initialized st) then None
  else
    let '(err, _) := nvs_open s NVS_NAMESPACE NVS_READONLY in
    if negb (err =? ESP_OK) then Some (err, config)
    else
      let required_size := sizeof_net_manager_config_t in
      let '(err, config1, required_size) :=
        nvs_get_blob s NVS_NAMESPACE NVS_CONFIG_KEY config required_size in
      if (err =? ESP_OK) && negb (required_size =? sizeof_net_manager_config_t)%nat
      then Some (ESP_FAIL, config1)
      else Some (err, config1).

(** ** The interface lifecycle manager *)

Section Lifecycle.

Variable drv : drivers.
Variable kc : kconfig.
Variable nvs : nvs_store.

(** The static-IP block shared by [start_sta] and [start_eth]: stop the
    DHCP client, set the address, then the DNS servers that are not zero. *)
Definition apply_static_ip (netif : ptr) (info : esp_netif_ip_info_t)
    (dns1 dns2 : Z) : M unit :=
  checked (NetifDhcpcStop netif) (drv_dhcpc_stop drv netif);;
  checked (NetifSetIpInfo netif info) (drv_set_ip_info drv netif);;
  when (negb (dns1 =? 0))
    (checked (NetifSetDnsInfo netif ESP_NETIF_DNS_MAIN dns1)
             (drv_set_dns_info drv netif ESP_NETIF_DNS_MAIN));;
  when (negb (dns2 =? 0))
    (checked (NetifSetDnsInfo netif ESP_NETIF_DNS_BACKUP dns2)
             (drv_set_dns_info drv netif ESP_NETIF_DNS_BACKUP)).

(** [start_sta(&cfg.wifi_sta_config)] *)
Definition start_sta (cfg : list Byte.byte) : M esp_err_t :=
  let base := offsetof_wifi_sta_config in
  let netif := drv_create_default_wifi_sta drv in
  call (NetifCreate netif);;
  modify (with_netif_sta netif);;
  assert (negb (is_null netif));;
  when (load_bool cfg (base + sta_use_static_ip))
    (apply_static_ip netif (load_ip_info cfg (base + sta_ip_info_off))
       (load_u32 cfg (base + sta_dns1)) (load_u32 cfg (base + sta_dns2)));;
  checked
    (WifiSetConfig ESP_IF_WIFI_STA
       (wifi_sta_config (strncpy (load_bytes cfg (base + sta_ssid) 32) 32)
                        (strncpy (load_bytes cfg (base + sta_password) 64) 64)))
    (drv_wifi_set_config drv ESP_IF_WIFI_STA);;
  mret ESP_OK.

(** [start_ap(&cfg.wifi_ap_config)] *)
Definition start_ap (cfg : list Byte.byte) : M esp_err_t :=
  let base := offsetof_wifi_ap_config in
  let netif := drv_create_default_wifi_ap drv in
  call (NetifCreate netif);;
  modify (with_netif_ap netif);;
  assert (negb (is_null netif));;
  let authmode :=
    if load_u8 cfg (base + ap_password) =? 0   (* strlen(password) == 0 *)
    then WIFI_AUTH_OPEN else WIFI_AUTH_WPA2_PSK in
  checked
    (WifiSetConfig ESP_IF_WIFI_AP
       (wifi_ap_config (strncpy (load_bytes cfg (base + ap_ssid) 32) 32)
                       (strncpy (load_bytes cfg (base + ap_password) 64) 64)
                       (load_u8 cfg (base + ap_channel))
                       (load_u8 cfg (base + ap_max_connections))
                       authmode))
    (drv_wifi_set_config drv ESP_IF_WIFI_AP);;
  mret ESP_OK.

(** [start_eth(&cfg.ethernet_config)] *)
Definition start_eth (cfg : list Byte.byte) : M esp_err_t :=
  let base := offsetof_ethernet_config in
  let '(err, handles, num) := drv_ethernet_init_all drv in
  call EthernetInitAll;;
  modify (with_eth_handles handles (wrap_uint8 num));;
  ESP_ERROR_CHECK err;;
  st ← get;
  if s_eth_handles_num st =? 0 then mret ESP_FAIL
  else
    let netif := drv_netif_new drv in
    call (NetifCreate netif);;
    modify (with_netif_eth netif);;
    assert (negb (is_null netif));;
    when (load_bool cfg (base + eth_use_static_ip))
      (apply_static_ip netif (load_ip_info cfg (base + eth_ip_info_off))
         (load_u32 cfg (base + eth_dns1)) (load_u32 cfg (base + eth_dns2)));;
    checked (NetifAttach netif (drv_eth_handle0 drv)) (drv_netif_attach drv);;
    checked (EthStart (drv_eth_handle0 drv)) (drv_eth_start drv);;
    mret ESP_OK.

(** [stop_all_interfaces()] *)
Definition stop_all_interfaces : M unit :=
  st ← get;
  let wifi_active := negb (is_null (s_netif_sta st)) || negb (is_null (s_netif_ap st)) in
  when (negb (is_null (s_netif_eth st)))
    (call (NetifDestroy (s_netif_eth st));; modify (with_netif_eth NULL));;
  when (negb (is_null (s_eth_handles st)))
    (call (EthernetDeinitAll (s_eth_handles st));; modify (with_eth_handles NULL 0));;
  when wifi_active
    (call WifiStop;;
     call WifiDeinit;;
     when (negb (is_null (s_netif_sta st)))
       (call (NetifDestroy (s_netif_sta st));; modify (with_netif_sta NULL));;
     when (negb (is_null (s_netif_ap st)))
       (call (NetifDestroy (s_netif_ap st));; modify (with_netif_ap NULL)));;
  modify (with_status (fun _ => status_zero));;
  modify (with_status (set_sta_status NET_STATUS_STOPPED));;
  modify (with_status (set_ap_status NET_STATUS_STOPPED));;
  modify (with_status (set_eth_status NET_STATUS_STOPPED));;
  modify (with_retry_count 0).

(** The mode [net_manager_start] selects. *)
Definition select_wifi_mode (sta_enabled ap_enabled : bool) : wifi_mode_t :=
  if sta_enabled && ap_enabled then WIFI_MODE_APSTA
  else if sta_enabled then WIFI_MODE_STA
  else if ap_enabled then WIFI_MODE_AP
  else WIFI_MODE_NULL.

(** The first part of [net_manager_start]: the local [cfg] is a copy of
    [*config] or, for a NULL [config] ([None]), what the store holds, or
    the Kconfig defaults when loading fails.  [stack] is what the local
    [cfg] holds before it is written. *)
Definition local_config (st : component) (stack : list Byte.byte)
    (config : option (list Byte.byte)) : M (list Byte.byte) :=
  match config with
  | Some c => mret (take sizeof_net_manager_config_t c)
  | None =>
      match net_manager_load_config_from_nvs st nvs stack with
      | None => abort
      | Some (err, cfg1) =>
          if negb (err =? ESP_OK)
          then mret (get_default_config_from_kconfig kc)
          else mret cfg1
      end
  end.

Definition is_mode_null (mode : wifi_mode_t) : bool :=
  match mode with WIFI_MODE_NULL => true | _ => false end.

(** [net_manager_start(config)] *)
Definition net_manager_start (stack : list Byte.byte)
    (config : option (list Byte.byte)) : M esp_err_t :=
  st ← get;
  assert (s_is_initialized st);;
  stop_all_interfaces;;
  st ← get;
  cfg ← local_config st stack config;
  let wifi_sta_enabled := load_bool cfg offsetof_wifi_sta_enabled in
  let wifi_ap_enabled := load_bool cfg offsetof_wifi_ap_enabled in
  let ethernet_enabled := load_bool cfg offsetof_ethernet_enabled in
  let is_wifi_needed := wifi_sta_enabled || wifi_ap_enabled in
  when is_wifi_needed
    (checked WifiInit (drv_wifi_init drv);;
     let mode := select_wifi_mode wifi_sta_enabled wifi_ap_enabled in
     when (negb (is_mode_null mode))
       (checked (WifiSetMode mode) (drv_wifi_set_mode drv)));;
  when wifi_sta_enabled (discard (start_sta cfg));;
  when wifi_ap_enabled (discard (start_ap cfg));;
  when ethernet_enabled (discard (start_eth cfg));;
  when is_wifi_needed (checked WifiStart (drv_wifi_start drv));;
  mret ESP_OK.

(** [net_manager_stop()] *)
Definition net_manager_stop : M esp_err_t :=
  st ← get;
  assert (s_is_initialized st);;
  stop_all_interfaces;;
  mret ESP_OK.

(** The netif the two query functions select for [source]. *)
Definition netif_of_source (st : component) (source : net_event_source_t) : ptr :=
  let netif := NULL in
  match source with
  | NET_EVENT_SOURCE_STA => s_netif_sta st
  | NET_EVENT_SOURCE_ETHERNET => s_netif_eth st
  | NET_EVENT_SOURCE_AP => netif
  end.

(** [net_manager_get_ip_info(source, &buf)]: the result and the buffer
    afterwards; [None] is the failed [assert]. *)
Definition net_manager_get_ip_info (st : component) (source : net_event_source_t)
    (buf : esp_netif_ip_info_t) : option (esp_err_t * esp_netif_ip_info_t) :=
  if negb (s_is_initialized st) then None
  else
    let netif := netif_of_source st source in
    if is_null netif then Some (ESP_ERR_INVALID_ARG, buf)
    else Some (esp_netif_get_ip_info drv netif buf).

(** [esp_netif_get_dns_info(netif, type, &buf)] on a netif that is not
    NULL. *)
Definition esp_netif_get_dns_info (netif : ptr) (type : esp_netif_dns_type_t)
    (buf : Z) : esp_err_t * Z :=
  let '(err, addr) := drv_netif_dns_info drv netif type in
  if err =? ESP_OK then (err, addr) else (err, buf).

(** [net_manager_get_dns_info(source, type, &buf)] *)
Definition net_manager_get_dns_info (st : component) (source : net_event_source_t)
    (type : esp_netif_dns_type_t) (buf : Z) : option (esp_err_t * Z) :=
  if negb (s_is_initialized st) then None
  else
    let netif := netif_of_source st source in
    if is_null netif then Some (ESP_ERR_INVALID_ARG, buf)
    else Some (esp_netif_get_dns_info netif type buf).

End Lifecycle.

(** ** Observations on traces and concrete inputs *)

(** The arguments of the [vTaskDelay] calls of a trace, in milliseconds. *)
Fixpoint delays (tr : list action) : list Z :=
  match tr with
  | [] => []
  | TaskDelay ms :: tr' => ms :: delays tr'
  | _ :: tr' => delays tr'
  end.

(** The number of [esp_wifi_connect] calls of a trace. *)
Fixpoint reconnect_attempts (tr : list action) : nat :=
  match tr with
  | [] => O
  | WifiConnect :: tr' => S (reconnect_attempts tr')
  | _ :: tr' => reconnect_attempts tr'
  end.

(** The statuses handed to the subscriber, in order. *)
Fixpoint emitted (tr : list action) : list net_status_t :=
  match tr with
  | [] => []
  | Callback ev :: tr' => status ev :: emitted tr'
  | _ :: tr' => emitted tr'
  end.

Definition is_connecting (s : net_status_t) : bool :=
  match s with NET_STATUS_CONNECTING => true | _ => false end.

(** The number of Connecting events handed to the subscriber. *)
Definition connecting_emissions (tr : list action) : nat :=
  List.length (List.filter is_connecting (emitted tr)).

(** The raw events the claims speak about. *)
Definition sta_disconnected (event_data : list Byte.byte) : raw_event :=
  WIFI_EVENT WIFI_EVENT_STA_DISCONNECTED event_data.
Definition ap_client_join (event_data : list Byte.byte) : raw_event :=
  WIFI_EVENT WIFI_EVENT_AP_STACONNECTED event_data.
Definition ap_client_leave (event_data : list Byte.byte) : raw_event :=
  WIFI_EVENT WIFI_EVENT_AP_STADISCONNECTED event_data.

(** The two events handed to the subscriber on the STA retry path. *)
Definition ev_sta_disconnected : net_manager_event_t :=
  mk_event NET_EVENT_SOURCE_STA NET_STATUS_DISCONNECTED NoData.
Definition ev_sta_connecting : net_manager_event_t :=
  mk_event NET_EVENT_SOURCE_STA NET_STATUS_CONNECTING NoData.

(** "AddressInfo is non-zero only when that interface's status is
    Connected", for the three interfaces of a status record. *)
Definition address_only_when_connected (s : net_manager_status_t) : Prop :=
  (sta_ip_info s <> ip_info_zero -> sta_status s = NET_STATUS_CONNECTED) /\
  (ap_ip_info s <> ip_info_zero -> ap_status s = NET_STATUS_CONNECTED) /\
  (eth_ip_info s <> ip_info_zero -> eth_status s = NET_STATUS_CONNECTED).

(** [e] is an address-acquired event of the netif [netif] carrying [info]. *)
Definition acquires (netif : ptr) (info : esp_netif_ip_info_t) (e : raw_event) : Prop :=
  exists id, e = IP_EVENT id (mk_got_ip netif info).

(** The component of a finished run, if it did not abort. *)
Definition final_state {A : Type} (r : result A) : option component :=
  match r with
  | Aborted _ => None
  | Returned _ st _ => Some st
  end.

(** The blob the store holds under the component's namespace and key. *)
Definition stored_config (s : nvs_store) : option (list Byte.byte) :=
  default ∅ (nvs_data s !! NVS_NAMESPACE) !! NVS_CONFIG_KEY.

(** A component as [net_manager_init(cb)] leaves it: status zeroed, no
    interface handle yet. *)
Definition component_after_init (cb : ptr) : component :=
  mk_component true NULL NULL NULL NULL 0 status_zero cb 0.

(** A component with a running station interface whose netif is [sta]. *)
Definition component_with_sta (cb sta : ptr) : component :=
  mk_component true sta NULL NULL NULL 0
    (mk_status NET_STATUS_CONNECTING NET_STATUS_STOPPED NET_STATUS_STOPPED
               ip_info_zero ip_info_zero ip_info_zero 0)
    cb 0.

(** Drivers that accept every call; [ethernet_init_all] finds [eth_num]
    devices. *)
Definition drivers_ok (eth_num : Z) : drivers :=
  mk_drivers
    (fun _ => mk_ip_info 3232236545 4294967040 3232236545) (* 192.168.4.1/24 *)
    (fun _ _ => (ESP_OK, 134744072))                        (* 8.8.8.8 *)
    ESP_OK ESP_OK (fun _ => ESP_OK) ESP_OK
    1073610000 1073610100 1073610200
    (fun _ => ESP_OK) (fun _ => ESP_OK) (fun _ _ => ESP_OK)
    (ESP_OK, 1073620000, eth_num) 1073620100 ESP_OK ESP_OK.

Definition kconfig_none : kconfig :=
  mk_kconfig false [] [] false [] [] 1 4 false.

Definition nvs_empty : nvs_store := mk_nvs true ∅.

(** A configuration with the station ("home") and Ethernet enabled, DHCP
    on both. *)
Definition config_sta_eth : list Byte.byte :=
  let c0 := repeat Byte.x00 sizeof_net_manager_config_t in
  let c1 := store_bytes c0 offsetof_wifi_sta_enabled true_byte in
  let c2 := store_bytes c1 offsetof_ethernet_enabled true_byte in
  store_bytes c2 (offsetof_wifi_sta_config + sta_ssid)
    [Byte.x68; Byte.x6f; Byte.x6d; Byte.x65].

(** ** The remaining public functions of [net_manager.c] *)

Definition ESP_ERR_WIFI_NOT_STARTED : esp_err_t := 12290.   (* 0x3002 *)

Definition with_user_callback (cb : ptr) (st : component) : component :=
  mk_component (s_is_initialized st) (s_netif_sta st) (s_netif_ap st)
    (s_netif_eth st) (s_eth_handles st) (s_eth_handles_num st)
    (s_status st) cb (s_sta_retry_count st).

Definition with_is_initialized (b : bool) (st : component) : component :=
  mk_component b (s_netif_sta st) (s_netif_ap st)
    (s_netif_eth st) (s_eth_handles st) (s_eth_handles_num st)
    (s_status st) (s_user_callback st) (s_sta_retry_count st).

(** [net_manager_is_sta_connected()]; [None] is the failed [assert]. *)
Definition net_manager_is_sta_connected (st : component) : option bool :=
  if s_is_initialized st
  then Some (bool_decide (sta_status (s_status st) = NET_STATUS_CONNECTED))
  else None.

(** [net_manager_is_eth_connected()] *)
Definition net_manager_is_eth_connected (st : component) : option bool :=
  if s_is_initialized st
  then Some (bool_decide (eth_status (s_status st) = NET_STATUS_CONNECTED))
  else None.

(** [net_manager_get_ap_clients_list(&clients)]: the result and the
    caller's list afterwards.  [esp_wifi_ap_get_sta_list] is the driver
    call, acting on the caller's list. *)
Definition net_manager_get_ap_clients_list
    (esp_wifi_ap_get_sta_list :
       list (list Byte.byte) -> esp_err_t * list (list Byte.byte))
    (st : component) (clients : list (list Byte.byte))
    : option (esp_err_t * list (list Byte.byte)) :=
  if negb (s_is_initialized st) then None
  else if is_null (s_netif_ap st) then Some (ESP_ERR_WIFI_NOT_STARTED, clients)
  else Some (esp_wifi_ap_get_sta_list clients).

(** *** [net_manager_init] and [net_manager_deinit]

    The two functions create and delete [s_component_mutex], the one static
    variable that [component] does not hold; an [instance] adds it.  Their
    calls into FreeRTOS, esp_netif and the event loop are recorded as
    [sys_call]s; what these answer is read from a record [rtos]. *)

Inductive esp_event_base_t : Type :=
| WIFI_EVENT_BASE | IP_EVENT_BASE | ETH_EVENT_BASE.

Record rtos : Type := mk_rtos {
  rtos_create_mutex : ptr;                           (* xSemaphoreCreateMutex() *)
  rtos_netif_init : esp_err_t;                       (* esp_netif_init() *)
  rtos_event_loop_create_default : esp_err_t;
  rtos_handler_register : esp_event_base_t -> esp_err_t
}.

Inductive sys_call : Type :=
| SemaphoreCreateMutex
| SemaphoreDelete (mutex : ptr)
| EspNetifInit
| EventLoopCreateDefault
| HandlerRegister (base : esp_event_base_t)
| HandlerUnregister (base : esp_event_base_t)
| Component (a : action).                            (* a call of the lifecycle functions *)

Record instance : Type := mk_instance {
  the_component : component;
  s_component_mutex : ptr
}.

Inductive outcome : Type :=
| Crashed (tr : list sys_call)
| Finished (err : esp_err_t) (i : instance) (tr : list sys_call).

(** A run of [ESP_ERROR_CHECK(call)] statements: the calls made, up to and
    including the first one that fails, and whether all succeeded. *)
Fixpoint error_check_all (calls : list (sys_call * esp_err_t))
    : list sys_call * bool :=
  match calls with
  | [] => ([], true)
  | (c, e) :: rest =>
      if e =? ESP_OK
      then let '(tr, ok) := error_check_all rest in (c :: tr, ok)
      else ([c], false)
  end.

Definition net_manager_init (os : rtos) (cb : ptr) (i : instance) : outcome :=
  let st := the_component i in
  if s_is_initialized st then Finished ESP_OK i []
  else
    let mutex := rtos_create_mutex os in
    if is_null mutex
    then Finished ESP_FAIL (mk_instance st mutex) [SemaphoreCreateMutex]
    else
      let st1 := with_status (fun _ => status_zero) st in
      let st2 := with_user_callback cb st1 in
      let '(tr, ok) :=
        error_check_all
          [(EspNetifInit, rtos_netif_init os);
           (EventLoopCreateDefault, rtos_event_loop_create_default os);
           (HandlerRegister WIFI_EVENT_BASE, rtos_handler_register os WIFI_EVENT_BASE);
           (HandlerRegister IP_EVENT_BASE, rtos_handler_register os IP_EVENT_BASE);
           (HandlerRegister ETH_EVENT_BASE, rtos_handler_register os ETH_EVENT_BASE)] in
      if ok
      then Finished ESP_OK (mk_instance (with_is_initialized true st2) mutex)
             (SemaphoreCreateMutex :: tr)
      else Crashed (SemaphoreCreateMutex :: tr).

Definition net_manager_deinit (i : instance) : outcome :=
  let st := the_component i in
  if negb (s_is_initialized st) then Finished ESP_OK i []
  else
    match stop_all_interfaces st with
    | Aborted tr => Crashed (map Component tr)
    | Returned _ st1 tr =>
        Finished ESP_OK (mk_instance (with_is_initialized false st1) NULL)
          (map Component tr
             ++ [HandlerUnregister WIFI_EVENT_BASE;
                 HandlerUnregister IP_EVENT_BASE;
                 HandlerUnregister ETH_EVENT_BASE;
                 SemaphoreDelete (s_component_mutex i)])
    end.

(** ** Further observations *)

(** The events handed to the subscriber, in order. *)
Fixpoint callbacks (tr : list action) : list net_manager_event_t :=
  match tr with
  | [] => []
  | Callback ev :: tr' => ev :: callbacks tr'
  | _ :: tr' => callbacks tr'
  end.

(** The status the record holds for an interface. *)
Definition stored_status (s : net_manager_status_t) (src : net_event_source_t)
    : net_status_t :=
  match src with
  | NET_EVENT_SOURCE_STA => sta_status s
  | NET_EVENT_SOURCE_AP => ap_status s
  | NET_EVENT_SOURCE_ETHERNET => eth_status s
  end.

(** The raw events for which the handler returns before its dispatch:
    ids without a [case], other event bases, and address events of a netif
    that is neither the station's nor Ethernet's. *)
Definition is_ignored (st : component) (e : raw_event) : bool :=
  match e with
  | WIFI_EVENT (WIFI_EVENT_OTHER _) _ => true
  | WIFI_EVENT _ _ => false
  | IP_EVENT _ ev =>
      negb (esp_netif ev =? s_netif_sta st) && negb (esp_netif ev =? s_netif_eth st)
  | ETH_EVENT (ETHERNET_EVENT_OTHER _) => true
  | ETH_EVENT _ => false
  | OTHER_EVENT _ _ => true
  end.

Definition is_sta_disconnected (e : raw_event) : bool :=
  match e with
  | WIFI_EVENT WIFI_EVENT_STA_DISCONNECTED _ => true
  | _ => false
  end.

Definition is_sta_start (e : raw_event) : bool :=
  match e with
  | WIFI_EVENT WIFI_EVENT_STA_START _ => true
  | _ => false
  end.

(** The three enable flags of a configuration object. *)
Definition cfg_wifi_sta_enabled (cfg : list Byte.byte) : bool :=
  load_bool cfg offsetof_wifi_sta_enabled.
Definition cfg_wifi_ap_enabled (cfg : list Byte.byte) : bool :=
  load_bool cfg offsetof_wifi_ap_enabled.
Definition cfg_ethernet_enabled (cfg : list Byte.byte) : bool :=
  load_bool cfg offsetof_ethernet_enabled.

(** Every driver call of the start sequence succeeds: results ESP_OK,
    handles not NULL, at least one Ethernet device. *)
Record drivers_succeed (drv : drivers) : Prop := mk_drivers_succeed {
  ok_wifi_init : drv_wifi_init drv = ESP_OK;
  ok_wifi_set_mode : drv_wifi_set_mode drv = ESP_OK;
  ok_wifi_set_config : forall ifx, drv_wifi_set_config drv ifx = ESP_OK;
  ok_wifi_start : drv_wifi_start drv = ESP_OK;
  ok_netif_sta : drv_create_default_wifi_sta drv <> NULL;
  ok_netif_ap : drv_create_default_wifi_ap drv <> NULL;
  ok_netif_eth : drv_netif_new drv <> NULL;
  ok_dhcpc_stop : forall p, drv_dhcpc_stop drv p = ESP_OK;
  ok_set_ip_info : forall p, drv_set_ip_info drv p = ESP_OK;
  ok_set_dns_info : forall p t, drv_set_dns_info drv p t = ESP_OK;
  ok_ethernet_init_all :
    exists handles num,
      drv_ethernet_init_all drv = (ESP_OK, handles, num) /\ 0 < num < 256;
  ok_netif_attach : drv_netif_attach drv = ESP_OK;
  ok_eth_start : drv_eth_start drv = ESP_OK
}.

(** The component [stop_all_interfaces] leaves behind. *)
Definition stopped (st : component) : component :=
  mk_component (s_is_initialized st) NULL NULL NULL NULL
    (if is_null (s_eth_handles st) then s_eth_handles_num st else 0)
    (mk_status NET_STATUS_STOPPED NET_STATUS_STOPPED NET_STATUS_STOPPED
               ip_info_zero ip_info_zero ip_info_zero 0)
    (s_user_callback st) 0.

(** The driver calls of [stop_all_interfaces], by the handles that are set. *)
Definition stop_calls (st : component) : list action :=
  (if is_null (s_netif_eth st) then [] else [NetifDestroy (s_netif_eth st)])
  ++ (if is_null (s_eth_handles st) then [] else [EthernetDeinitAll (s_eth_handles st)])
  ++ (if is_null (s_netif_sta st) && is_null (s_netif_ap st) then []
      else [WifiStop; WifiDeinit]
           ++ (if is_null (s_netif_sta st) then [] else [NetifDestroy (s_netif_sta st)])
           ++ (if is_null (s_netif_ap st) then [] else [NetifDestroy (s_netif_ap st)])).

(** FreeRTOS and the event loop accepting every call of [net_manager_init]. *)
Definition rtos_ok : rtos := mk_rtos 1073700000 ESP_OK ESP_OK (fun _ => ESP_OK).

(** The instance of a freshly booted program: every static variable zero. *)
Definition instance_at_boot : instance :=
  mk_instance (mk_component false NULL NULL NULL NULL 0 status_zero NULL 0) NULL.

(** A trace without the calls of the subscriber: the driver calls and
    delays that remain. *)
Fixpoint without_callbacks (tr : list action) : list action :=
  match tr with
  | [] => []
  | Callback _ :: tr' => without_callbacks tr'
  | a :: tr' => a :: without_callbacks tr'
  end.

(** The address info the record holds for an interface. *)
Definition stored_ip_info (s : net_manager_status_t) (src : net_event_source_t)
    : esp_netif_ip_info_t :=
  match src with
  | NET_EVENT_SOURCE_STA => sta_ip_info s
  | NET_EVENT_SOURCE_AP => ap_ip_info s
  | NET_EVENT_SOURCE_ETHERNET => eth_ip_info s
  end.

(** A run that follows calls made earlier. *)
Definition prepend_calls {A : Type} (tr0 : list action) (r : result A) : result A :=
  match r with
  | Aborted tr => Aborted (tr0 ++ tr)
  | Returned v st tr => Returned v st (tr0 ++ tr)
  end.

(** The part of [net_manager_start] that follows the choice of the local
    [cfg]: radio initialisation and mode, the enabled interfaces, radio
    start, [return ESP_OK]. *)
Definition start_interfaces (drv : drivers) (cfg : list Byte.byte) : M esp_err_t :=
  let wifi_sta_enabled := load_bool cfg offsetof_wifi_sta_enabled in
  let wifi_ap_enabled := load_bool cfg offsetof_wifi_ap_enabled in
  let ethernet_enabled := load_bool cfg offsetof_ethernet_enabled in
  let is_wifi_needed := wifi_sta_enabled || wifi_ap_enabled in
  when is_wifi_needed
    (checked WifiInit (drv_wifi_init drv);;
     let mode := select_wifi_mode wifi_sta_enabled wifi_ap_enabled in
     when (negb (is_mode_null mode))
       (checked (WifiSetMode mode) (drv_wifi_set_mode drv)));;
  when wifi_sta_enabled (discard (start_sta drv cfg));;
  when wifi_ap_enabled (discard (start_ap drv cfg));;
  when ethernet_enabled (discard (start_eth drv cfg));;
  when is_wifi_needed (checked WifiStart (drv_wifi_start drv));;
  mret ESP_OK.

(** The configuration a start without argument runs with: the stored blob
    if the store is ready and holds one of the right size, the Kconfig
    defaults otherwise. *)
Definition stored_or_default_config (kc : kconfig) (s : nvs_store) : list Byte.byte :=
  if nvs_ready s then
    match stored_config s with
    | Some blob =>
        if (length blob =? sizeof_net_manager_config_t)%nat
        then blob else get_default_config_from_kconfig kc
    | None => get_default_config_from_kconfig kc
    end
  else get_default_config_from_kconfig kc.

(** The calls of a run, whether it returned or aborted. *)
Definition trace_of {A : Type} (r : result A) : list action :=
  match r with
  | Aborted tr => tr
  | Returned _ _ tr => tr
  end.

(** The calls into the Wi-Fi driver that bring the radio up. *)
Definition is_radio_call (a : action) : bool :=
  match a with
  | WifiInit | WifiSetMode _ | WifiSetConfig _ _ | WifiStart => true
  | _ => false
  end.

(** The blob the store holds under a namespace and key. *)
Definition nvs_lookup (s : nvs_store) (namespace key : string) : option (list Byte.byte) :=
  default ∅ (nvs_data s !! namespace) !! key.

(** The events the handler can hand to the subscriber: per source, the
    statuses it uses and the payload that goes with each. *)
Definition in_vocabulary (ev : net_manager_event_t) : bool :=
  match source ev, status ev, data ev with
  | NET_EVENT_SOURCE_STA, NET_STATUS_CONNECTING, NoData => true
  | NET_EVENT_SOURCE_STA, NET_STATUS_DISCONNECTED, NoData => true
  | NET_EVENT_SOURCE_STA, NET_STATUS_CONNECTED, IpInfoData _ => true
  | NET_EVENT_SOURCE_AP, NET_STATUS_STARTED, IpInfoData _ => true
  | NET_EVENT_SOURCE_AP, NET_STATUS_STOPPED, NoData => true
  | NET_EVENT_SOURCE_AP, NET_STATUS_CLIENT_CONNECTED, ClientData _ => true
  | NET_EVENT_SOURCE_AP, NET_STATUS_CLIENT_DISCONNECTED, ClientData _ => true
  | NET_EVENT_SOURCE_ETHERNET, NET_STATUS_STARTED, NoData => true
  | NET_EVENT_SOURCE_ETHERNET, NET_STATUS_STOPPED, NoData => true
  | NET_EVENT_SOURCE_ETHERNET, NET_STATUS_CONNECTING, NoData => true
  | NET_EVENT_SOURCE_ETHERNET, NET_STATUS_DISCONNECTED, NoData => true
  | NET_EVENT_SOURCE_ETHERNET, NET_STATUS_CONNECTED, IpInfoData _ => true
  | _, _, _ => false
  end.

(** * Properties *)

(** ** Machine arithmetic *)

Lemma wrap_int32_id (z : Z) : -2 ^ 31 <= z < 2 ^ 31 -> wrap_int32 z = z.
Proof.
  intros Hz. unfold wrap_int32.
  rewrite Z.mod_small by lia. lia.
Qed.

Lemma pow2_le_21 (k : Z) : 0 <= k <= 21 -> 0 < 2 ^ k <= 2097152.
Proof.
  intros Hk. split.
  - apply Z.pow_pos_nonneg; lia.
  - change 2097152 with (2 ^ 21). apply Z.pow_le_mono_r; lia.
Qed.

(** Within the range where C defines it, the shift is the product. *)
Lemma shl_int32_1000 (k : Z) : 0 <= k <= 21 -> shl_int32 1000 k = 1000 * 2 ^ k.
Proof.
  intros Hk. unfold shl_int32.
  rewrite Z.mod_small by lia.
  rewrite Z.shiftl_mul_pow2 by lia.
  pose proof (pow2_le_21 k Hk) as Hp.
  apply wrap_int32_id. change (2 ^ 31) with 2147483648. lia.
Qed.

Lemma wrap_uint8_range (z : Z) : 0 <= wrap_uint8 z < 256.
Proof. unfold wrap_uint8. apply Z.mod_pos_bound. lia. Qed.

(** ** Traces *)

Lemma delays_app (a b : list action) : delays (a ++ b) = delays a ++ delays b.
Proof.
  induction a as [|x a IH]; simpl; [reflexivity|].
  destruct x; simpl; rewrite ?IH; reflexivity.
Qed.

Lemma reconnect_attempts_app (a b : list action) :
  reconnect_attempts (a ++ b) = (reconnect_attempts a + reconnect_attempts b)%nat.
Proof.
  induction a as [|x a IH]; simpl; [reflexivity|].
  destruct x; simpl; rewrite ?IH; reflexivity.
Qed.

Lemma emitted_app (a b : list action) : emitted (a ++ b) = emitted a ++ emitted b.
Proof.
  induction a as [|x a IH]; simpl; [reflexivity|].
  destruct x; simpl; rewrite ?IH; reflexivity.
Qed.

Lemma connecting_emissions_app (a b : list action) :
  connecting_emissions (a ++ b)
  = (connecting_emissions a + connecting_emissions b)%nat.
Proof.
  unfold connecting_emissions.
  rewrite emitted_app, List.filter_app, List.length_app. reflexivity.
Qed.

Lemma run_events_cons M drv st e es :
  run_events M drv st (e :: es)
  = (fst (run_events M drv (fst (event_handler M drv st e)) es),
     snd (event_handler M drv st e)
       ++ snd (run_events M drv (fst (event_handler M drv st e)) es)).
Proof.
  simpl. destruct (event_handler M drv st e) as [st1 tr1]. simpl.
  destruct (run_events M drv st1 es) as [st2 tr2]. reflexivity.
Qed.

Lemma run_events_app M drv es1 : forall st es2,
  run_events M drv st (es1 ++ es2)
  = (fst (run_events M drv (fst (run_events M drv st es1)) es2),
     snd (run_events M drv st es1)
       ++ snd (run_events M drv (fst (run_events M drv st es1)) es2)).
Proof.
  induction es1 as [|e es1 IH]; intros st es2.
  - simpl. destruct (run_events M drv st es2); reflexivity.
  - rewrite <- app_comm_cons. rewrite !run_events_cons. rewrite IH. simpl.
    rewrite app_assoc. reflexivity.
Qed.

(** ** The STA disconnect step *)

(** The retry branch: the counter is incremented first, the delay is taken
    from the incremented counter. *)
Lemma sta_disconnected_retry M drv st d :
  M < 0 \/ s_sta_retry_count st < M ->
  event_handler M drv st (sta_disconnected d)
  = (with_status (set_sta_status NET_STATUS_CONNECTING)
       (with_retry_count (wrap_int32 (s_sta_retry_count st + 1))
          (with_status (set_sta_status NET_STATUS_DISCONNECTED) st)),
     notify st ev_sta_disconnected
       ++ [TaskDelay (shl_int32 1000 (wrap_int32 (s_sta_retry_count st + 1)));
           WifiConnect]
       ++ notify st ev_sta_connecting).
Proof.
  intros Hretry. unfold sta_disconnected, event_handler. simpl.
  assert ((M <? 0) || (s_sta_retry_count st <? M) = true) as ->.
  { apply orb_true_iff. destruct Hretry; [left|right]; apply Z.ltb_lt; lia. }
  unfold dispatch, notify. simpl. rewrite <- app_assoc. reflexivity.
Qed.

(** The give-up branch: no delay, no connect; the Disconnected event is
    handed over by the early notification and again by the common tail. *)
Lemma sta_disconnected_give_up M drv st d :
  0 <= M <= s_sta_retry_count st ->
  event_handler M drv st (sta_disconnected d)
  = (with_status (set_sta_status NET_STATUS_DISCONNECTED) st,
     notify st ev_sta_disconnected ++ notify st ev_sta_disconnected).
Proof.
  intros Hstop. unfold sta_disconnected, event_handler. simpl.
  assert ((M <? 0) || (s_sta_retry_count st <? M) = false) as ->.
  { apply orb_false_iff. split; apply Z.ltb_ge; lia. }
  reflexivity.
Qed.

Lemma delays_notify st ev : delays (notify st ev) = [].
Proof. unfold notify. destruct (is_null _); reflexivity. Qed.

Lemma reconnect_attempts_notify st ev : reconnect_attempts (notify st ev) = O.
Proof. unfold notify. destruct (is_null _); reflexivity. Qed.

Lemma connecting_emissions_notify st ev :
  connecting_emissions (notify st ev)
  = if is_null (s_user_callback st) then O
    else if is_connecting (status ev) then 1%nat else O.
Proof.
  unfold notify, connecting_emissions.
  destruct (is_null _); simpl; [reflexivity|].
  destruct (is_connecting _); reflexivity.
Qed.

(** ** C1: the backoff delay *)

Lemma map_seq_succ {A : Type} (f : nat -> A) (k : nat) : forall a,
  map f (seq (S a) k) = map (fun i => f (S i)) (seq a k).
Proof.
  induction k as [|k IH]; intros a; simpl; [reflexivity|].
  f_equal. apply IH.
Qed.

Lemma backoff_delays_run M drv ds : forall st,
  0 <= s_sta_retry_count st ->
  M < 0 \/ s_sta_retry_count st + Z.of_nat (length ds) <= M ->
  s_sta_retry_count st + Z.of_nat (length ds) <= 21 ->
  delays (snd (run_events M drv st (map sta_disconnected ds)))
  = map (fun i => 1000 * 2 ^ (s_sta_retry_count st + Z.of_nat i)) (seq 1 (length ds))
  /\ s_sta_retry_count (fst (run_events M drv st (map sta_disconnected ds)))
     = s_sta_retry_count st + Z.of_nat (length ds).
Proof.
  induction ds as [|d ds IH]; intros st Hn HM Hk.
  - simpl. split; [reflexivity | lia].
  - change (map sta_disconnected (d :: ds))
      with (sta_disconnected d :: map sta_disconnected ds).
    rewrite run_events_cons.
    rewrite sta_disconnected_retry by (simpl length in HM; lia).
    cbn [fst snd].
    assert (wrap_int32 (s_sta_retry_count st + 1) = s_sta_retry_count st + 1) as Hw.
    { apply wrap_int32_id. change (2 ^ 31) with 2147483648.
      simpl length in Hk. lia. }
    rewrite Hw.
    set (st1 := with_status _ (with_retry_count _ _)).
    assert (s_sta_retry_count st1 = s_sta_retry_count st + 1) as Hc by reflexivity.
    destruct (IH st1) as [IHd IHc].
    { rewrite Hc. lia. }
    { rewrite Hc. simpl length in HM. lia. }
    { rewrite Hc. simpl length in Hk. lia. }
    split.
    + rewrite !delays_app, !delays_notify. simpl delays at 1.
      rewrite shl_int32_1000 by (simpl length in Hk; lia).
      rewrite IHd, Hc. simpl length. simpl seq.
      simpl map at 2. cbn [app].
      f_equal.
      etransitivity; [| symmetry; apply (map_seq_succ _ _ 1%nat)].
      apply map_ext. intros i. f_equal. f_equal. lia.
    + rewrite IHc, Hc. simpl length. lia.
Qed.

(** C1 (as amended).  On a STA disconnect event handled with retry counter
    [n] ([0 <= n <= 20], the range in which [1000 << (n+1)] fits an [int])
    and with [M < 0] or [n < M], the dispatcher hands over Disconnected,
    increments the counter to [n+1], waits [1000 << (n+1)] milliseconds,
    i.e. [base_delay * 2^(n+1)] with a base delay of 1000 ms, re-issues the
    connect and hands over Connecting.  Over [k] consecutive disconnect
    events retried from counter [n], the [i]-th delay ([i = 1..k]) is
    [1000 * 2^(n+i)] ms: starting from [n = 0] the delays are 2, 4, 8, ...
    seconds. *)
Theorem C1_backoff_delay_doubles_after_increment :
  forall (M : Z) (drv : drivers) (st : component),
    0 <= s_sta_retry_count st ->
    (forall d,
        M < 0 \/ s_sta_retry_count st < M ->
        s_sta_retry_count st <= 20 ->
        event_handler M drv st (sta_disconnected d)
        = (with_status (set_sta_status NET_STATUS_CONNECTING)
             (with_retry_count (s_sta_retry_count st + 1)
                (with_status (set_sta_status NET_STATUS_DISCONNECTED) st)),
           notify st ev_sta_disconnected
             ++ [TaskDelay (1000 * 2 ^ (s_sta_retry_count st + 1)); WifiConnect]
             ++ notify st ev_sta_connecting))
    /\
    (forall ds,
        M < 0 \/ s_sta_retry_count st + Z.of_nat (length ds) <= M ->
        s_sta_retry_count st + Z.of_nat (length ds) <= 21 ->
        delays (snd (run_events M drv st (map sta_disconnected ds)))
        = map (fun i => 1000 * 2 ^ (s_sta_retry_count st + Z.of_nat i))
              (seq 1 (length ds))
        /\ s_sta_retry_count (fst (run_events M drv st (map sta_disconnected ds)))
           = s_sta_retry_count st + Z.of_nat (length ds)).
Proof.
  intros M drv st Hn. split.
  - intros d Hretry Hsmall.
    rewrite sta_disconnected_retry by assumption.
    rewrite wrap_int32_id by (change (2 ^ 31) with 2147483648; lia).
    rewrite shl_int32_1000 by lia. reflexivity.
  - intros ds HM Hk. apply backoff_delays_run; assumption.
Qed.

(** The 3-retry scenario: with at most 3 retries, four disconnect events in
    a row from a fresh counter are answered with delays of 2000, 4000 and
    8000 ms, and the single retry from counter 0 waits 2000 ms. *)
Lemma C1_backoff_delay_witness :
  delays (snd (run_events 3 (drivers_ok 0) (component_with_sta 77 5)
                 (map sta_disconnected [[]; []; []])))
  = [2000; 4000; 8000]
  /\ snd (event_handler 3 (drivers_ok 0) (component_with_sta 77 5) (sta_disconnected []))
     = [Callback ev_sta_disconnected; TaskDelay 2000; WifiConnect;
        Callback ev_sta_connecting].
Proof.
  destruct (C1_backoff_delay_doubles_after_increment 3 (drivers_ok 0)
              (component_with_sta 77 5)) as [Hstep Hrun].
  { simpl. lia. }
  split.
  - destruct (Hrun [[]; []; []]) as [Hd _].
    + right. simpl. lia.
    + simpl. lia.
    + exact Hd.
  - rewrite (Hstep []).
    + reflexivity.
    + right. simpl. lia.
    + simpl. lia.
Defined.

(** C1 as stated fails: with [n = 0] and [M = 3] the delay is not
    [base_delay << n] = 1000 ms; the handler increments first and waits
    [1000 << 1] = 2000 ms. *)
Lemma C1_first_delay_is_not_base_delay :
  s_sta_retry_count (component_with_sta 77 5) < 3 /\
  delays (snd (event_handler 3 (drivers_ok 0) (component_with_sta 77 5)
                 (sta_disconnected [])))
  <> [Z.shiftl 1000 (s_sta_retry_count (component_with_sta 77 5))].
Proof.
  split.
  - simpl. lia.
  - vm_compute. discriminate.
Qed.

(** ** C5: the number of reconnect attempts is bounded *)

Lemma disconnects_run M drv ds : forall st,
  0 <= M <= INT_MAX ->
  0 <= s_sta_retry_count st ->
  let r := run_events M drv st (map sta_disconnected ds) in
  Z.of_nat (reconnect_attempts (snd r))
  = Z.max 0 (Z.min (Z.of_nat (length ds)) (M - s_sta_retry_count st))
  /\ (connecting_emissions (snd r) <= reconnect_attempts (snd r))%nat
  /\ (ds <> [] -> M - s_sta_retry_count st < Z.of_nat (length ds) ->
      sta_status (s_status (fst r)) = NET_STATUS_DISCONNECTED
      /\ s_sta_retry_count (fst r) = Z.max M (s_sta_retry_count st)).
Proof.
  unfold INT_MAX.
  induction ds as [|d ds IH]; intros st HM Hn; cbv zeta.
  - cbn [map run_events fst snd reconnect_attempts length].
    split; [lia|]. split; [unfold connecting_emissions; simpl; lia|].
    intros Hne; congruence.
  - change (map sta_disconnected (d :: ds))
      with (sta_disconnected d :: map sta_disconnected ds).
    rewrite run_events_cons.
    destruct (Z_lt_le_dec (s_sta_retry_count st) M) as [Hlt | Hge].
    + (* retry *)
      rewrite sta_disconnected_retry by (right; exact Hlt).
      cbn [fst snd].
      rewrite wrap_int32_id by (change (2 ^ 31) with 2147483648; lia).
      set (st1 := with_status _ (with_retry_count _ _)).
      assert (s_sta_retry_count st1 = s_sta_retry_count st + 1) as Hc by reflexivity.
      destruct (IH st1 HM) as (IHa & IHe & IHs); [rewrite Hc; lia|].
      rewrite Hc in IHa, IHs.
      rewrite !reconnect_attempts_app, !connecting_emissions_app,
        !reconnect_attempts_notify, !connecting_emissions_notify.
      change (reconnect_attempts [TaskDelay _; WifiConnect]) with 1%nat.
      change (connecting_emissions [TaskDelay _; WifiConnect]) with 0%nat.
      simpl length. simpl status. simpl is_connecting.
      split; [lia|]. split.
      * destruct (is_null _); lia.
      * intros _ Hk. destruct ds as [|d' ds'].
        { simpl in Hk. lia. }
        destruct IHs as [Hs Hr]; [congruence | simpl length in *; lia |].
        split; [exact Hs | lia].
    + (* give up *)
      rewrite sta_disconnected_give_up by lia.
      cbn [fst snd].
      set (st1 := with_status _ st).
      assert (s_sta_retry_count st1 = s_sta_retry_count st) as Hc by reflexivity.
      destruct (IH st1 HM) as (IHa & IHe & IHs); [rewrite Hc; lia|].
      rewrite Hc in IHa, IHs.
      rewrite !reconnect_attempts_app, !connecting_emissions_app,
        !reconnect_attempts_notify, !connecting_emissions_notify.
      simpl length. simpl status. simpl is_connecting.
      split; [lia|]. split.
      * destruct (is_null _); lia.
      * intros _ Hk. destruct ds as [|d' ds'].
        { simpl. split; [reflexivity | lia]. }
        destruct IHs as [Hs Hr]; [congruence | simpl length in *; lia |].
        split; [exact Hs | lia].
Qed.

(** C5.  With a maximum of [M >= 0] retries and a retry counter [n >= 0],
    any sequence of STA disconnect events triggers exactly
    [max 0 (min (number of events) (M - n))] reconnect attempts, hence never
    more than [M], and no more Connecting events than attempts; once the
    events outnumber the remaining budget the status settles in
    Disconnected with the counter at [max M n].  When [n >= M], a disconnect
    event causes no delay, no connect and no Connecting event: only
    Disconnected is handed to the subscriber (by the early notification and
    again by the common tail of the handler), the status is Disconnected and
    the counter is unchanged. *)
Theorem C5_reconnect_attempts_never_exceed_max :
  forall (M : Z) (drv : drivers) (st : component) (ds : list (list Byte.byte)),
    0 <= M <= INT_MAX ->
    0 <= s_sta_retry_count st ->
    let r := run_events M drv st (map sta_disconnected ds) in
    Z.of_nat (reconnect_attempts (snd r))
    = Z.max 0 (Z.min (Z.of_nat (length ds)) (M - s_sta_retry_count st))
    /\ Z.of_nat (reconnect_attempts (snd r)) <= M
    /\ Z.of_nat (connecting_emissions (snd r)) <= M
    /\ (ds <> [] -> M - s_sta_retry_count st < Z.of_nat (length ds) ->
        sta_status (s_status (fst r)) = NET_STATUS_DISCONNECTED
        /\ s_sta_retry_count (fst r) = Z.max M (s_sta_retry_count st))
    /\ (M <= s_sta_retry_count st ->
        forall d,
          event_handler M drv st (sta_disconnected d)
          = (with_status (set_sta_status NET_STATUS_DISCONNECTED) st,
             notify st ev_sta_disconnected ++ notify st ev_sta_disconnected)).
Proof.
  intros M drv st ds HM Hn r.
  destruct (disconnects_run M drv ds st HM Hn) as (Ha & He & Hs).
  fold r in Ha, He, Hs.
  split; [exact Ha|]. split; [lia|]. split; [lia|]. split; [exact Hs|].
  intros Hge d. apply sta_disconnected_give_up. lia.
Qed.

(** The scenario of the specification: at most 3 retries, five disconnect
    events in a row. *)
Lemma C5_reconnect_attempts_witness :
  reconnect_attempts
    (snd (run_events 3 (drivers_ok 0) (component_with_sta 77 5)
            (map sta_disconnected [[]; []; []; []; []]))) = 3%nat
  /\ sta_status
       (s_status
          (fst (run_events 3 (drivers_ok 0) (component_with_sta 77 5)
                  (map sta_disconnected [[]; []; []; []; []]))))
     = NET_STATUS_DISCONNECTED.
Proof.
  destruct (C5_reconnect_attempts_never_exceed_max 3 (drivers_ok 0)
              (component_with_sta 77 5) [[]; []; []; []; []])
    as (Ha & _ & _ & Hs & _).
  - unfold INT_MAX. lia.
  - simpl. lia.
  - split.
    + apply Nat2Z.inj. rewrite Ha. reflexivity.
    + destruct Hs as [Hs _]; [discriminate | simpl; lia | exact Hs].
Defined.

(** ** C6: Disconnected is handed over before the delay *)

(** C6.  With a subscriber registered, the first thing the handler does on
    a STA disconnect event is to hand Disconnected to the subscriber; what
    follows is either the retry (delay, connect, Connecting) or the second
    hand-over of Disconnected of the give-up branch. *)
Theorem C6_disconnected_emitted_before_backoff :
  forall (M : Z) (drv : drivers) (st : component) (d : list Byte.byte),
    s_user_callback st <> NULL ->
    exists rest,
      snd (event_handler M drv st (sta_disconnected d))
      = Callback ev_sta_disconnected :: rest
      /\ (rest = [TaskDelay (shl_int32 1000 (wrap_int32 (s_sta_retry_count st + 1)));
                  WifiConnect; Callback ev_sta_connecting]
          \/ rest = [Callback ev_sta_disconnected]).
Proof.
  intros M drv st d Hcb.
  assert (is_null (s_user_callback st) = false) as Hnull.
  { unfold is_null. apply Z.eqb_neq. exact Hcb. }
  unfold sta_disconnected, event_handler, dispatch, notify. simpl.
  rewrite Hnull.
  destruct ((M <? 0) || (s_sta_retry_count st <? M)); simpl;
    eexists; split; try reflexivity; auto.
Qed.

Lemma C6_disconnected_first_witness :
  exists rest,
    snd (event_handler 3 (drivers_ok 0) (component_with_sta 77 5) (sta_disconnected []))
    = Callback ev_sta_disconnected :: rest.
Proof.
  destruct (C6_disconnected_emitted_before_backoff 3 (drivers_ok 0)
              (component_with_sta 77 5) []) as (rest & Hrest & _).
  - simpl. unfold NULL. lia.
  - exists rest. exact Hrest.
Defined.

(** ** C2: the AP client counter *)

(** What one event does to the client counter. *)
Lemma event_handler_clients M drv st e :
  ap_connected_clients (s_status (fst (event_handler M drv st e)))
  = match e with
    | WIFI_EVENT WIFI_EVENT_AP_STACONNECTED _ =>
        wrap_uint8 (ap_connected_clients (s_status st) + 1)
    | WIFI_EVENT WIFI_EVENT_AP_STADISCONNECTED _ =>
        wrap_uint8 (ap_connected_clients (s_status st) - 1)
    | _ => ap_connected_clients (s_status st)
    end.
Proof.
  destruct e as [[] d | id ev | [] | base id]; simpl; try reflexivity.
  - destruct ((M <? 0) || (s_sta_retry_count st <? M)); reflexivity.
  - destruct (esp_netif ev =? s_netif_sta st); [reflexivity|].
    destruct (esp_netif ev =? s_netif_eth st); reflexivity.
Qed.

Lemma joins_run M drv js : forall st,
  0 <= ap_connected_clients (s_status st) < 256 ->
  ap_connected_clients (s_status (fst (run_events M drv st (map ap_client_join js))))
  = (ap_connected_clients (s_status st) + Z.of_nat (length js)) mod 256.
Proof.
  induction js as [|j js IH]; intros st Hc.
  - simpl. rewrite Z.add_0_r, Z.mod_small by lia. reflexivity.
  - change (map ap_client_join (j :: js))
      with (ap_client_join j :: map ap_client_join js).
    rewrite run_events_cons. cbn [fst].
    rewrite IH; rewrite event_handler_clients; unfold ap_client_join.
    + unfold wrap_uint8. rewrite Z.add_mod_idemp_l by lia.
      f_equal. simpl length. lia.
    + apply wrap_uint8_range.
Qed.

Lemma leaves_run M drv ls : forall st,
  0 <= ap_connected_clients (s_status st) < 256 ->
  ap_connected_clients (s_status (fst (run_events M drv st (map ap_client_leave ls))))
  = (ap_connected_clients (s_status st) - Z.of_nat (length ls)) mod 256.
Proof.
  induction ls as [|l ls IH]; intros st Hc.
  - simpl. rewrite Z.sub_0_r, Z.mod_small by lia. reflexivity.
  - change (map ap_client_leave (l :: ls))
      with (ap_client_leave l :: map ap_client_leave ls).
    rewrite run_events_cons. cbn [fst].
    rewrite IH; rewrite event_handler_clients; unfold ap_client_leave.
    + unfold wrap_uint8. rewrite Zminus_mod_idemp_l.
      f_equal. simpl length. lia.
    + apply wrap_uint8_range.
Qed.

(** The counter stays an 8-bit value whatever the events. *)
Lemma clients_in_range M drv es : forall st,
  0 <= ap_connected_clients (s_status st) < 256 ->
  0 <= ap_connected_clients (s_status (fst (run_events M drv st es))) < 256.
Proof.
  induction es as [|e es IH]; intros st Hc.
  - exact Hc.
  - rewrite run_events_cons. cbn [fst]. apply IH.
    rewrite event_handler_clients.
    destruct e as [[] d | id ev | [] | base id];
      first [exact Hc | apply wrap_uint8_range].
Qed.

(** C2 (as amended).  The connected-client counter is a [uint8_t] that
    the handler increments on a join and decrements on a leave, without a
    guard.  [N] joins followed by [L] leaves take it from [c] to
    [(c + N - L) mod 256]; from zero, with [L <= N <= 255], that is
    [N - L].  Over every sequence of events it stays within [0..255], so it
    is never negative, but it does not saturate: a leave event while the
    counter is zero wraps it to 255. *)
Theorem C2_client_counter_is_modulo_256 :
  forall (M : Z) (drv : drivers) (st : component) (js ls : list (list Byte.byte)),
    0 <= ap_connected_clients (s_status st) < 256 ->
    let c := ap_connected_clients (s_status st) in
    let N := Z.of_nat (length js) in
    let L := Z.of_nat (length ls) in
    let r := run_events M drv st (map ap_client_join js ++ map ap_client_leave ls) in
    ap_connected_clients (s_status (fst r)) = (c + N - L) mod 256
    /\ (c = 0 -> L <= N <= 255 -> ap_connected_clients (s_status (fst r)) = N - L)
    /\ (forall es,
           0 <= ap_connected_clients (s_status (fst (run_events M drv st es))) < 256)
    /\ (c = 0 -> forall d,
           ap_connected_clients
             (s_status (fst (event_handler M drv st (ap_client_leave d)))) = 255).
Proof.
  intros M drv st js ls Hc c N L r.
  assert (ap_connected_clients (s_status (fst r)) = (c + N - L) mod 256) as Hr.
  { subst r. rewrite run_events_app. cbn [fst].
    rewrite leaves_run.
    - rewrite joins_run by exact Hc.
      rewrite Zminus_mod_idemp_l. reflexivity.
    - apply clients_in_range. exact Hc. }
  split; [exact Hr|]. split; [|split].
  - intros Hz Hle. rewrite Hr, Hz. apply Z.mod_small. lia.
  - intros es. apply clients_in_range. exact Hc.
  - intros Hz d. rewrite event_handler_clients. unfold ap_client_leave.
    fold c. rewrite Hz. reflexivity.
Qed.

Lemma C2_client_counter_witness :
  ap_connected_clients
    (s_status
       (fst (run_events 3 (drivers_ok 0) (component_after_init 77)
               (map ap_client_join [[]; []; []] ++ map ap_client_leave [[]]))))
  = 2.
Proof.
  destruct (C2_client_counter_is_modulo_256 3 (drivers_ok 0)
              (component_after_init 77) [[]; []; []] [[]]) as (_ & H & _).
  - simpl. lia.
  - apply H; simpl; [reflexivity | lia].
Defined.

(** C2 as stated fails: a leave event while the counter is zero does not
    leave it at zero. *)
Lemma C2_spurious_leave_wraps_to_255 :
  (ap_connected_clients (s_status (component_after_init 77)) = 0)
  /\ (ap_connected_clients
        (s_status (fst (event_handler 3 (drivers_ok 0) (component_after_init 77)
                          (ap_client_leave []))))
      <> 0).
Proof.
  split; [reflexivity | vm_compute; discriminate].
Qed.

(** ** C4: stored address info and status *)

(** Events never touch the interface handles, the initialised flag or the
    subscriber. *)
Lemma event_handler_frame M drv st e :
  let st' := fst (event_handler M drv st e) in
  s_netif_sta st' = s_netif_sta st
  /\ s_netif_eth st' = s_netif_eth st
  /\ s_is_initialized st' = s_is_initialized st.
Proof.
  destruct e as [[] d | id ev | [] | base id]; simpl; auto.
  - destruct ((M <? 0) || (s_sta_retry_count st <? M)); simpl; auto.
  - destruct (esp_netif ev =? s_netif_sta st); simpl; auto.
    destruct (esp_netif ev =? s_netif_eth st); simpl; auto.
Qed.

Lemma run_events_frame M drv es : forall st,
  let st' := fst (run_events M drv st es) in
  s_netif_sta st' = s_netif_sta st
  /\ s_netif_eth st' = s_netif_eth st
  /\ s_is_initialized st' = s_is_initialized st.
Proof.
  induction es as [|e es IH]; intros st; cbv zeta.
  - simpl. auto.
  - rewrite run_events_cons. cbn [fst].
    destruct (IH (fst (event_handler M drv st e))) as (H1 & H2 & H3).
    destruct (event_handler_frame M drv st e) as (G1 & G2 & G3).
    rewrite H1, H2, H3. auto.
Qed.

(** The stored STA address changes only in the step that handles an
    address-acquired event of the STA netif, and that step sets the status
    to Connected. *)
Lemma sta_ip_info_step M drv st e :
  let st' := fst (event_handler M drv st e) in
  sta_ip_info (s_status st') = sta_ip_info (s_status st)
  \/ (sta_status (s_status st') = NET_STATUS_CONNECTED
      /\ acquires (s_netif_sta st) (sta_ip_info (s_status st')) e).
Proof.
  destruct e as [[] d | id ev | [] | base id]; simpl; auto.
  - destruct ((M <? 0) || (s_sta_retry_count st <? M)); simpl; auto.
  - destruct (Z.eqb_spec (esp_netif ev) (s_netif_sta st)) as [Heq | Hne]; simpl.
    + right. split; [reflexivity|]. exists id. destruct ev; simpl in *.
      rewrite Heq. reflexivity.
    + destruct (esp_netif ev =? s_netif_eth st); simpl; auto.
Qed.

Lemma eth_ip_info_step M drv st e :
  let st' := fst (event_handler M drv st e) in
  eth_ip_info (s_status st') = eth_ip_info (s_status st)
  \/ (eth_status (s_status st') = NET_STATUS_CONNECTED
      /\ acquires (s_netif_eth st) (eth_ip_info (s_status st')) e).
Proof.
  destruct e as [[] d | id ev | [] | base id]; simpl; auto.
  - destruct ((M <? 0) || (s_sta_retry_count st <? M)); simpl; auto.
  - destruct (esp_netif ev =? s_netif_sta st); simpl; auto.
    destruct (Z.eqb_spec (esp_netif ev) (s_netif_eth st)) as [Heq | Hne]; simpl; auto.
    right. split; [reflexivity|]. exists id. destruct ev; simpl in *.
    rewrite Heq. reflexivity.
Qed.

Lemma sta_ip_info_run M drv es : forall st,
  let st' := fst (run_events M drv st es) in
  sta_ip_info (s_status st') = sta_ip_info (s_status st)
  \/ exists e, In e es /\ acquires (s_netif_sta st) (sta_ip_info (s_status st')) e.
Proof.
  induction es as [|e es IH]; intros st; cbv zeta.
  - left. reflexivity.
  - rewrite run_events_cons. cbn [fst].
    destruct (event_handler_frame M drv st e) as (Hsta & _ & _).
    destruct (IH (fst (event_handler M drv st e))) as [Hsame | (e' & Hin & Hacq)].
    + rewrite Hsame.
      destruct (sta_ip_info_step M drv st e) as [Hs | [_ Hacq]].
      * left. exact Hs.
      * right. exists e. split; [left; reflexivity | exact Hacq].
    + right. exists e'. split; [right; exact Hin|].
      rewrite <- Hsta. exact Hacq.
Qed.

Lemma eth_ip_info_run M drv es : forall st,
  let st' := fst (run_events M drv st es) in
  eth_ip_info (s_status st') = eth_ip_info (s_status st)
  \/ exists e, In e es /\ acquires (s_netif_eth st) (eth_ip_info (s_status st')) e.
Proof.
  induction es as [|e es IH]; intros st; cbv zeta.
  - left. reflexivity.
  - rewrite run_events_cons. cbn [fst].
    destruct (event_handler_frame M drv st e) as (_ & Heth & _).
    destruct (IH (fst (event_handler M drv st e))) as [Hsame | (e' & Hin & Hacq)].
    + rewrite Hsame.
      destruct (eth_ip_info_step M drv st e) as [Hs | [_ Hacq]].
      * left. exact Hs.
      * right. exists e. split; [left; reflexivity | exact Hacq].
    + right. exists e'. split; [right; exact Hin|].
      rewrite <- Heth. exact Hacq.
Qed.

(** C4 (as amended).  For every sequence of events, [get_status] returns a
    copy of the status record, in which the stored address info of the
    station (and likewise of Ethernet) differs from the one before the
    sequence only if an address-acquired event of that interface occurred
    in it, whose address it then holds; the step handling such an event is
    the only one that changes the stored address, and it sets the status to
    Connected.  A disconnect event changes the status and leaves the stored
    address info as it was, so a stale non-zero address remains while the
    status is not Connected. *)
Theorem C4_address_info_changes_only_on_acquisition :
  forall (M : Z) (drv : drivers) (st : component) (es : list raw_event),
    let st' := fst (run_events M drv st es) in
    (s_is_initialized st = true ->
       net_manager_get_status st' = Some (ESP_OK, s_status st'))
    /\ (sta_ip_info (s_status st') = sta_ip_info (s_status st)
        \/ exists e, In e es
             /\ acquires (s_netif_sta st) (sta_ip_info (s_status st')) e)
    /\ (eth_ip_info (s_status st') = eth_ip_info (s_status st)
        \/ exists e, In e es
             /\ acquires (s_netif_eth st) (eth_ip_info (s_status st')) e)
    /\ (forall e,
          let st1 := fst (event_handler M drv st e) in
          (sta_ip_info (s_status st1) = sta_ip_info (s_status st)
           \/ (sta_status (s_status st1) = NET_STATUS_CONNECTED
               /\ acquires (s_netif_sta st) (sta_ip_info (s_status st1)) e))
          /\ (eth_ip_info (s_status st1) = eth_ip_info (s_status st)
              \/ (eth_status (s_status st1) = NET_STATUS_CONNECTED
                  /\ acquires (s_netif_eth st) (eth_ip_info (s_status st1)) e)))
    /\ (forall d,
          let st1 := fst (event_handler M drv st (sta_disconnected d)) in
          sta_ip_info (s_status st1) = sta_ip_info (s_status st)
          /\ sta_status (s_status st1) <> NET_STATUS_CONNECTED)
    /\ (let st1 := fst (event_handler M drv st (ETH_EVENT ETHERNET_EVENT_DISCONNECTED)) in
        eth_ip_info (s_status st1) = eth_ip_info (s_status st)
        /\ eth_status (s_status st1) = NET_STATUS_DISCONNECTED).
Proof.
  intros M drv st es st'. repeat apply conj.
  - intros Hinit. unfold net_manager_get_status.
    destruct (run_events_frame M drv es st) as (_ & _ & Hi).
    fold st' in Hi. rewrite Hi, Hinit. reflexivity.
  - apply sta_ip_info_run.
  - apply eth_ip_info_run.
  - intros e. split; [apply sta_ip_info_step | apply eth_ip_info_step].
  - intros d. unfold sta_disconnected. simpl.
    destruct ((M <? 0) || (s_sta_retry_count st <? M)); simpl;
      (split; [reflexivity | discriminate]).
  - reflexivity.
  - reflexivity.
Qed.

(** An address acquired by the station is still stored after the station
    has disconnected. *)
Lemma C4_address_info_witness :
  net_manager_get_status
    (fst (run_events 0 (drivers_ok 0) (component_with_sta 77 5)
            [IP_EVENT 0 (mk_got_ip 5 (mk_ip_info 3232235786 4294967040 3232235777));
             sta_disconnected []]))
  = Some (ESP_OK,
          mk_status NET_STATUS_DISCONNECTED NET_STATUS_STOPPED NET_STATUS_STOPPED
            (mk_ip_info 3232235786 4294967040 3232235777) ip_info_zero ip_info_zero 0).
Proof.
  destruct (C4_address_info_changes_only_on_acquisition 0 (drivers_ok 0)
              (component_with_sta 77 5)
              [IP_EVENT 0 (mk_got_ip 5 (mk_ip_info 3232235786 4294967040 3232235777));
               sta_disconnected []]) as (Hget & _).
  rewrite Hget; reflexivity.
Defined.

(** C4 as stated fails: after address acquisition and a disconnect (no
    retries configured) [get_status] returns a record in which the
    station's status is Disconnected and its address info is non-zero. *)
Lemma C4_stale_address_after_disconnect :
  exists s,
    net_manager_get_status
      (fst (run_events 0 (drivers_ok 0) (component_with_sta 77 5)
              [IP_EVENT 0 (mk_got_ip 5 (mk_ip_info 3232235786 4294967040 3232235777));
               sta_disconnected []]))
    = Some (ESP_OK, s)
    /\ ~ address_only_when_connected s.
Proof.
  eexists. split; [reflexivity|].
  intros [Hsta _]. vm_compute in Hsta.
  assert (NET_STATUS_DISCONNECTED = NET_STATUS_CONNECTED) as Habs.
  { apply Hsta. discriminate. }
  discriminate Habs.
Qed.

(** ** C9: stop *)

(** What [stop_all_interfaces] leaves behind: no handle, every status
    Stopped, everything else of the status record zero, the retry counter
    zero.  [s_eth_handles_num] is cleared together with [s_eth_handles]. *)
Lemma stop_all_interfaces_returns (st : component) :
  exists tr,
    stop_all_interfaces st
    = Returned tt
        (mk_component (s_is_initialized st) NULL NULL NULL NULL
           (if is_null (s_eth_handles st) then s_eth_handles_num st else 0)
           (mk_status NET_STATUS_STOPPED NET_STATUS_STOPPED NET_STATUS_STOPPED
                      ip_info_zero ip_info_zero ip_info_zero 0)
           (s_user_callback st) 0)
        tr.
Proof.
  destruct st as [ini sta ap eth hs num stat cb n].
  (* a pointer is NULL or it is not: the three shapes of an address *)
  destruct sta, ap, eth, hs; eexists; reflexivity.
Qed.

(** On a component without handles nothing is called. *)
Lemma stop_all_interfaces_stopped ini num stat cb n :
  stop_all_interfaces (mk_component ini NULL NULL NULL NULL num stat cb n)
  = Returned tt
      (mk_component ini NULL NULL NULL NULL num
         (mk_status NET_STATUS_STOPPED NET_STATUS_STOPPED NET_STATUS_STOPPED
                    ip_info_zero ip_info_zero ip_info_zero 0)
         cb 0)
      [].
Proof. reflexivity. Qed.

Lemma net_manager_stop_not_initialized st :
  s_is_initialized st = false -> net_manager_stop st = Aborted [].
Proof.
  intros Hi. unfold net_manager_stop, mbind, M_bind, get, assert.
  rewrite Hi. reflexivity.
Qed.

Lemma net_manager_stop_initialized st :
  s_is_initialized st = true ->
  exists tr,
    net_manager_stop st
    = Returned ESP_OK
        (mk_component true NULL NULL NULL NULL
           (if is_null (s_eth_handles st) then s_eth_handles_num st else 0)
           (mk_status NET_STATUS_STOPPED NET_STATUS_STOPPED NET_STATUS_STOPPED
                      ip_info_zero ip_info_zero ip_info_zero 0)
           (s_user_callback st) 0)
        tr.
Proof.
  intros Hi. destruct (stop_all_interfaces_returns st) as [tr Htr].
  exists tr. unfold net_manager_stop.
  unfold mbind, M_bind, get, assert. rewrite Hi.
  unfold mret, M_ret. rewrite Htr. rewrite Hi. cbn.
  rewrite ?app_nil_r. reflexivity.
Qed.

(** C9.  Calling stop twice in succession ends in the same component as
    calling it once (from a component that is not initialised both runs
    stop at the failed [assert]); and a stop that returns returns ESP_OK
    with the three statuses Stopped and the STA retry counter zero, after
    which a further stop returns ESP_OK without calling any driver and
    without changing the component. *)
Theorem C9_stop_is_idempotent :
  forall st : component,
    final_state ((net_manager_stop ≫= (fun _ => net_manager_stop)) st)
    = final_state (net_manager_stop st)
    /\ (s_is_initialized st = true ->
        exists st1 tr,
          net_manager_stop st = Returned ESP_OK st1 tr
          /\ net_manager_stop st1 = Returned ESP_OK st1 []
          /\ sta_status (s_status st1) = NET_STATUS_STOPPED
          /\ ap_status (s_status st1) = NET_STATUS_STOPPED
          /\ eth_status (s_status st1) = NET_STATUS_STOPPED
          /\ s_sta_retry_count st1 = 0).
Proof.
  intros st.
  assert (s_is_initialized st = true ->
          exists st1 tr,
            net_manager_stop st = Returned ESP_OK st1 tr
            /\ net_manager_stop st1 = Returned ESP_OK st1 []
            /\ sta_status (s_status st1) = NET_STATUS_STOPPED
            /\ ap_status (s_status st1) = NET_STATUS_STOPPED
            /\ eth_status (s_status st1) = NET_STATUS_STOPPED
            /\ s_sta_retry_count st1 = 0) as Hinit.
  { intros Hi. destruct (net_manager_stop_initialized st Hi) as [tr Htr].
    eexists. exists tr. split; [exact Htr|].
    split; [|cbn; auto].
    unfold net_manager_stop, mbind, M_bind, get, assert. cbn [s_is_initialized].
    unfold mret, M_ret. rewrite stop_all_interfaces_stopped. reflexivity. }
  split; [|exact Hinit].
  destruct (s_is_initialized st) eqn:Hi.
  - destruct (Hinit eq_refl) as (st1 & tr & H1 & H2 & _).
    unfold mbind at 1. unfold M_bind at 1. rewrite H1, H2. reflexivity.
  - unfold mbind at 1. unfold M_bind at 1.
    rewrite (net_manager_stop_not_initialized st Hi). reflexivity.
Qed.

Lemma C9_stop_witness :
  exists st1 tr,
    net_manager_stop
      (mk_component true 1073610000 1073610100 1073610200 1073620000 1
         (mk_status NET_STATUS_CONNECTED NET_STATUS_STARTED NET_STATUS_CONNECTING
                    (mk_ip_info 3232235786 4294967040 3232235777)
                    (mk_ip_info 3232236545 4294967040 3232236545)
                    ip_info_zero 2)
         77 2)
    = Returned ESP_OK st1 tr
    /\ net_manager_stop st1 = Returned ESP_OK st1 [].
Proof.
  destruct (C9_stop_is_idempotent
              (mk_component true 1073610000 1073610100 1073610200 1073620000 1
                 (mk_status NET_STATUS_CONNECTED NET_STATUS_STARTED NET_STATUS_CONNECTING
                    (mk_ip_info 3232235786 4294967040 3232235777)
                    (mk_ip_info 3232236545 4294967040 3232236545)
                    ip_info_zero 2)
                 77 2)) as [_ H].
  destruct (H eq_refl) as (st1 & tr & H1 & H2 & _).
  exists st1, tr. split; assumption.
Defined.

(** ** C10: the AP source cannot be queried *)

(** C10.  On an initialised component, [get_ip_info] and [get_dns_info]
    with source AP return ESP_ERR_INVALID_ARG and leave the caller's buffer
    alone, whatever the AP netif handle is; a source that is mapped to a
    netif is STA or Ethernet. *)
Theorem C10_ap_source_is_invalid_argument :
  forall (drv : drivers) (st : component) (type : esp_netif_dns_type_t)
         (ip_buf : esp_netif_ip_info_t) (dns_buf : Z),
    s_is_initialized st = true ->
    net_manager_get_ip_info drv st NET_EVENT_SOURCE_AP ip_buf
    = Some (ESP_ERR_INVALID_ARG, ip_buf)
    /\ net_manager_get_dns_info drv st NET_EVENT_SOURCE_AP type dns_buf
       = Some (ESP_ERR_INVALID_ARG, dns_buf)
    /\ (forall source,
          netif_of_source st source <> NULL ->
          source = NET_EVENT_SOURCE_STA \/ source = NET_EVENT_SOURCE_ETHERNET).
Proof.
  intros drv st type ip_buf dns_buf Hi.
  unfold net_manager_get_ip_info, net_manager_get_dns_info.
  rewrite Hi. simpl. repeat split.
  intros [] Hsrc; auto. exfalso. apply Hsrc. reflexivity.
Qed.

(** The AP is up (its netif handle is set, status Started) and is still
    refused. *)
Lemma C10_ap_source_witness :
  net_manager_get_ip_info (drivers_ok 0)
    (mk_component true NULL 1073610100 NULL NULL 0
       (mk_status NET_STATUS_STOPPED NET_STATUS_STARTED NET_STATUS_STOPPED
                  ip_info_zero (mk_ip_info 3232236545 4294967040 3232236545)
                  ip_info_zero 0)
       77 0)
    NET_EVENT_SOURCE_AP ip_info_zero
  = Some (ESP_ERR_INVALID_ARG, ip_info_zero).
Proof.
  apply (C10_ap_source_is_invalid_argument (drivers_ok 0)
           (mk_component true NULL 1073610100 NULL NULL 0
              (mk_status NET_STATUS_STOPPED NET_STATUS_STARTED NET_STATUS_STOPPED
                         ip_info_zero (mk_ip_info 3232236545 4294967040 3232236545)
                         ip_info_zero 0)
              77 0)
           ESP_NETIF_DNS_MAIN ip_info_zero 0).
  reflexivity.
Defined.

(** ** C3: a failed Ethernet bring-up *)

(** Binding a run that returned. *)
Lemma bind_returned {A B : Type} (m : M A) (f : A -> M B) st v st' tr :
  (m ≫= f) st = Returned v st' tr ->
  exists x st1 tr1 tr2,
    m st = Returned x st1 tr1 /\ f x st1 = Returned v st' tr2 /\ tr = tr1 ++ tr2.
Proof.
  unfold mbind, M_bind. intros H.
  destruct (m st) as [t | x st1 tr1]; [discriminate|].
  destruct (f x st1) as [t | w st2 tr2] eqn:Hf; [discriminate|].
  inversion H; subst. exists x, st1, tr1, tr2. auto.
Qed.

(** [net_manager_start] has one [return] statement: whenever it returns,
    it returns ESP_OK, whatever [start_eth] answered. *)
Lemma net_manager_start_returns_ok drv kc nvs stack config st v st' tr :
  net_manager_start drv kc nvs stack config st = Returned v st' tr -> v = ESP_OK.
Proof.
  unfold net_manager_start. intros H.
  repeat (apply bind_returned in H;
          destruct H as (? & ? & ? & ? & _ & H & _)).
  unfold mret, M_ret in H. inversion H. reflexivity.
Qed.

(** C3 (the code at the failing input).  The station and Ethernet are
    enabled and [ethernet_init_all] finds no device: [start_eth] returns
    ESP_FAIL without creating the Ethernet netif, the station netif stays
    and the radio is started afterwards, but [net_manager_start] returns
    ESP_OK: the failure does not reach the caller. *)
Theorem C3_ethernet_failure_is_not_reported :
  exists st1 tr1 st' tr,
    start_eth (drivers_ok 0) config_sta_eth (component_after_init 77)
    = Returned ESP_FAIL st1 tr1
    /\ net_manager_start (drivers_ok 0) kconfig_none nvs_empty
         (repeat Byte.x00 sizeof_net_manager_config_t) (Some config_sta_eth)
         (component_after_init 77)
       = Returned ESP_OK st' tr
    /\ s_netif_eth st' = NULL
    /\ s_netif_sta st' = drv_create_default_wifi_sta (drivers_ok 0)
    /\ last tr = Some WifiStart
    /\ ~ In WifiStop tr.
Proof.
  do 4 eexists. split; [vm_compute; reflexivity|].
  split; [vm_compute; reflexivity|].
  split; [reflexivity|]. split; [reflexivity|]. split; [reflexivity|].
  simpl. intros H. repeat (destruct H as [H|H]; [discriminate H|]). exact H.
Qed.

(** ** C7, C8: the configuration store *)

(** A stored blob implies that its namespace exists. *)
Lemma stored_config_namespace s blob :
  stored_config s = Some blob ->
  exists entries,
    nvs_data s !! NVS_NAMESPACE = Some entries /\ entries !! NVS_CONFIG_KEY = Some blob.
Proof.
  unfold stored_config. intros H.
  destruct (nvs_data s !! NVS_NAMESPACE) as [entries|] eqn:Hns.
  - exists entries. split; [reflexivity | exact H].
  - simpl in H. rewrite lookup_empty in H. discriminate.
Qed.

(** Nothing stored: the load ends with ESP_ERR_NVS_NOT_FOUND and the
    caller's buffer untouched. *)
Lemma load_config_not_found st s buf :
  s_is_initialized st = true ->
  nvs_ready s = true ->
  stored_config s = None ->
  net_manager_load_config_from_nvs st s buf = Some (ESP_ERR_NVS_NOT_FOUND, buf).
Proof.
  intros Hi Hr Hnone.
  unfold net_manager_load_config_from_nvs, nvs_open, nvs_get_blob.
  rewrite Hi, Hr. cbn [negb].
  unfold stored_config in Hnone.
  destruct (nvs_data s !! NVS_NAMESPACE) as [entries|] eqn:Hns.
  - cbn [from_option id] in Hnone |- *. rewrite Hnone. reflexivity.
  - reflexivity.
Qed.

(** A blob is stored: what the load does with it depends on its length. *)
Lemma load_config_stored st s buf blob :
  s_is_initialized st = true ->
  nvs_ready s = true ->
  stored_config s = Some blob ->
  net_manager_load_config_from_nvs st s buf
  = Some
      (if (sizeof_net_manager_config_t <? length blob)%nat
       then (ESP_ERR_NVS_INVALID_LENGTH, buf)
       else if (length blob =? sizeof_net_manager_config_t)%nat
            then (ESP_OK, blob ++ drop (length blob) buf)
            else (ESP_FAIL, blob ++ drop (length blob) buf)).
Proof.
  intros Hi Hr Hsome.
  destruct (stored_config_namespace s blob Hsome) as (entries & Hns & Hkey).
  unfold net_manager_load_config_from_nvs, nvs_open, nvs_get_blob.
  rewrite Hi, Hr, Hns. cbn [negb from_option id].
  change (ESP_OK =? ESP_OK) with true. cbn [negb].
  rewrite Hkey.
  destruct (sizeof_net_manager_config_t <? length blob)%nat; [reflexivity|].
  change (ESP_OK =? ESP_OK) with true. cbn [andb].
  destruct (length blob =? sizeof_net_manager_config_t)%nat; reflexivity.
Qed.

(** Saving on a store that is ready succeeds and leaves the configuration
    under the component's key. *)
Lemma save_config_stores st s config :
  s_is_initialized st = true ->
  nvs_ready s = true ->
  exists s',
    net_manager_save_config_to_nvs st s config = Some (ESP_OK, s')
    /\ nvs_ready s' = true
    /\ stored_config s' = Some (take sizeof_net_manager_config_t config).
Proof.
  intros Hi Hr.
  unfold net_manager_save_config_to_nvs, nvs_open, nvs_set_blob, nvs_commit.
  rewrite Hi, Hr. cbn [negb].
  destruct (nvs_data s !! NVS_NAMESPACE) as [entries|] eqn:Hns;
    change (ESP_OK =? ESP_OK) with true; cbn [negb nvs_ready nvs_data];
    eexists; (split; [reflexivity|]); (split; [first [exact Hr | reflexivity]|]);
    unfold stored_config; cbn [nvs_data];
    rewrite lookup_insert_eq; cbn [from_option id]; apply lookup_insert_eq.
Qed.

(** C7 (as amended).  On an initialised component and a ready store
    [load_config] fails distinctly.  With no stored entry it returns
    ESP_ERR_NVS_NOT_FOUND and leaves the caller's buffer as it was.  With a
    stored blob whose length is not [sizeof(net_manager_config_t)] it
    returns an error that is neither ESP_OK nor not-found: for a longer blob
    ESP_ERR_NVS_INVALID_LENGTH, the buffer untouched; for a shorter blob
    ESP_FAIL, and by then the blob has been copied over the first bytes of
    the caller's buffer, the bytes behind it being as before.  ESP_OK is
    returned only for a blob of exactly that size, the buffer then holding
    the whole blob. *)
Theorem C7_load_config_failure_cases :
  forall (st : component) (s : nvs_store) (buf : list Byte.byte),
    s_is_initialized st = true ->
    nvs_ready s = true ->
    length buf = sizeof_net_manager_config_t ->
    (stored_config s = None ->
       net_manager_load_config_from_nvs st s buf = Some (ESP_ERR_NVS_NOT_FOUND, buf))
    /\ (forall blob,
          stored_config s = Some blob ->
          (sizeof_net_manager_config_t < length blob)%nat ->
          net_manager_load_config_from_nvs st s buf
          = Some (ESP_ERR_NVS_INVALID_LENGTH, buf))
    /\ (forall blob,
          stored_config s = Some blob ->
          (length blob < sizeof_net_manager_config_t)%nat ->
          exists buf',
            net_manager_load_config_from_nvs st s buf = Some (ESP_FAIL, buf')
            /\ length buf' = sizeof_net_manager_config_t
            /\ take (length blob) buf' = blob
            /\ drop (length blob) buf' = drop (length blob) buf)
    /\ (forall blob,
          stored_config s = Some blob ->
          length blob = sizeof_net_manager_config_t ->
          net_manager_load_config_from_nvs st s buf = Some (ESP_OK, blob))
    /\ (forall buf',
          net_manager_load_config_from_nvs st s buf = Some (ESP_OK, buf') ->
          exists blob,
            stored_config s = Some blob
            /\ length blob = sizeof_net_manager_config_t
            /\ buf' = blob)
    /\ (ESP_FAIL <> ESP_OK /\ ESP_FAIL <> ESP_ERR_NVS_NOT_FOUND
        /\ ESP_ERR_NVS_INVALID_LENGTH <> ESP_OK
        /\ ESP_ERR_NVS_INVALID_LENGTH <> ESP_ERR_NVS_NOT_FOUND
        /\ ESP_ERR_NVS_NOT_FOUND <> ESP_OK).
Proof.
  intros st s buf Hi Hr Hlen.
  split; [apply load_config_not_found; assumption|].
  split; [|split; [|split; [|split]]].
  - intros blob Hsome Hlong.
    rewrite (load_config_stored st s buf blob Hi Hr Hsome).
    destruct (Nat.ltb_spec sizeof_net_manager_config_t (length blob)); [reflexivity | lia].
  - intros blob Hsome Hshort.
    rewrite (load_config_stored st s buf blob Hi Hr Hsome).
    destruct (Nat.ltb_spec sizeof_net_manager_config_t (length blob)); [lia|].
    destruct (Nat.eqb_spec (length blob) sizeof_net_manager_config_t); [lia|].
    eexists. split; [reflexivity|]. split; [|split].
    + rewrite List.length_app, List.length_skipn. lia.
    + apply take_app_length.
    + apply drop_app_length.
  - intros blob Hsome Heq.
    rewrite (load_config_stored st s buf blob Hi Hr Hsome).
    rewrite Heq, Nat.ltb_irrefl, Nat.eqb_refl.
    rewrite <- Hlen at 1. rewrite drop_all, app_nil_r. reflexivity.
  - intros buf' Hload.
    destruct (stored_config s) as [blob|] eqn:Hsome.
    + rewrite (load_config_stored st s buf blob Hi Hr Hsome) in Hload.
      destruct (sizeof_net_manager_config_t <? length blob)%nat; [discriminate|].
      destruct (Nat.eqb_spec (length blob) sizeof_net_manager_config_t) as [Heq|_];
        [|discriminate].
      exists blob. split; [reflexivity|]. split; [exact Heq|].
      inversion Hload as [Hbuf]. rewrite <- Hlen in Heq. rewrite Heq.
      rewrite drop_all, app_nil_r. reflexivity.
    + rewrite (load_config_not_found st s buf Hi Hr Hsome) in Hload. discriminate.
  - repeat split; discriminate.
Qed.

(** An empty store, and a store holding a 3-byte blob under the
    component's key. *)
Lemma C7_load_config_failure_witness :
  net_manager_load_config_from_nvs (component_after_init 77) nvs_empty
    (repeat Byte.x00 sizeof_net_manager_config_t)
  = Some (ESP_ERR_NVS_NOT_FOUND, repeat Byte.x00 sizeof_net_manager_config_t)
  /\ exists buf',
       net_manager_load_config_from_nvs (component_after_init 77)
         (mk_nvs true {[ NVS_NAMESPACE := {[ NVS_CONFIG_KEY := [Byte.x01; Byte.x00; Byte.x01] ]} ]})
         (repeat Byte.x00 sizeof_net_manager_config_t)
       = Some (ESP_FAIL, buf')
       /\ take 3 buf' = [Byte.x01; Byte.x00; Byte.x01].
Proof.
  split.
  - apply (C7_load_config_failure_cases (component_after_init 77) nvs_empty
             (repeat Byte.x00 sizeof_net_manager_config_t));
      reflexivity.
  - destruct (C7_load_config_failure_cases (component_after_init 77)
                (mk_nvs true {[ NVS_NAMESPACE := {[ NVS_CONFIG_KEY := [Byte.x01; Byte.x00; Byte.x01] ]} ]})
                (repeat Byte.x00 sizeof_net_manager_config_t))
      as (_ & _ & Hshort & _); [reflexivity | reflexivity | reflexivity |].
    destruct (Hshort [Byte.x01; Byte.x00; Byte.x01]) as (buf' & H1 & _ & H2 & _).
    + reflexivity.
    + simpl. unfold sizeof_net_manager_config_t. lia.
    + exists buf'. split; [exact H1 | exact H2].
Defined.

(** C7 as stated fails: the store holds a 3-byte blob, the caller passes a
    zeroed configuration; the load returns ESP_FAIL and the caller's
    configuration is no longer the one passed in: its first bytes are the
    blob's, so its station flag now reads enabled. *)
Lemma C7_short_blob_is_copied_into_buffer :
  exists buf',
    net_manager_load_config_from_nvs (component_after_init 77)
      (mk_nvs true {[ NVS_NAMESPACE := {[ NVS_CONFIG_KEY := [Byte.x01; Byte.x00; Byte.x01] ]} ]})
      (repeat Byte.x00 sizeof_net_manager_config_t)
    = Some (ESP_FAIL, buf')
    /\ buf' <> repeat Byte.x00 sizeof_net_manager_config_t
    /\ cfg_wifi_sta_enabled (repeat Byte.x00 sizeof_net_manager_config_t) = false
    /\ cfg_wifi_sta_enabled buf' = true.
Proof.
  eexists. split; [vm_compute; reflexivity|].
  split; [vm_compute; discriminate|].
  split; reflexivity.
Qed.

(** C8.  On an initialised component and a ready store, for every
    configuration [C] (an object of [sizeof(net_manager_config_t)] bytes),
    [save_config(C)] returns ESP_OK and a following [load_config] returns
    ESP_OK with the caller's buffer equal to [C]; on a store that holds
    nothing [load_config] returns ESP_ERR_NVS_NOT_FOUND, which is not
    ESP_OK. *)
Theorem C8_save_then_load_round_trip :
  forall (st : component) (s : nvs_store) (C buf : list Byte.byte),
    s_is_initialized st = true ->
    nvs_ready s = true ->
    length C = sizeof_net_manager_config_t ->
    length buf = sizeof_net_manager_config_t ->
    (exists s',
        net_manager_save_config_to_nvs st s C = Some (ESP_OK, s')
        /\ net_manager_load_config_from_nvs st s' buf = Some (ESP_OK, C))
    /\ (nvs_data s = ∅ ->
        net_manager_load_config_from_nvs st s buf = Some (ESP_ERR_NVS_NOT_FOUND, buf))
    /\ ESP_ERR_NVS_NOT_FOUND <> ESP_OK.
Proof.
  intros st s C buf Hi Hr HC Hbuf. split; [|split].
  - destruct (save_config_stores st s C Hi Hr) as (s' & Hsave & Hr' & Hst).
    exists s'. split; [exact Hsave|].
    rewrite <- HC in Hst. rewrite firstn_all in Hst.
    rewrite (load_config_stored st s' buf C Hi Hr' Hst).
    rewrite HC, Nat.ltb_irrefl, Nat.eqb_refl.
    rewrite <- Hbuf at 1. rewrite drop_all, app_nil_r. reflexivity.
  - intros Hempty. apply load_config_not_found; try assumption.
    unfold stored_config. rewrite Hempty, lookup_empty. cbn [from_option id].
    apply lookup_empty.
  - discriminate.
Qed.

Lemma C8_round_trip_witness :
  exists s',
    net_manager_save_config_to_nvs (component_after_init 77) nvs_empty config_sta_eth
    = Some (ESP_OK, s')
    /\ net_manager_load_config_from_nvs (component_after_init 77) s'
         (repeat Byte.xff sizeof_net_manager_config_t)
       = Some (ESP_OK, config_sta_eth).
Proof.
  destruct (C8_save_then_load_round_trip (component_after_init 77) nvs_empty
              config_sta_eth (repeat Byte.xff sizeof_net_manager_config_t))
    as (H & _); try reflexivity.
  exact H.
Defined.

(** * Further properties of the dispatcher *)

(** ** What events leave alone *)

Lemma event_handler_keeps M drv st e :
  let st' := fst (event_handler M drv st e) in
  s_is_initialized st' = s_is_initialized st
  /\ s_netif_sta st' = s_netif_sta st
  /\ s_netif_ap st' = s_netif_ap st
  /\ s_netif_eth st' = s_netif_eth st
  /\ s_eth_handles st' = s_eth_handles st
  /\ s_eth_handles_num st' = s_eth_handles_num st
  /\ s_user_callback st' = s_user_callback st.
Proof.
  destruct e as [[] d | id ev | [] | base id]; simpl; auto 10.
  - destruct ((M <? 0) || (s_sta_retry_count st <? M)); simpl; auto 10.
  - destruct (esp_netif ev =? s_netif_sta st); simpl; auto 10.
    destruct (esp_netif ev =? s_netif_eth st); simpl; auto 10.
Qed.

Lemma run_events_keeps M drv es : forall st,
  let st' := fst (run_events M drv st es) in
  s_is_initialized st' = s_is_initialized st
  /\ s_netif_sta st' = s_netif_sta st
  /\ s_netif_ap st' = s_netif_ap st
  /\ s_netif_eth st' = s_netif_eth st
  /\ s_eth_handles st' = s_eth_handles st
  /\ s_eth_handles_num st' = s_eth_handles_num st
  /\ s_user_callback st' = s_user_callback st.
Proof.
  induction es as [|e es IH]; intros st; cbv zeta.
  - simpl. auto 10.
  - rewrite run_events_cons. cbn [fst].
    destruct (IH (fst (event_handler M drv st e))) as (H1 & H2 & H3 & H4 & H5 & H6 & H7).
    destruct (event_handler_keeps M drv st e) as (G1 & G2 & G3 & G4 & G5 & G6 & G7).
    rewrite H1, H2, H3, H4, H5, H6, H7. auto 10.
Qed.

(** X1.  Whatever events arrive, the handler never changes the interface
    handles, the Ethernet driver handles and their count, the subscriber or
    the initialised flag: only the status record and the retry counter
    move. *)
Theorem X1_events_never_touch_handles :
  forall (M : Z) (drv : drivers) (es : list raw_event) (st : component),
    let st' := fst (run_events M drv st es) in
    s_is_initialized st' = s_is_initialized st
    /\ s_netif_sta st' = s_netif_sta st
    /\ s_netif_ap st' = s_netif_ap st
    /\ s_netif_eth st' = s_netif_eth st
    /\ s_eth_handles st' = s_eth_handles st
    /\ s_eth_handles_num st' = s_eth_handles_num st
    /\ s_user_callback st' = s_user_callback st.
Proof.
  intros M drv es. induction es as [|e es IH]; intros st; cbv zeta.
  - simpl. auto 10.
  - rewrite run_events_cons. cbn [fst].
    destruct (IH (fst (event_handler M drv st e))) as (H1 & H2 & H3 & H4 & H5 & H6 & H7).
    destruct (event_handler_keeps M drv st e) as (G1 & G2 & G3 & G4 & G5 & G6 & G7).
    rewrite H1, H2, H3, H4, H5, H6, H7. auto 10.
Qed.

(** ** The retry counter stays within its budget *)

Lemma retry_count_step M drv st e :
  0 <= M <= INT_MAX ->
  0 <= s_sta_retry_count st <= M ->
  0 <= s_sta_retry_count (fst (event_handler M drv st e)) <= M.
Proof.
  unfold INT_MAX. intros HM Hn.
  destruct e as [[] d | id ev | [] | base id]; simpl; try exact Hn.
  - destruct (Z.ltb_spec M 0) as [Hneg|_]; [lia|]. cbn [orb].
    destruct (Z.ltb_spec (s_sta_retry_count st) M) as [Hlt|Hge]; simpl.
    + rewrite wrap_int32_id by (change (2 ^ 31) with 2147483648; lia). lia.
    + exact Hn.
  - destruct (esp_netif ev =? s_netif_sta st); simpl; [lia|].
    destruct (esp_netif ev =? s_netif_eth st); simpl; exact Hn.
Qed.

(** X2.  With a maximum of [M >= 0] retries and the counter within
    [0..M], the counter stays within [0..M] over every sequence of events
    of any kind. *)
Theorem X2_retry_counter_stays_within_budget :
  forall (M : Z) (drv : drivers) (es : list raw_event) (st : component),
    0 <= M <= INT_MAX ->
    0 <= s_sta_retry_count st <= M ->
    0 <= s_sta_retry_count (fst (run_events M drv st es)) <= M.
Proof.
  intros M drv es. induction es as [|e es IH]; intros st HM Hn.
  - exact Hn.
  - rewrite run_events_cons. cbn [fst]. apply IH; [exact HM|].
    apply retry_count_step; assumption.
Qed.

Lemma X2_retry_counter_witness :
  0 <= s_sta_retry_count
         (fst (run_events 3 (drivers_ok 0) (component_with_sta 77 5)
                 [sta_disconnected []; sta_disconnected [];
                  ETH_EVENT ETHERNET_EVENT_DISCONNECTED;
                  sta_disconnected []; sta_disconnected []])) <= 3.
Proof.
  apply (X2_retry_counter_stays_within_budget 3 (drivers_ok 0)).
  - unfold INT_MAX. lia.
  - simpl. lia.
Defined.

(** ** A successful connection restores the retry budget *)

(** X3.  After any sequence of events, an address-acquired event of the
    station's netif resets the retry counter to zero and sets the status to
    Connected; the disconnect events that follow are then answered with
    [min (number of events) M] reconnect attempts, the full budget. *)
Theorem X3_address_acquisition_restores_budget :
  forall (M : Z) (drv : drivers) (st : component) (es : list raw_event)
         (id : Z) (info : esp_netif_ip_info_t) (ds : list (list Byte.byte)),
    0 <= M <= INT_MAX ->
    let st1 :=
      fst (run_events M drv st (es ++ [IP_EVENT id (mk_got_ip (s_netif_sta st) info)])) in
    s_sta_retry_count st1 = 0
    /\ sta_status (s_status st1) = NET_STATUS_CONNECTED
    /\ sta_ip_info (s_status st1) = info
    /\ Z.of_nat (reconnect_attempts (snd (run_events M drv st1 (map sta_disconnected ds))))
       = Z.min (Z.of_nat (length ds)) M.
Proof.
  intros M drv st es id info ds HM st1.
  assert (s_sta_retry_count st1 = 0
          /\ sta_status (s_status st1) = NET_STATUS_CONNECTED
          /\ sta_ip_info (s_status st1) = info) as (Hc & Hs & Hi).
  { subst st1. rewrite run_events_app. cbn [fst].
    destruct (run_events_keeps M drv es st) as (_ & Hsta & _).
    set (st0 := fst (run_events M drv st es)) in *.
    cbn [run_events event_handler esp_netif ip_info].
    rewrite <- Hsta, Z.eqb_refl. simpl. auto. }
  split; [exact Hc|]. split; [exact Hs|]. split; [exact Hi|].
  destruct (disconnects_run M drv ds st1 HM) as (Ha & _); [rewrite Hc; lia|].
  rewrite Ha, Hc. lia.
Qed.

Lemma X3_restored_budget_witness :
  reconnect_attempts
    (snd (run_events 2 (drivers_ok 0)
            (fst (run_events 2 (drivers_ok 0) (component_with_sta 77 5)
                    ([sta_disconnected []; sta_disconnected []; sta_disconnected []]
                       ++ [IP_EVENT 0 (mk_got_ip (s_netif_sta (component_with_sta 77 5))
                                                 (mk_ip_info 1 2 3))])))
            (map sta_disconnected [[]; []; []])))
  = 2%nat.
Proof.
  destruct (X3_address_acquisition_restores_budget 2 (drivers_ok 0)
              (component_with_sta 77 5)
              [sta_disconnected []; sta_disconnected []; sta_disconnected []]
              0 (mk_ip_info 1 2 3) [[]; []; []]) as (_ & _ & _ & H).
  - unfold INT_MAX. lia.
  - apply Nat2Z.inj. rewrite H. reflexivity.
Defined.

(** ** The subscriber does not steer the dispatcher *)

Lemma callbacks_app (a b : list action) : callbacks (a ++ b) = callbacks a ++ callbacks b.
Proof.
  induction a as [|x a IH]; simpl; [reflexivity|].
  destruct x; simpl; rewrite ?IH; reflexivity.
Qed.

Lemma without_callbacks_app (a b : list action) :
  without_callbacks (a ++ b) = without_callbacks a ++ without_callbacks b.
Proof.
  induction a as [|x a IH]; simpl; [reflexivity|].
  destruct x; simpl; rewrite ?IH; reflexivity.
Qed.

Lemma subscriber_step M drv cb st e :
  fst (event_handler M drv (with_user_callback cb st) e)
  = with_user_callback cb (fst (event_handler M drv st e))
  /\ without_callbacks (snd (event_handler M drv (with_user_callback cb st) e))
     = without_callbacks (snd (event_handler M drv st e))
  /\ (cb = NULL -> callbacks (snd (event_handler M drv (with_user_callback cb st) e)) = []).
Proof.
  destruct e as [[] d | id ev | [] | base id]; unfold event_handler, dispatch, notify;
    cbn [with_user_callback with_status with_retry_count s_user_callback
         s_sta_retry_count s_netif_sta s_netif_eth s_netif_ap s_status fst snd];
    repeat match goal with
           | |- context [if ?c then _ else _] => destruct c eqn:?
           end;
    repeat split; try reflexivity; intros ->; try reflexivity;
    discriminate.
Qed.

(** X4.  The subscriber has no influence on the dispatcher: with another
    callback pointer, or none, every sequence of events leads to the same
    component (callback pointer apart) and to the same delays and driver
    calls; and without a subscriber no callback is made at all. *)
Theorem X4_subscriber_does_not_steer_dispatcher :
  forall (M : Z) (drv : drivers) (cb : ptr) (es : list raw_event) (st : component),
    fst (run_events M drv (with_user_callback cb st) es)
    = with_user_callback cb (fst (run_events M drv st es))
    /\ without_callbacks (snd (run_events M drv (with_user_callback cb st) es))
       = without_callbacks (snd (run_events M drv st es))
    /\ (cb = NULL ->
        callbacks (snd (run_events M drv (with_user_callback cb st) es)) = []).
Proof.
  intros M drv cb es. induction es as [|e es IH]; intros st.
  - simpl. auto.
  - rewrite !run_events_cons. cbn [fst snd].
    destruct (subscriber_step M drv cb st e) as (Hs & Ht & Hc).
    rewrite Hs.
    destruct (IH (fst (event_handler M drv st e))) as (IHs & IHt & IHc).
    split; [exact IHs|]. split.
    + rewrite !without_callbacks_app, Ht, IHt. reflexivity.
    + intros Hnull. rewrite callbacks_app, Hc, IHc by exact Hnull. reflexivity.
Qed.

Lemma X4_no_subscriber_witness :
  callbacks
    (snd (run_events 3 (drivers_ok 0)
            (with_user_callback NULL (component_with_sta 77 5))
            [sta_disconnected []; ap_client_join []; ETH_EVENT ETHERNET_EVENT_START]))
  = [].
Proof.
  apply (X4_subscriber_does_not_steer_dispatcher 3 (drivers_ok 0) NULL
           [sta_disconnected []; ap_client_join []; ETH_EVENT ETHERNET_EVENT_START]
           (component_with_sta 77 5)).
  reflexivity.
Defined.

(** ** Only the station is retried *)

Lemma retry_calls_step M drv st e :
  (length (delays (snd (event_handler M drv st e)))
   <= if is_sta_disconnected e then 1 else 0)%nat
  /\ (reconnect_attempts (snd (event_handler M drv st e))
      <= if is_sta_start e || is_sta_disconnected e then 1 else 0)%nat.
Proof.
  destruct e as [[] d | id ev | [] | base id]; unfold event_handler, dispatch;
    cbn [is_sta_disconnected is_sta_start orb fst snd];
    repeat match goal with
           | |- context [if ?c then _ else _] =>
               lazymatch c with
               | is_null _ => fail
               | _ => destruct c
               end
           end;
    simpl;
    rewrite ?delays_app, ?reconnect_attempts_app, ?delays_notify,
      ?reconnect_attempts_notify; simpl; lia.
Qed.

(** X5.  Delays and connect attempts come from station events only: over
    every sequence of events there are at most as many [vTaskDelay] calls
    as STA disconnect events and at most as many [esp_wifi_connect] calls
    as STA start and STA disconnect events.  An Ethernet link-down, in
    particular, is never answered with a delay or a reconnect. *)
Theorem X5_only_station_events_delay_or_reconnect :
  forall (M : Z) (drv : drivers) (es : list raw_event) (st : component),
    (length (delays (snd (run_events M drv st es)))
     <= length (List.filter is_sta_disconnected es))%nat
    /\ (reconnect_attempts (snd (run_events M drv st es))
        <= length (List.filter (fun e => is_sta_start e || is_sta_disconnected e) es))%nat.
Proof.
  intros M drv es. induction es as [|e es IH]; intros st.
  - simpl. lia.
  - rewrite run_events_cons. cbn [snd].
    rewrite delays_app, reconnect_attempts_app, List.length_app.
    destruct (retry_calls_step M drv st e) as [Hd Hr].
    destruct (IH (fst (event_handler M drv st e))) as [IHd IHr].
    cbn [List.filter]. revert Hd Hr.
    destruct (is_sta_disconnected e); destruct (is_sta_start e);
      cbn [orb length]; lia.
Qed.

(** ** What the subscriber is told agrees with the status record *)

(** X6.  The last event the handler hands to the subscriber for a raw
    event agrees with the status record it leaves behind: its status is the
    stored status of its source (the two AP client events apart, whose
    status is not stored), and an address payload is the stored address of
    its source. *)
Theorem X6_last_emission_agrees_with_status_record :
  forall (M : Z) (drv : drivers) (st : component) (e : raw_event)
         (ev : net_manager_event_t),
    last (callbacks (snd (event_handler M drv st e))) = Some ev ->
    let s' := s_status (fst (event_handler M drv st e)) in
    (status ev = stored_status s' (source ev)
     \/ (source ev = NET_EVENT_SOURCE_AP
         /\ (status ev = NET_STATUS_CLIENT_CONNECTED
             \/ status ev = NET_STATUS_CLIENT_DISCONNECTED)))
    /\ (forall info, data ev = IpInfoData info -> info = stored_ip_info s' (source ev)).
Proof.
  intros M drv st e ev.
  destruct e as [[] d | id ev0 | [] | base id]; unfold event_handler, dispatch, notify;
    simpl;
    repeat match goal with
           | |- context [if ?c then _ else _] => destruct c
           end;
    simpl; intros H; try discriminate H;
    inversion H; subst ev; simpl;
    (split; [auto | intros info Hinfo; try discriminate Hinfo;
                     inversion Hinfo; reflexivity]).
Qed.

Lemma X6_last_emission_witness :
  stored_status
    (s_status (fst (event_handler 3 (drivers_ok 0) (component_with_sta 77 5)
                      (sta_disconnected []))))
    NET_EVENT_SOURCE_STA
  = NET_STATUS_CONNECTING.
Proof.
  destruct (X6_last_emission_agrees_with_status_record 3 (drivers_ok 0)
              (component_with_sta 77 5) (sta_disconnected []) ev_sta_connecting)
    as [[H | [H _]] _].
  - reflexivity.
  - symmetry. exact H.
  - discriminate H.
Defined.

(** ** Events the handler does not know *)

Lemma ignored_step M drv st e :
  is_ignored st e = true -> event_handler M drv st e = (st, []).
Proof.
  destruct e as [[] d | id ev | [] | base id]; simpl; try discriminate;
    try reflexivity.
  intros H. apply andb_true_iff in H. destruct H as [H1 H2].
  apply negb_true_iff in H1. apply negb_true_iff in H2.
  rewrite H1, H2. reflexivity.
Qed.

(** X7.  A sequence of events the handler does not know (ids without a
    case, other event bases, address events of a foreign netif) changes
    nothing and calls nothing; and the classification is exact: with a
    subscriber registered, every other event hands at least one event to
    the subscriber. *)
Theorem X7_unknown_events_are_dropped :
  forall (M : Z) (drv : drivers) (st : component),
    (forall es,
        forallb (is_ignored st) es = true ->
        run_events M drv st es = (st, []))
    /\ (forall e,
          s_user_callback st <> NULL ->
          is_ignored st e = false ->
          callbacks (snd (event_handler M drv st e)) <> []).
Proof.
  intros M drv st. split.
  - induction es as [|e es IH]; intros Hall; [reflexivity|].
    cbn [forallb] in Hall. apply andb_true_iff in Hall. destruct Hall as [He Hes].
    rewrite run_events_cons, (ignored_step M drv st e He). cbn [fst snd].
    rewrite (IH Hes). reflexivity.
  - intros e Hcb Hign.
    assert (is_null (s_user_callback st) = false) as Hnull.
    { unfold is_null. apply Z.eqb_neq. exact Hcb. }
    destruct e as [[] d | id ev | [] | base id]; try discriminate Hign;
      unfold event_handler, dispatch, notify; simpl; rewrite ?Hnull;
      repeat match goal with
             | |- context [if ?c then _ else _] => destruct c eqn:?
             end;
      simpl; try discriminate.
    simpl in Hign.
    repeat match goal with
           | H : (_ =? _) = false |- _ => rewrite H in Hign
           end.
    discriminate Hign.
Qed.

Lemma X7_unknown_events_witness :
  run_events 3 (drivers_ok 0) (component_with_sta 77 5)
    [WIFI_EVENT (WIFI_EVENT_OTHER 1) []; OTHER_EVENT "MQTT_EVENTS" 2;
     IP_EVENT 0 (mk_got_ip 99 (mk_ip_info 1 2 3)); ETH_EVENT (ETHERNET_EVENT_OTHER 9)]
  = (component_with_sta 77 5, [])
  /\ callbacks (snd (event_handler 3 (drivers_ok 0) (component_with_sta 77 5)
                       (ETH_EVENT ETHERNET_EVENT_STOP))) <> [].
Proof.
  destruct (X7_unknown_events_are_dropped 3 (drivers_ok 0) (component_with_sta 77 5))
    as [Hdrop Hemit].
  split.
  - apply Hdrop. reflexivity.
  - apply Hemit; [simpl; unfold NULL; lia | reflexivity].
Defined.

(** ** The connectivity predicates *)

(** X8.  On an initialised component, after any sequence of events:
    [is_sta_connected] is true right after an address-acquired event of the
    station's netif and false right after a STA disconnect event;
    [is_eth_connected] is true right after an address-acquired event of the
    Ethernet netif, provided that netif differs from the station's, and
    false right after an Ethernet link-down.  An address event whose netif
    equals both handles is attributed to the station only. *)
Theorem X8_connectivity_predicates_follow_events :
  forall (M : Z) (drv : drivers) (st : component) (es : list raw_event),
    s_is_initialized st = true ->
    (forall id info,
        net_manager_is_sta_connected
          (fst (run_events M drv st
                  (es ++ [IP_EVENT id (mk_got_ip (s_netif_sta st) info)])))
        = Some true)
    /\ (forall d,
          net_manager_is_sta_connected
            (fst (run_events M drv st (es ++ [sta_disconnected d])))
          = Some false)
    /\ (forall id info,
          s_netif_eth st <> s_netif_sta st ->
          net_manager_is_eth_connected
            (fst (run_events M drv st
                    (es ++ [IP_EVENT id (mk_got_ip (s_netif_eth st) info)])))
          = Some true)
    /\ net_manager_is_eth_connected
         (fst (run_events M drv st (es ++ [ETH_EVENT ETHERNET_EVENT_DISCONNECTED])))
       = Some false
    /\ (forall id info,
          s_netif_eth st = s_netif_sta st ->
          net_manager_is_eth_connected
            (fst (run_events M drv st
                    (es ++ [IP_EVENT id (mk_got_ip (s_netif_eth st) info)])))
          = net_manager_is_eth_connected (fst (run_events M drv st es))).
Proof.
  intros M drv st es Hinit.
  destruct (run_events_keeps M drv es st) as (Hi & Hsta & _ & Heth & _).
  set (st0 := fst (run_events M drv st es)) in *.
  assert (forall e,
             fst (run_events M drv st (es ++ [e])) = fst (event_handler M drv st0 e))
    as Hlast.
  { intros e. rewrite run_events_app. cbn [fst]. fold st0.
    rewrite run_events_cons. reflexivity. }
  repeat apply conj.
  - intros id info. rewrite Hlast.
    unfold net_manager_is_sta_connected. cbn [event_handler esp_netif].
    rewrite <- Hsta, Z.eqb_refl. simpl. rewrite Hi, Hinit. reflexivity.
  - intros d. rewrite Hlast.
    unfold net_manager_is_sta_connected, sta_disconnected. cbn [event_handler].
    destruct ((M <? 0) || (s_sta_retry_count _ <? M)); simpl;
      rewrite Hi, Hinit; reflexivity.
  - intros id info Hne. rewrite Hlast.
    unfold net_manager_is_eth_connected. cbn [event_handler esp_netif].
    rewrite <- Hsta, <- Heth in Hne. rewrite <- Heth.
    destruct (Z.eqb_spec (s_netif_eth st0) (s_netif_sta st0)) as [Heq|_];
      [contradiction|].
    rewrite Z.eqb_refl. simpl. rewrite Hi, Hinit. reflexivity.
  - rewrite Hlast. unfold net_manager_is_eth_connected. simpl.
    rewrite Hi, Hinit. reflexivity.
  - intros id info Heq. rewrite Hlast.
    unfold net_manager_is_eth_connected. cbn [event_handler esp_netif].
    rewrite <- Hsta, <- Heth in Heq. rewrite <- Heth, Heq, Z.eqb_refl. simpl.
    reflexivity.
Qed.

Lemma X8_connectivity_witness :
  net_manager_is_sta_connected
    (fst (run_events 3 (drivers_ok 0) (component_with_sta 77 5)
            ([sta_disconnected []]
               ++ [IP_EVENT 0 (mk_got_ip (s_netif_sta (component_with_sta 77 5))
                                         (mk_ip_info 1 2 3))])))
  = Some true.
Proof.
  destruct (X8_connectivity_predicates_follow_events 3 (drivers_ok 0)
              (component_with_sta 77 5) [sta_disconnected []]) as (H & _).
  - reflexivity.
  - apply H.
Defined.

(** * Further properties of the lifecycle *)

(** ** The monad *)

Lemma bind_get {A : Type} (f : component -> M A) st : (get ≫= f) st = f st st.
Proof. unfold mbind, M_bind, get. destruct (f st st); reflexivity. Qed.

Lemma bind_run {A B : Type} (m : M A) (f : A -> M B) st :
  (m ≫= f) st
  = match m st with
    | Aborted tr => Aborted tr
    | Returned x st1 tr1 => prepend_calls tr1 (f x st1)
    end.
Proof. reflexivity. Qed.

Lemma prepend_calls_nil {A : Type} (r : result A) : prepend_calls [] r = r.
Proof. destruct r; reflexivity. Qed.

(** ** Stop *)

Lemma stop_all_interfaces_run (st : component) :
  stop_all_interfaces st = Returned tt (stopped st) (stop_calls st).
Proof.
  destruct st as [ini sta ap eth hs num stat cb n].
  destruct sta, ap, eth, hs; reflexivity.
Qed.

Lemma stopped_stopped st : stopped (stopped st) = stopped st.
Proof. reflexivity. Qed.

Lemma stop_calls_stopped st : stop_calls (stopped st) = [].
Proof. reflexivity. Qed.

Lemma net_manager_stop_run st :
  net_manager_stop st
  = if s_is_initialized st then Returned ESP_OK (stopped st) (stop_calls st)
    else Aborted [].
Proof.
  unfold net_manager_stop. rewrite bind_get.
  destruct (s_is_initialized st) eqn:Hi; [|reflexivity].
  rewrite bind_run. cbn [assert mret M_ret prepend_calls app].
  rewrite prepend_calls_nil, bind_run, stop_all_interfaces_run.
  cbn. rewrite app_nil_r. reflexivity.
Qed.

Lemma net_manager_start_run drv kc nvs stack config st :
  net_manager_start drv kc nvs stack config st
  = if s_is_initialized st
    then prepend_calls (stop_calls st)
           ((local_config kc nvs (stopped st) stack config ≫= start_interfaces drv)
              (stopped st))
    else Aborted [].
Proof.
  unfold net_manager_start. rewrite bind_get.
  destruct (s_is_initialized st) eqn:Hi; [|reflexivity].
  rewrite bind_run. cbn [assert mret M_ret].
  rewrite prepend_calls_nil, bind_run, stop_all_interfaces_run.
  rewrite bind_get. reflexivity.
Qed.

(** X9.  On an initialised component, stop returns ESP_OK after these
    driver calls, in this order: the Ethernet netif is destroyed, the
    Ethernet driver handles are released, and, only if the station or the
    AP netif exists, the radio is stopped and de-initialised before the
    station netif and the AP netif are destroyed.  A handle that is NULL is
    never passed to a driver, and the radio is stopped exactly when the
    station or the AP netif exists. *)
Theorem X9_stop_teardown_order :
  forall st : component,
    s_is_initialized st = true ->
    net_manager_stop st = Returned ESP_OK (stopped st) (stop_calls st)
    /\ ~ In (NetifDestroy NULL) (stop_calls st)
    /\ ~ In (EthernetDeinitAll NULL) (stop_calls st)
    /\ (In WifiStop (stop_calls st) <-> s_netif_sta st <> NULL \/ s_netif_ap st <> NULL)
    /\ (s_netif_sta st <> NULL -> s_netif_ap st <> NULL ->
        s_netif_eth st <> NULL -> s_eth_handles st <> NULL ->
        stop_calls st
        = [NetifDestroy (s_netif_eth st); EthernetDeinitAll (s_eth_handles st);
           WifiStop; WifiDeinit;
           NetifDestroy (s_netif_sta st); NetifDestroy (s_netif_ap st)]).
Proof.
  intros st Hi. split.
  { rewrite net_manager_stop_run, Hi. reflexivity. }
  destruct st as [ini sta ap eth hs num stat cb n].
  unfold stop_calls, is_null, NULL. cbn [s_netif_sta s_netif_ap s_netif_eth s_eth_handles].
  destruct (Z.eqb_spec sta 0) as [Hsta|Hsta]; destruct (Z.eqb_spec ap 0) as [Hap|Hap];
    destruct (Z.eqb_spec eth 0) as [Heth|Heth]; destruct (Z.eqb_spec hs 0) as [Hhs|Hhs];
    cbn [andb app];
    (split; [intros H; cbn [In] in H;
             repeat (destruct H as [H|H]; [first [discriminate H | congruence]|]);
             exact H|]);
    (split; [intros H; cbn [In] in H;
             repeat (destruct H as [H|H]; [first [discriminate H | congruence]|]);
             exact H|]);
    (split; [split;
             [intros H; cbn [In] in H;
              repeat (destruct H as [H|H]; [try discriminate H|]);
              first [contradiction | tauto]
             | intros [H|H]; first [contradiction | cbn [In]; tauto]]|]);
    intros; first [contradiction | reflexivity].
Qed.

Lemma X9_stop_teardown_witness :
  net_manager_stop
    (mk_component true 1073610000 1073610100 1073610200 1073620000 1 status_zero 77 2)
  = Returned ESP_OK
      (mk_component true NULL NULL NULL NULL 0
         (mk_status NET_STATUS_STOPPED NET_STATUS_STOPPED NET_STATUS_STOPPED
                    ip_info_zero ip_info_zero ip_info_zero 0)
         77 0)
      [NetifDestroy 1073610200; EthernetDeinitAll 1073620000; WifiStop; WifiDeinit;
       NetifDestroy 1073610000; NetifDestroy 1073610100].
Proof.
  destruct (X9_stop_teardown_order
              (mk_component true 1073610000 1073610100 1073610200 1073620000 1
                 status_zero 77 2)) as [H _].
  - reflexivity.
  - exact H.
Defined.

(** X10.  After a stop that returned, every query reports the stopped
    component: [get_status] shows the three interfaces Stopped with zero
    addresses and no AP client, the two connectivity predicates are false,
    [get_ip_info] and [get_dns_info] fail with ESP_ERR_INVALID_ARG for every
    source, and [get_ap_clients_list] fails with ESP_ERR_WIFI_NOT_STARTED
    without calling the driver. *)
Theorem X10_queries_after_stop :
  forall (drv : drivers) (st st1 : component) (v : esp_err_t) (tr : list action),
    net_manager_stop st = Returned v st1 tr ->
    net_manager_get_status st1
    = Some (ESP_OK,
            mk_status NET_STATUS_STOPPED NET_STATUS_STOPPED NET_STATUS_STOPPED
                      ip_info_zero ip_info_zero ip_info_zero 0)
    /\ net_manager_is_sta_connected st1 = Some false
    /\ net_manager_is_eth_connected st1 = Some false
    /\ (forall source buf,
          net_manager_get_ip_info drv st1 source buf = Some (ESP_ERR_INVALID_ARG, buf))
    /\ (forall source type buf,
          net_manager_get_dns_info drv st1 source type buf
          = Some (ESP_ERR_INVALID_ARG, buf))
    /\ (forall get_sta_list clients,
          net_manager_get_ap_clients_list get_sta_list st1 clients
          = Some (ESP_ERR_WIFI_NOT_STARTED, clients)).
Proof.
  intros drv st st1 v tr Hstop.
  rewrite net_manager_stop_run in Hstop.
  destruct (s_is_initialized st) eqn:Hi; [|discriminate Hstop].
  inversion Hstop; subst. clear Hstop.
  unfold net_manager_get_status, net_manager_is_sta_connected,
    net_manager_is_eth_connected, net_manager_get_ip_info, net_manager_get_dns_info,
    net_manager_get_ap_clients_list.
  cbn [stopped s_is_initialized s_status s_netif_ap sta_status eth_status].
  rewrite Hi. repeat split.
  - intros []; reflexivity.
  - intros []; reflexivity.
Qed.

Lemma X10_queries_after_stop_witness :
  net_manager_get_ip_info (drivers_ok 1)
    (mk_component true NULL NULL NULL NULL 0
       (mk_status NET_STATUS_STOPPED NET_STATUS_STOPPED NET_STATUS_STOPPED
                  ip_info_zero ip_info_zero ip_info_zero 0)
       77 0)
    NET_EVENT_SOURCE_STA (mk_ip_info 1 2 3)
  = Some (ESP_ERR_INVALID_ARG, mk_ip_info 1 2 3).
Proof.
  destruct (X10_queries_after_stop (drivers_ok 1)
              (mk_component true 1073610000 1073610100 1073610200 1073620000 1
                 status_zero 77 2)
              (mk_component true NULL NULL NULL NULL 0
                 (mk_status NET_STATUS_STOPPED NET_STATUS_STOPPED NET_STATUS_STOPPED
                            ip_info_zero ip_info_zero ip_info_zero 0)
                 77 0)
              ESP_OK
              [NetifDestroy 1073610200; EthernetDeinitAll 1073620000; WifiStop;
               WifiDeinit; NetifDestroy 1073610000; NetifDestroy 1073610100])
    as (_ & _ & _ & H & _).
  - reflexivity.
  - apply H.
Defined.

(** X11.  Start always performs a full stop first, so an explicit stop
    before it is redundant: stop followed by start makes the same driver
    calls and ends in the same result and component as start alone. *)
Theorem X11_stop_before_start_is_redundant :
  forall (drv : drivers) (kc : kconfig) (nvs : nvs_store) (stack : list Byte.byte)
         (config : option (list Byte.byte)) (st : component),
    (net_manager_stop ≫= (fun _ => net_manager_start drv kc nvs stack config)) st
    = net_manager_start drv kc nvs stack config st.
Proof.
  intros drv kc nvs stack config st.
  rewrite bind_run, net_manager_stop_run, !net_manager_start_run.
  destruct (s_is_initialized st) eqn:Hi; [|reflexivity].
  rewrite net_manager_start_run.
  change (s_is_initialized (stopped st)) with (s_is_initialized st). rewrite Hi.
  change (stop_calls (stopped st)) with (@nil action).
  rewrite prepend_calls_nil. reflexivity.
Qed.

(** * Further properties of the configuration object *)

(** ** [strncpy] *)

Lemma strncpy_length (src : list Byte.byte) : forall n, length (strncpy src n) = n.
Proof.
  induction src as [|c src IH]; intros [|n]; try reflexivity.
  - apply List.repeat_length.
  - cbn [strncpy]. destruct (Z_of_byte c =? 0).
    + apply List.repeat_length.
    + cbn [length]. rewrite IH. reflexivity.
Qed.

Lemma strncpy_no_nul (src : list Byte.byte) : forall n,
  (n <= length src)%nat ->
  Forall (fun c => Z_of_byte c <> 0) (take n src) ->
  strncpy src n = take n src.
Proof.
  induction src as [|c src IH]; intros [|n] Hlen Hall; try reflexivity.
  - simpl in Hlen. lia.
  - cbn [strncpy take firstn] in *. inversion Hall as [|? ? Hc Hrest]; subst.
    apply Z.eqb_neq in Hc. rewrite Hc. f_equal.
    apply IH; [simpl in Hlen; lia | exact Hrest].
Qed.

(** Once a NUL is written, only NULs follow. *)
Lemma strncpy_nul_tail (src : list Byte.byte) : forall n i j,
  (i <= j < n)%nat ->
  Z_of_byte (nth i (strncpy src n) Byte.x00) = 0 ->
  Z_of_byte (nth j (strncpy src n) Byte.x00) = 0.
Proof.
  induction src as [|c src IH]; intros [|n] i j Hij Hi; try lia.
  - cbn [strncpy]. rewrite List.nth_repeat. reflexivity.
  - cbn [strncpy] in *. destruct (Z_of_byte c =? 0) eqn:Hc.
    + rewrite List.nth_repeat. reflexivity.
    + destruct i as [|i].
      * cbn [nth] in Hi. apply Z.eqb_neq in Hc. contradiction.
      * destruct j as [|j]; [lia|]. cbn [nth] in *.
        apply (IH n i j); [lia | exact Hi].
Qed.

(** ** Stores into a configuration object *)

Lemma store_bytes_length obj off bs :
  (off + length bs <= length obj)%nat ->
  length (store_bytes obj off bs) = length obj.
Proof.
  intros H. unfold store_bytes.
  rewrite !List.length_app, List.length_firstn, List.length_skipn. lia.
Qed.

Lemma nth_store_bytes_outside obj off bs i :
  (off + length bs <= length obj)%nat ->
  (i < off \/ off + length bs <= i)%nat ->
  nth i (store_bytes obj off bs) Byte.x00 = nth i obj Byte.x00.
Proof.
  intros Hlen Hi. unfold store_bytes.
  destruct (Nat.lt_ge_cases i off) as [Hlt|Hge].
  - rewrite List.app_nth1 by (rewrite List.length_firstn; lia).
    rewrite List.nth_firstn.
    destruct (Nat.ltb_spec i off); [reflexivity | lia].
  - rewrite List.app_nth2 by (rewrite List.length_firstn; lia).
    rewrite List.length_firstn.
    rewrite List.app_nth2 by lia.
    rewrite List.nth_skipn. f_equal. lia.
Qed.

Lemma nth_store_bytes_inside obj off bs i :
  (off + length bs <= length obj)%nat ->
  (off <= i < off + length bs)%nat ->
  nth i (store_bytes obj off bs) Byte.x00 = nth (i - off) bs Byte.x00.
Proof.
  intros Hlen Hi. unfold store_bytes.
  rewrite List.app_nth2 by (rewrite List.length_firstn; lia).
  rewrite List.length_firstn.
  rewrite List.app_nth1 by lia.
  f_equal. lia.
Qed.

Lemma Z_of_byte_of_Z (z : Z) : Z_of_byte (byte_of_Z z) = z mod 256.
Proof.
  unfold Z_of_byte, byte_of_Z.
  assert (0 <= z mod 256 < 256) as Hr by (apply Z.mod_pos_bound; lia).
  destruct (Byte.of_N (Z.to_N (z mod 256))) as [b|] eqn:Hb.
  - cbn [default from_option id]. apply Byte.to_of_N in Hb. rewrite Hb. lia.
  - exfalso. apply Byte.of_N_None_iff in Hb. lia.
Qed.

Lemma load_bytes_store_bytes_same obj off bs :
  (off + length bs <= length obj)%nat ->
  load_bytes (store_bytes obj off bs) off (length bs) = bs.
Proof.
  intros H. unfold load_bytes, store_bytes.
  rewrite drop_app_length' by (rewrite List.length_firstn; lia).
  rewrite take_app_length. reflexivity.
Qed.

Lemma load_bytes_length obj off len :
  (off + len <= length obj)%nat -> length (load_bytes obj off len) = len.
Proof.
  intros H. unfold load_bytes.
  rewrite List.length_firstn, List.length_skipn. lia.
Qed.

Lemma nth_load_bytes obj off len i :
  (i < len)%nat ->
  nth i (load_bytes obj off len) Byte.x00 = nth (off + i) obj Byte.x00.
Proof.
  intros H. unfold load_bytes.
  rewrite List.nth_firstn. destruct (Nat.ltb_spec i len); [|lia].
  apply List.nth_skipn.
Qed.

Lemma load_bytes_store_bytes_disjoint obj off bs o len :
  (off + length bs <= length obj)%nat ->
  (o + len <= length obj)%nat ->
  (o + len <= off \/ off + length bs <= o)%nat ->
  load_bytes (store_bytes obj off bs) o len = load_bytes obj o len.
Proof.
  intros Hs Hl Hd.
  apply (List.nth_ext _ _ Byte.x00 Byte.x00).
  - rewrite !load_bytes_length; [reflexivity | lia |].
    rewrite store_bytes_length by lia. lia.
  - intros i Hi.
    rewrite load_bytes_length in Hi by (rewrite store_bytes_length by lia; lia).
    rewrite !nth_load_bytes by lia.
    apply nth_store_bytes_outside; lia.
Qed.

(** ** The Kconfig defaults *)

Lemma store_bytes_length_n n obj off bs len :
  length obj = n -> length bs = len -> (off + len <=? n)%nat = true ->
  length (store_bytes obj off bs) = n.
Proof.
  intros Ho Hb Hle. apply Nat.leb_le in Hle.
  rewrite store_bytes_length; lia.
Qed.

Lemma nth_store_bytes_out n obj off bs len i :
  length obj = n -> length bs = len -> (off + len <=? n)%nat = true ->
  ((i <? off) || (off + len <=? i))%nat = true ->
  nth i (store_bytes obj off bs) Byte.x00 = nth i obj Byte.x00.
Proof.
  intros Ho Hb Hle Hi. apply Nat.leb_le in Hle.
  apply orb_true_iff in Hi.
  apply nth_store_bytes_outside; [lia|].
  destruct Hi as [Hi|Hi]; [apply Nat.ltb_lt in Hi | apply Nat.leb_le in Hi]; lia.
Qed.

Lemma nth_store_bytes_in n obj off bs len i :
  length obj = n -> length bs = len -> (off + len <=? n)%nat = true ->
  ((off <=? i) && (i <? off + len))%nat = true ->
  nth i (store_bytes obj off bs) Byte.x00 = nth (i - off) bs Byte.x00.
Proof.
  intros Ho Hb Hle Hi. apply Nat.leb_le in Hle.
  apply andb_true_iff in Hi. destruct Hi as [H1 H2].
  apply Nat.leb_le in H1. apply Nat.ltb_lt in H2.
  apply nth_store_bytes_inside; lia.
Qed.

Lemma load_bytes_store_bytes_out n obj off bs len o l :
  length obj = n -> length bs = len -> (off + len <=? n)%nat = true ->
  (o + l <=? n)%nat = true ->
  ((o + l <=? off) || (off + len <=? o))%nat = true ->
  load_bytes (store_bytes obj off bs) o l = load_bytes obj o l.
Proof.
  intros Ho Hb Hle Hl Hd. apply Nat.leb_le in Hle. apply Nat.leb_le in Hl.
  apply orb_true_iff in Hd.
  apply load_bytes_store_bytes_disjoint; [lia | lia |].
  destruct Hd as [Hd|Hd]; apply Nat.leb_le in Hd; lia.
Qed.

Lemma load_bytes_store_bytes_in n obj off bs len :
  length obj = n -> length bs = len -> (off + len <=? n)%nat = true ->
  load_bytes (store_bytes obj off bs) off len = bs.
Proof.
  intros Ho Hb Hle. apply Nat.leb_le in Hle. subst len.
  apply load_bytes_store_bytes_same. lia.
Qed.

Ltac side :=
  first [assumption | apply List.repeat_length | apply strncpy_length | reflexivity].

Ltac bytes_len bs :=
  lazymatch bs with
  | strncpy _ ?n => constr:(n)
  | _ => constr:(length bs)
  end.

(* the length of every layer of stores, innermost first *)
Ltac note_lengths :=
  repeat match goal with
         | |- context [store_bytes ?o ?off ?bs] =>
             lazymatch goal with
             | _ : length (store_bytes o off bs) = 248%nat |- _ => fail
             | _ =>
                 let len := bytes_len bs in
                 assert (length (store_bytes o off bs) = 248%nat)
                   by (apply (store_bytes_length_n 248 o off bs len); side)
             end
         end.

Ltac read_byte :=
  repeat match goal with
         | |- context [nth ?i (store_bytes ?o ?off ?bs) Byte.x00] =>
             let len := bytes_len bs in
             first [ rewrite (nth_store_bytes_out 248 o off bs len i) by side
                   | rewrite (nth_store_bytes_in 248 o off bs len i) by side ]
         end;
  rewrite ?List.nth_repeat.

Ltac read_bytes :=
  repeat match goal with
         | |- context [load_bytes (store_bytes ?o ?off ?bs) ?p ?l] =>
             let len := bytes_len bs in
             first [ rewrite (load_bytes_store_bytes_out 248 o off bs len p l) by side
                   | rewrite (load_bytes_store_bytes_in 248 o off bs len) by side ]
         end.

(** X13.  The configuration built from the Kconfig defaults occupies
    exactly [sizeof(net_manager_config_t)] bytes; its three enable flags
    are the three Kconfig switches; static IP is off for the station and
    for Ethernet; the four SSID and password arrays end with a NUL whatever
    the length of the Kconfig strings; with the station enabled its SSID and
    password are the first 31 and 63 bytes of the Kconfig strings,
    NUL-padded; with the AP enabled its channel and maximum number of
    connections are the Kconfig values modulo 256. *)
Theorem X13_kconfig_defaults_layout :
  forall k : kconfig,
    let c := get_default_config_from_kconfig k in
    length c = sizeof_net_manager_config_t
    /\ cfg_wifi_sta_enabled c = CONFIG_NET_MANAGER_WIFI_STA_ENABLED_DEFAULT k
    /\ cfg_wifi_ap_enabled c = CONFIG_NET_MANAGER_WIFI_AP_ENABLED_DEFAULT k
    /\ cfg_ethernet_enabled c = CONFIG_NET_MANAGER_ETHERNET_ENABLED_DEFAULT k
    /\ load_bool c (offsetof_wifi_sta_config + sta_use_static_ip) = false
    /\ load_bool c (offsetof_ethernet_config + eth_use_static_ip) = false
    /\ load_u8 c (offsetof_wifi_sta_config + sta_ssid + 31) = 0
    /\ load_u8 c (offsetof_wifi_sta_config + sta_password + 63) = 0
    /\ load_u8 c (offsetof_wifi_ap_config + ap_ssid + 31) = 0
    /\ load_u8 c (offsetof_wifi_ap_config + ap_password + 63) = 0
    /\ (CONFIG_NET_MANAGER_WIFI_STA_ENABLED_DEFAULT k = true ->
        load_bytes c (offsetof_wifi_sta_config + sta_ssid) 31
        = strncpy (CONFIG_NET_MANAGER_WIFI_STA_SSID_DEFAULT k) 31
        /\ load_bytes c (offsetof_wifi_sta_config + sta_password) 63
           = strncpy (CONFIG_NET_MANAGER_WIFI_STA_PASSWORD_DEFAULT k) 63)
    /\ (CONFIG_NET_MANAGER_WIFI_AP_ENABLED_DEFAULT k = true ->
        load_u8 c (offsetof_wifi_ap_config + ap_channel)
        = CONFIG_NET_MANAGER_WIFI_AP_CHANNEL_DEFAULT k mod 256
        /\ load_u8 c (offsetof_wifi_ap_config + ap_max_connections)
           = CONFIG_NET_MANAGER_WIFI_AP_MAX_CONN_DEFAULT k mod 256).
Proof.
  intros k c. subst c.
  unfold get_default_config_from_kconfig, cfg_wifi_sta_enabled, cfg_wifi_ap_enabled,
    cfg_ethernet_enabled, load_bool, load_u8.
  unfold offsetof_wifi_sta_enabled, offsetof_wifi_ap_enabled, offsetof_ethernet_enabled,
    offsetof_wifi_sta_config, offsetof_wifi_ap_config, offsetof_ethernet_config,
    sta_ssid, sta_password, sta_use_static_ip, ap_ssid, ap_password, ap_channel,
    ap_max_connections, eth_use_static_ip, sizeof_net_manager_config_t, true_byte.
  cbn [Nat.add Nat.sub].
  destruct (CONFIG_NET_MANAGER_WIFI_STA_ENABLED_DEFAULT k);
    destruct (CONFIG_NET_MANAGER_WIFI_AP_ENABLED_DEFAULT k);
    destruct (CONFIG_NET_MANAGER_ETHERNET_ENABLED_DEFAULT k);
    cbv zeta; note_lengths;
    (split; [first [assumption | apply List.repeat_length]|]);
    repeat (split; [read_byte; reflexivity|]);
    (split; [intros Hen; try discriminate Hen; split; read_bytes; reflexivity|]);
    (intros Hen; try discriminate Hen; split; read_byte; cbn [Nat.sub nth];
     apply Z_of_byte_of_Z).
Qed.

Lemma X13_kconfig_defaults_witness :
  load_bytes
    (get_default_config_from_kconfig
       (mk_kconfig true [Byte.x68; Byte.x6f; Byte.x6d; Byte.x65] [] true [] [] 6 300 false))
    (offsetof_wifi_sta_config + sta_ssid) 31
  = [Byte.x68; Byte.x6f; Byte.x6d; Byte.x65] ++ repeat Byte.x00 27
  /\ load_u8
       (get_default_config_from_kconfig
          (mk_kconfig true [Byte.x68; Byte.x6f; Byte.x6d; Byte.x65] [] true [] [] 6 300 false))
       (offsetof_wifi_ap_config + ap_max_connections)
     = 44.
Proof.
  destruct (X13_kconfig_defaults_layout
              (mk_kconfig true [Byte.x68; Byte.x6f; Byte.x6d; Byte.x65] [] true [] [] 6 300 false))
    as (_ & _ & _ & _ & _ & _ & _ & _ & _ & _ & Hsta & Hap).
  split.
  - destruct (Hsta eq_refl) as [H _]. rewrite H. reflexivity.
  - destruct (Hap eq_refl) as [_ H]. rewrite H. reflexivity.
Defined.

(** ** Start without a configuration *)

Lemma default_config_length k :
  length (get_default_config_from_kconfig k) = sizeof_net_manager_config_t.
Proof.
  unfold get_default_config_from_kconfig.
  unfold offsetof_wifi_sta_enabled, offsetof_wifi_ap_enabled, offsetof_ethernet_enabled,
    offsetof_wifi_sta_config, offsetof_wifi_ap_config, offsetof_ethernet_config,
    sta_ssid, sta_password, ap_ssid, ap_password, ap_channel,
    ap_max_connections, sizeof_net_manager_config_t, true_byte.
  cbn [Nat.add Nat.sub].
  destruct (CONFIG_NET_MANAGER_WIFI_STA_ENABLED_DEFAULT k);
    destruct (CONFIG_NET_MANAGER_WIFI_AP_ENABLED_DEFAULT k);
    destruct (CONFIG_NET_MANAGER_ETHERNET_ENABLED_DEFAULT k);
    cbv zeta; note_lengths; first [assumption | apply List.repeat_length].
Qed.

Lemma load_config_not_ready st s buf :
  s_is_initialized st = true ->
  nvs_ready s = false ->
  net_manager_load_config_from_nvs st s buf = Some (ESP_ERR_NVS_NOT_INITIALIZED, buf).
Proof.
  intros Hi Hr. unfold net_manager_load_config_from_nvs, nvs_open.
  rewrite Hi, Hr. reflexivity.
Qed.

Lemma local_config_null kc s st stack :
  s_is_initialized st = true ->
  length stack = sizeof_net_manager_config_t ->
  local_config kc s st stack None = mret (stored_or_default_config kc s).
Proof.
  intros Hi Hstack. unfold local_config, stored_or_default_config.
  destruct (nvs_ready s) eqn:Hr.
  - destruct (stored_config s) as [blob|] eqn:Hst.
    + rewrite (load_config_stored st s stack blob Hi Hr Hst).
      destruct (Nat.ltb_spec sizeof_net_manager_config_t (length blob)) as [Hlt|Hge].
      * destruct (Nat.eqb_spec (length blob) sizeof_net_manager_config_t); [lia|].
        reflexivity.
      * destruct (Nat.eqb_spec (length blob) sizeof_net_manager_config_t) as [Heq|Hne];
          [|reflexivity].
        change (negb (ESP_OK =? ESP_OK)) with false. cbv iota.
        rewrite <- Hstack in Heq. rewrite Heq, drop_all, app_nil_r. reflexivity.
    + rewrite (load_config_not_found st s stack Hi Hr Hst). reflexivity.
  - rewrite (load_config_not_ready st s stack Hi Hr). reflexivity.
Qed.

Lemma stored_or_default_config_length kc s :
  length (stored_or_default_config kc s) = sizeof_net_manager_config_t.
Proof.
  unfold stored_or_default_config.
  destruct (nvs_ready s); [|apply default_config_length].
  destruct (stored_config s) as [blob|]; [|apply default_config_length].
  destruct (Nat.eqb_spec (length blob) sizeof_net_manager_config_t) as [Heq|_];
    [exact Heq | apply default_config_length].
Qed.

Lemma start_with_null_config drv kc s stack st :
  length stack = sizeof_net_manager_config_t ->
  net_manager_start drv kc s stack None st
  = net_manager_start drv kc s stack (Some (stored_or_default_config kc s)) st.
Proof.
  intros Hstack. rewrite !net_manager_start_run.
  destruct (s_is_initialized st) eqn:Hi; [|reflexivity].
  rewrite local_config_null by (first [exact Hi | exact Hstack]).
  unfold local_config.
  rewrite (List.firstn_all2 (stored_or_default_config kc s))
    by (rewrite stored_or_default_config_length; lia).
  reflexivity.
Qed.

(** X14.  A start without configuration runs exactly like a start with
    the configuration the store holds, if the store is ready and holds a
    blob of [sizeof(net_manager_config_t)] bytes, and exactly like a start
    with the Kconfig defaults in every other case (store not ready, nothing
    stored, blob of another size). *)
Theorem X14_start_without_config_uses_store_or_defaults :
  forall (drv : drivers) (kc : kconfig) (s : nvs_store) (stack : list Byte.byte)
         (st : component),
    length stack = sizeof_net_manager_config_t ->
    net_manager_start drv kc s stack None st
    = net_manager_start drv kc s stack (Some (stored_or_default_config kc s)) st
    /\ (stored_or_default_config kc s = get_default_config_from_kconfig kc
        \/ (nvs_ready s = true
            /\ stored_config s = Some (stored_or_default_config kc s)
            /\ length (stored_or_default_config kc s) = sizeof_net_manager_config_t)).
Proof.
  intros drv kc s stack st Hstack. split.
  - apply start_with_null_config. exact Hstack.
  - unfold stored_or_default_config.
    destruct (nvs_ready s); [|left; reflexivity].
    destruct (stored_config s) as [blob|]; [|left; reflexivity].
    destruct (Nat.eqb_spec (length blob) sizeof_net_manager_config_t) as [Heq|_];
      [right; auto | left; reflexivity].
Qed.

Lemma X14_start_without_config_witness :
  net_manager_start (drivers_ok 1) kconfig_none nvs_empty
    (repeat Byte.xff sizeof_net_manager_config_t) None (component_after_init 77)
  = net_manager_start (drivers_ok 1) kconfig_none nvs_empty
      (repeat Byte.xff sizeof_net_manager_config_t)
      (Some (get_default_config_from_kconfig kconfig_none)) (component_after_init 77).
Proof.
  destruct (X14_start_without_config_uses_store_or_defaults (drivers_ok 1)
              kconfig_none nvs_empty (repeat Byte.xff sizeof_net_manager_config_t)
              (component_after_init 77)) as [H _].
  - reflexivity.
  - exact H.
Defined.

(** X15.  A saved configuration is the one the next start without
    argument runs with: after [save_config(C)] returned ESP_OK, [start(NULL)]
    behaves exactly like [start(&C)]. *)
Theorem X15_saved_config_is_used_by_start :
  forall (drv : drivers) (kc : kconfig) (s s' : nvs_store)
         (stack C : list Byte.byte) (st st0 : component),
    length C = sizeof_net_manager_config_t ->
    length stack = sizeof_net_manager_config_t ->
    net_manager_save_config_to_nvs st0 s C = Some (ESP_OK, s') ->
    net_manager_start drv kc s' stack None st
    = net_manager_start drv kc s' stack (Some C) st.
Proof.
  intros drv kc s s' stack C st st0 HC Hstack Hsave.
  assert (s_is_initialized st0 = true) as Hi0.
  { unfold net_manager_save_config_to_nvs in Hsave.
    destruct (s_is_initialized st0); [reflexivity | discriminate Hsave]. }
  assert (nvs_ready s = true) as Hr.
  { unfold net_manager_save_config_to_nvs, nvs_open in Hsave. rewrite Hi0 in Hsave.
    destruct (nvs_ready s); [reflexivity|].
    cbn in Hsave. discriminate Hsave. }
  destruct (save_config_stores st0 s C Hi0 Hr) as (s1 & Hsave1 & Hr1 & Hst1).
  rewrite Hsave in Hsave1. inversion Hsave1; subst s1. clear Hsave1.
  rewrite <- HC in Hst1. rewrite firstn_all in Hst1.
  rewrite start_with_null_config by exact Hstack.
  unfold stored_or_default_config. rewrite Hr1, Hst1, HC, Nat.eqb_refl.
  reflexivity.
Qed.

Lemma X15_saved_config_witness :
  exists s',
    net_manager_save_config_to_nvs (component_after_init 77) nvs_empty config_sta_eth
    = Some (ESP_OK, s')
    /\ net_manager_start (drivers_ok 1) kconfig_none s'
         (repeat Byte.xff sizeof_net_manager_config_t) None (component_after_init 77)
       = net_manager_start (drivers_ok 1) kconfig_none s'
           (repeat Byte.xff sizeof_net_manager_config_t) (Some config_sta_eth)
           (component_after_init 77).
Proof.
  eexists. split; [reflexivity|].
  eapply (X15_saved_config_is_used_by_start (drivers_ok 1) kconfig_none nvs_empty _
            (repeat Byte.xff sizeof_net_manager_config_t) config_sta_eth
            (component_after_init 77) (component_after_init 77));
    reflexivity.
Defined.

(** * Further properties of the start sequence *)

Ltac step_if :=
  match goal with
  | |- context [if ?c then _ else _] =>
      lazymatch c with
      | context [if _ then _ else _] => fail
      | _ => destruct c eqn:?
      end
  end.

Lemma is_null_false p : p <> NULL -> is_null p = false.
Proof. intros H. unfold is_null. apply Z.eqb_neq. exact H. Qed.

Lemma is_null_false_inv p : is_null p = false -> p <> NULL.
Proof. unfold is_null. apply Z.eqb_neq. Qed.

Ltac use_drivers H :=
  rewrite ?(ok_wifi_init _ H), ?(ok_wifi_set_mode _ H), ?(ok_wifi_set_config _ H),
    ?(ok_wifi_start _ H), ?(ok_dhcpc_stop _ H), ?(ok_set_ip_info _ H),
    ?(ok_set_dns_info _ H), ?(ok_netif_attach _ H), ?(ok_eth_start _ H),
    ?(is_null_false _ (ok_netif_sta _ H)), ?(is_null_false _ (ok_netif_ap _ H)),
    ?(is_null_false _ (ok_netif_eth _ H)).

(** ** The three bring-up functions *)

(** X16.  When [start_eth] returns, it returns either ESP_FAIL, having
    only called [ethernet_init_all], which found no device, and left the
    Ethernet netif as it was; or ESP_OK, with the Ethernet netif created,
    not NULL, at least one device counted, and [esp_eth_start] as its last
    call.  It never touches the station or AP netif. *)
Theorem X16_start_eth_postcondition :
  forall (drv : drivers) (cfg : list Byte.byte) (st st' : component)
         (v : esp_err_t) (tr : list action),
    start_eth drv cfg st = Returned v st' tr ->
    s_netif_sta st' = s_netif_sta st /\ s_netif_ap st' = s_netif_ap st
    /\ ((v = ESP_FAIL /\ s_netif_eth st' = s_netif_eth st
         /\ s_eth_handles_num st' = 0 /\ tr = [EthernetInitAll])
        \/ (v = ESP_OK /\ s_netif_eth st' = drv_netif_new drv
            /\ s_netif_eth st' <> NULL /\ s_eth_handles_num st' <> 0
            /\ last tr = Some (EthStart (drv_eth_handle0 drv)))).
Proof.
  intros drv cfg st st' v tr.
  unfold start_eth, apply_static_ip, checked, when, ESP_ERROR_CHECK, assert.
  destruct (drv_ethernet_init_all drv) as [[err handles] num].
  unfold call, modify, get, abort, mbind, M_bind, mret, M_ret.
  cbn [with_eth_handles s_eth_handles_num].
  repeat (step_if;
          cbn [with_eth_handles with_netif_eth s_eth_handles_num s_netif_sta
               s_netif_ap s_netif_eth negb app]);
    intros H; try discriminate H; inversion H; subst; clear H; cbn.
  all: split; [reflexivity|]; split; [reflexivity|].
  all: try (left; repeat split; try reflexivity; apply Z.eqb_eq; assumption).
  all: right; repeat split; try reflexivity.
  all: try (intros Hn; unfold is_null in *; rewrite Hn in *; discriminate).
  all: try (apply Z.eqb_neq; assumption).
Qed.

Lemma X16_start_eth_witness :
  s_netif_eth
    (with_netif_eth (drv_netif_new (drivers_ok 1))
       (with_eth_handles 1073620000 1 (component_after_init 77)))
  <> NULL.
Proof.
  destruct (X16_start_eth_postcondition (drivers_ok 1) config_sta_eth
              (component_after_init 77)
              (with_netif_eth (drv_netif_new (drivers_ok 1))
                 (with_eth_handles 1073620000 1 (component_after_init 77)))
              ESP_OK
              [EthernetInitAll; NetifCreate 1073610200;
               NetifAttach 1073610200 1073620100; EthStart 1073620100])
    as (_ & _ & [(Hv & _) | (_ & _ & Hnn & _)]).
  - vm_compute. reflexivity.
  - discriminate Hv.
  - exact Hnn.
Defined.

(** X17.  [start_sta] and [start_ap] never return an error code: when
    they return, the result is ESP_OK and the interface handle is the netif
    the driver created, which is not NULL, nothing else of the component
    being changed.  With DHCP (static IP off) [start_sta] makes exactly two
    calls, netif creation and [esp_wifi_set_config] with the NUL-padded SSID
    and password; with a static IP the DHCP client is stopped right after
    the creation and before the address is set; a DNS server is only ever
    set to a non-zero address.  [start_ap] configures an open network
    exactly when the password's first byte is NUL, WPA2-PSK otherwise. *)
Theorem X17_start_sta_and_start_ap_postcondition :
  forall (drv : drivers) (cfg : list Byte.byte) (st st' : component)
         (v : esp_err_t) (tr : list action),
    (start_sta drv cfg st = Returned v st' tr ->
     let p := drv_create_default_wifi_sta drv in
     v = ESP_OK /\ st' = with_netif_sta p st /\ p <> NULL
     /\ (load_bool cfg (offsetof_wifi_sta_config + sta_use_static_ip) = false ->
         tr = [NetifCreate p;
               WifiSetConfig ESP_IF_WIFI_STA
                 (wifi_sta_config
                    (strncpy (load_bytes cfg (offsetof_wifi_sta_config + sta_ssid) 32) 32)
                    (strncpy (load_bytes cfg (offsetof_wifi_sta_config + sta_password) 64) 64))])
     /\ (load_bool cfg (offsetof_wifi_sta_config + sta_use_static_ip) = true ->
         exists rest,
           tr = NetifCreate p :: NetifDhcpcStop p
                :: NetifSetIpInfo p
                     (load_ip_info cfg (offsetof_wifi_sta_config + sta_ip_info_off))
                :: rest)
     /\ (forall q t a, In (NetifSetDnsInfo q t a) tr -> a <> 0))
    /\ (start_ap drv cfg st = Returned v st' tr ->
        let p := drv_create_default_wifi_ap drv in
        v = ESP_OK /\ st' = with_netif_ap p st /\ p <> NULL
        /\ tr = [NetifCreate p;
                 WifiSetConfig ESP_IF_WIFI_AP
                   (wifi_ap_config
                      (strncpy (load_bytes cfg (offsetof_wifi_ap_config + ap_ssid) 32) 32)
                      (strncpy (load_bytes cfg (offsetof_wifi_ap_config + ap_password) 64) 64)
                      (load_u8 cfg (offsetof_wifi_ap_config + ap_channel))
                      (load_u8 cfg (offsetof_wifi_ap_config + ap_max_connections))
                      (if load_u8 cfg (offsetof_wifi_ap_config + ap_password) =? 0
                       then WIFI_AUTH_OPEN else WIFI_AUTH_WPA2_PSK))]).
Proof.
  intros drv cfg st st' v tr. split.
  - unfold start_sta, apply_static_ip, checked, when, ESP_ERROR_CHECK, assert.
    unfold call, modify, get, abort, mbind, M_bind, mret, M_ret.
    destruct (load_bool cfg (offsetof_wifi_sta_config + sta_use_static_ip)) eqn:Hstatic;
      repeat (step_if; cbn [negb app]);
      intros H; try discriminate H; inversion H; subst; clear H; cbv zeta;
      (split; [reflexivity|]); (split; [reflexivity|]);
      (split; [apply is_null_false_inv; apply negb_true_iff; assumption|]);
      (split; [intros Hs; first [discriminate Hs | reflexivity]|]);
      (split; [intros Hs; first [discriminate Hs | eexists; reflexivity]|]);
      intros q t a Hin; cbn [In] in Hin;
      repeat (destruct Hin as [Hin|Hin]; [try discriminate Hin|]);
      try contradiction;
      inversion Hin; subst; apply Z.eqb_neq; apply negb_true_iff; assumption.
  - unfold start_ap, checked, when, ESP_ERROR_CHECK, assert.
    unfold call, modify, get, abort, mbind, M_bind, mret, M_ret.
    destruct (load_u8 cfg (offsetof_wifi_ap_config + ap_password) =? 0);
      repeat (step_if; cbn [negb app]);
      intros H; try discriminate H; inversion H; subst; clear H; cbv zeta;
      (split; [reflexivity|]); (split; [reflexivity|]);
      (split; [apply is_null_false_inv; apply negb_true_iff; assumption|]);
      reflexivity.
Qed.

Lemma X17_start_sta_witness :
  drv_create_default_wifi_sta (drivers_ok 1) <> NULL.
Proof.
  destruct (X17_start_sta_and_start_ap_postcondition (drivers_ok 1) config_sta_eth
              (component_after_init 77)
              (with_netif_sta (drv_create_default_wifi_sta (drivers_ok 1))
                 (component_after_init 77))
              ESP_OK
              [NetifCreate 1073610000;
               WifiSetConfig ESP_IF_WIFI_STA
                 (wifi_sta_config
                    ([Byte.x68; Byte.x6f; Byte.x6d; Byte.x65] ++ repeat Byte.x00 28)
                    (repeat Byte.x00 64))]) as [Hsta _].
  destruct Hsta as (_ & _ & Hp & _).
  - vm_compute. reflexivity.
  - exact Hp.
Defined.

(** X12.  The station credentials reach the driver as fixed-size arrays:
    whenever [start_sta] returns, its only [esp_wifi_set_config] call is for
    the station interface, with an SSID of exactly 32 bytes and a password
    of exactly 64 bytes, each the configuration's array up to its first NUL
    and NUL from there on.  An SSID that fills all 32 bytes of its array
    without a NUL is handed over unchanged, without a terminator. *)
Theorem X12_station_credentials_handed_to_driver :
  forall (drv : drivers) (cfg : list Byte.byte) (st st' : component)
         (v : esp_err_t) (tr : list action)
         (ifx : wifi_interface_t) (c : wifi_config_t),
    start_sta drv cfg st = Returned v st' tr ->
    In (WifiSetConfig ifx c) tr ->
    exists ssid password,
      ifx = ESP_IF_WIFI_STA
      /\ c = wifi_sta_config ssid password
      /\ length ssid = 32%nat
      /\ length password = 64%nat
      /\ (forall i j,
            (i <= j < 32)%nat ->
            Z_of_byte (nth i ssid Byte.x00) = 0 ->
            Z_of_byte (nth j ssid Byte.x00) = 0)
      /\ (forall i j,
            (i <= j < 64)%nat ->
            Z_of_byte (nth i password Byte.x00) = 0 ->
            Z_of_byte (nth j password Byte.x00) = 0)
      /\ ((offsetof_wifi_sta_config + sta_ssid + 32 <= length cfg)%nat ->
          Forall (fun b => Z_of_byte b <> 0)
            (load_bytes cfg (offsetof_wifi_sta_config + sta_ssid) 32) ->
          ssid = load_bytes cfg (offsetof_wifi_sta_config + sta_ssid) 32).
Proof.
  intros drv cfg st st' v tr ifx c.
  unfold start_sta, apply_static_ip, checked, when, ESP_ERROR_CHECK, assert.
  unfold call, modify, get, abort, mbind, M_bind, mret, M_ret.
  repeat (step_if; cbn [negb app]);
    intros H; try discriminate H; inversion H; subst; clear H;
    intros Hin; cbn [In] in Hin;
    repeat (destruct Hin as [Hin|Hin]; [try discriminate Hin|]);
    try contradiction;
    inversion Hin; subst;
    (do 2 eexists; split; [reflexivity|]; split; [reflexivity|];
     split; [apply strncpy_length|]; split; [apply strncpy_length|];
     split; [apply strncpy_nul_tail|]; split; [apply strncpy_nul_tail|];
     intros Hlen Hall;
     rewrite strncpy_no_nul;
     [ apply List.firstn_all2; rewrite load_bytes_length by exact Hlen; lia
     | rewrite load_bytes_length by exact Hlen; lia
     | rewrite List.firstn_all2 by (rewrite load_bytes_length by exact Hlen; lia);
       exact Hall ]).
Qed.

Lemma X12_station_credentials_witness :
  exists ssid password,
    wifi_sta_config
      ([Byte.x68; Byte.x6f; Byte.x6d; Byte.x65] ++ repeat Byte.x00 28)
      (repeat Byte.x00 64)
    = wifi_sta_config ssid password
    /\ length ssid = 32%nat.
Proof.
  destruct (X12_station_credentials_handed_to_driver (drivers_ok 1) config_sta_eth
              (component_after_init 77)
              (with_netif_sta (drv_create_default_wifi_sta (drivers_ok 1))
                 (component_after_init 77))
              ESP_OK
              [NetifCreate 1073610000;
               WifiSetConfig ESP_IF_WIFI_STA
                 (wifi_sta_config
                    ([Byte.x68; Byte.x6f; Byte.x6d; Byte.x65] ++ repeat Byte.x00 28)
                    (repeat Byte.x00 64))]
              ESP_IF_WIFI_STA
              (wifi_sta_config
                 ([Byte.x68; Byte.x6f; Byte.x6d; Byte.x65] ++ repeat Byte.x00 28)
                 (repeat Byte.x00 64)))
    as (ssid & password & _ & Hc & Hlen & _).
  - vm_compute. reflexivity.
  - right. left. reflexivity.
  - exists ssid, password. split; [exact Hc | exact Hlen].
Defined.

(** ** The whole start sequence *)

Lemma start_sta_succeeds drv cfg :
  drivers_succeed drv ->
  exists tr, forall st,
    start_sta drv cfg st
    = Returned ESP_OK (with_netif_sta (drv_create_default_wifi_sta drv) st) tr.
Proof.
  intros H.
  unfold start_sta, apply_static_ip, checked, when, ESP_ERROR_CHECK, assert.
  use_drivers H.
  change (ESP_OK =? ESP_OK) with true. cbn [negb].
  repeat step_if; eexists; intros st; reflexivity.
Qed.

Lemma start_ap_succeeds drv cfg :
  drivers_succeed drv ->
  exists tr, forall st,
    start_ap drv cfg st
    = Returned ESP_OK (with_netif_ap (drv_create_default_wifi_ap drv) st) tr.
Proof.
  intros H.
  unfold start_ap, checked, when, ESP_ERROR_CHECK, assert.
  use_drivers H.
  change (ESP_OK =? ESP_OK) with true. cbn [negb].
  repeat step_if; eexists; intros st; reflexivity.
Qed.

Lemma start_eth_succeeds drv cfg :
  drivers_succeed drv ->
  exists handles num tr,
    drv_ethernet_init_all drv = (ESP_OK, handles, num) /\ 0 < num < 256 /\
    forall st,
      start_eth drv cfg st
      = Returned ESP_OK
          (with_netif_eth (drv_netif_new drv) (with_eth_handles handles num st)) tr.
Proof.
  intros H.
  destruct (ok_ethernet_init_all _ H) as (handles & num & Hinit & Hnum).
  exists handles, num.
  unfold start_eth, apply_static_ip, checked, when, ESP_ERROR_CHECK, assert.
  rewrite Hinit.
  use_drivers H.
  change (ESP_OK =? ESP_OK) with true. cbn [negb].
  assert (wrap_uint8 num = num) as Hw by (unfold wrap_uint8; apply Z.mod_small; lia).
  rewrite Hw.
  repeat step_if; eexists; (split; [reflexivity|]); (split; [exact Hnum|]);
    intros st; unfold mbind, M_bind, call, modify, get, mret, M_ret;
    cbn [with_eth_handles s_eth_handles_num];
    (replace (num =? 0) with false by (symmetry; apply Z.eqb_neq; lia));
    reflexivity.
Qed.

Lemma bind_ret {A B : Type} (x : A) (f : A -> M B) st : (mret x ≫= f) st = f x st.
Proof. unfold mbind, M_bind, mret, M_ret. destruct (f x st); reflexivity. Qed.

Lemma start_interfaces_succeeds drv cfg :
  drivers_succeed drv ->
  exists handles num,
    drv_ethernet_init_all drv = (ESP_OK, handles, num) /\ 0 < num < 256 /\
    forall st,
      let st1 := if cfg_wifi_sta_enabled cfg
                 then with_netif_sta (drv_create_default_wifi_sta drv) st else st in
      let st2 := if cfg_wifi_ap_enabled cfg
                 then with_netif_ap (drv_create_default_wifi_ap drv) st1 else st1 in
      let st3 := if cfg_ethernet_enabled cfg
                 then with_netif_eth (drv_netif_new drv) (with_eth_handles handles num st2)
                 else st2 in
      exists tr,
        start_interfaces drv cfg st = Returned ESP_OK st3 tr
        /\ (cfg_wifi_sta_enabled cfg || cfg_wifi_ap_enabled cfg = true ->
            last tr = Some WifiStart).
Proof.
  intros H.
  destruct (start_sta_succeeds drv cfg H) as (tr_sta & Hsta).
  destruct (start_ap_succeeds drv cfg H) as (tr_ap & Hap).
  destruct (start_eth_succeeds drv cfg H) as (handles & num & tr_eth & Hinit & Hnum & Heth).
  exists handles, num. split; [exact Hinit|]. split; [exact Hnum|].
  intros st. unfold start_interfaces, cfg_wifi_sta_enabled, cfg_wifi_ap_enabled,
    cfg_ethernet_enabled.
  remember (start_sta drv cfg) as f_sta.
  remember (start_ap drv cfg) as f_ap.
  remember (start_eth drv cfg) as f_eth.
  unfold when, discard, checked, ESP_ERROR_CHECK, call.
  use_drivers H. change (ESP_OK =? ESP_OK) with true.
  destruct (load_bool cfg offsetof_wifi_sta_enabled);
    destruct (load_bool cfg offsetof_wifi_ap_enabled);
    destruct (load_bool cfg offsetof_ethernet_enabled);
    cbn [select_wifi_mode is_mode_null negb andb orb];
    unfold mbind, M_bind, mret, M_ret;
    rewrite ?Hsta; cbn [app]; rewrite ?Hap; cbn [app]; rewrite ?Heth; cbn [app];
    eexists; (split; [reflexivity|]);
    intros Hw; try discriminate Hw;
    rewrite ?app_nil_r, ?app_assoc, ?app_comm_cons; apply last_snoc.
Qed.

(** X18.  When every driver call succeeds (results ESP_OK, handles not
    NULL, at least one Ethernet device), a start with a configuration
    object returns ESP_OK on every initialised component; afterwards each of
    the three netif handles is set exactly when its interface is enabled in
    the configuration, the three statuses are Stopped (they move only with
    the events that follow), the retry counter is zero, and, if the station
    or the AP is enabled, [esp_wifi_start] is the last call made. *)
Theorem X18_start_succeeds_with_working_drivers :
  forall (drv : drivers) (kc : kconfig) (s : nvs_store) (stack cfg : list Byte.byte)
         (st : component),
    drivers_succeed drv ->
    s_is_initialized st = true ->
    length cfg = sizeof_net_manager_config_t ->
    exists st' tr,
      net_manager_start drv kc s stack (Some cfg) st = Returned ESP_OK st' tr
      /\ (s_netif_sta st' <> NULL <-> cfg_wifi_sta_enabled cfg = true)
      /\ (s_netif_ap st' <> NULL <-> cfg_wifi_ap_enabled cfg = true)
      /\ (s_netif_eth st' <> NULL <-> cfg_ethernet_enabled cfg = true)
      /\ s_status st'
         = mk_status NET_STATUS_STOPPED NET_STATUS_STOPPED NET_STATUS_STOPPED
                     ip_info_zero ip_info_zero ip_info_zero 0
      /\ s_sta_retry_count st' = 0
      /\ s_is_initialized st' = true
      /\ s_user_callback st' = s_user_callback st
      /\ (cfg_wifi_sta_enabled cfg || cfg_wifi_ap_enabled cfg = true ->
          last tr = Some WifiStart).
Proof.
  intros drv kc s stack cfg st H Hi Hlen.
  destruct (start_interfaces_succeeds drv cfg H) as (handles & num & _ & _ & Hrun).
  destruct (Hrun (stopped st)) as (tr & Hstart & Hlast).
  rewrite net_manager_start_run, Hi. unfold local_config.
  rewrite <- Hlen, firstn_all, bind_ret, Hstart. cbn [prepend_calls].
  do 2 eexists. split; [reflexivity|].
  pose proof (ok_netif_sta _ H) as Hsta.
  pose proof (ok_netif_ap _ H) as Hap.
  pose proof (ok_netif_eth _ H) as Heth.
  destruct (cfg_wifi_sta_enabled cfg); destruct (cfg_wifi_ap_enabled cfg);
    destruct (cfg_ethernet_enabled cfg); cbn;
    rewrite ?Hi;
    repeat split; try reflexivity; try assumption; try congruence;
    try (intros _; assumption);
    try (intros Hw; try discriminate Hw;
         rewrite last_app; rewrite Hlast by reflexivity; reflexivity).
Qed.

Lemma X18_start_succeeds_witness :
  exists st' tr,
    net_manager_start (drivers_ok 1) kconfig_none nvs_empty
      (repeat Byte.x00 sizeof_net_manager_config_t) (Some config_sta_eth)
      (component_after_init 77)
    = Returned ESP_OK st' tr
    /\ s_netif_eth st' <> NULL.
Proof.
  destruct (X18_start_succeeds_with_working_drivers (drivers_ok 1) kconfig_none
              nvs_empty (repeat Byte.x00 sizeof_net_manager_config_t) config_sta_eth
              (component_after_init 77))
    as (st' & tr & Hrun & _ & _ & Heth & _).
  - constructor; try reflexivity; try (intros; reflexivity);
      try (unfold NULL; simpl; lia).
    exists 1073620000, 1. split; [reflexivity | lia].
  - reflexivity.
  - reflexivity.
  - exists st', tr. split; [exact Hrun|]. apply Heth. reflexivity.
Defined.

Lemma trace_of_prepend {A : Type} tr0 (r : result A) :
  trace_of (prepend_calls tr0 r) = tr0 ++ trace_of r.
Proof. destruct r; reflexivity. Qed.

Lemma stop_calls_no_radio st :
  Forall (fun a => is_radio_call a = false) (stop_calls st).
Proof.
  unfold stop_calls.
  destruct (is_null (s_netif_eth st)); destruct (is_null (s_eth_handles st));
    destruct (is_null (s_netif_sta st)); destruct (is_null (s_netif_ap st));
    cbn [andb app]; repeat constructor.
Qed.

Lemma start_interfaces_no_radio drv cfg st :
  cfg_wifi_sta_enabled cfg = false ->
  cfg_wifi_ap_enabled cfg = false ->
  Forall (fun a => is_radio_call a = false) (trace_of (start_interfaces drv cfg st))
  /\ (forall v st' tr,
        start_interfaces drv cfg st = Returned v st' tr ->
        s_netif_sta st' = s_netif_sta st /\ s_netif_ap st' = s_netif_ap st).
Proof.
  unfold start_interfaces, cfg_wifi_sta_enabled, cfg_wifi_ap_enabled.
  intros -> ->.
  unfold start_eth, apply_static_ip, discard, checked, when, ESP_ERROR_CHECK, assert.
  destruct (drv_ethernet_init_all drv) as [[err handles] num].
  unfold call, modify, get, abort, mbind, M_bind, mret, M_ret.
  cbn [orb].
  repeat (step_if;
          cbn [with_eth_handles with_netif_eth s_eth_handles_num s_netif_sta
               s_netif_ap s_netif_eth negb app]);
    (split; [cbn [trace_of app]; repeat constructor
            | intros v st' tr H; try discriminate H; inversion H; subst; clear H;
              split; reflexivity]).
Qed.

(** X19.  With neither the station nor the AP enabled, a start never
    brings the radio up: whatever the drivers answer, and whether the run
    returns or aborts, it makes no call of [esp_wifi_init],
    [esp_wifi_set_mode], [esp_wifi_set_config] or [esp_wifi_start], and when
    it returns the station and AP handles are NULL. *)
Theorem X19_no_radio_without_wifi_interface :
  forall (drv : drivers) (kc : kconfig) (s : nvs_store) (stack cfg : list Byte.byte)
         (st : component),
    length cfg = sizeof_net_manager_config_t ->
    cfg_wifi_sta_enabled cfg = false ->
    cfg_wifi_ap_enabled cfg = false ->
    Forall (fun a => is_radio_call a = false)
      (trace_of (net_manager_start drv kc s stack (Some cfg) st))
    /\ (forall v st' tr,
          net_manager_start drv kc s stack (Some cfg) st = Returned v st' tr ->
          s_netif_sta st' = NULL /\ s_netif_ap st' = NULL).
Proof.
  intros drv kc s stack cfg st Hlen Hsta Hap.
  rewrite net_manager_start_run.
  destruct (s_is_initialized st); [|split; [constructor | discriminate]].
  unfold local_config. rewrite <- Hlen, firstn_all, bind_ret.
  destruct (start_interfaces_no_radio drv cfg (stopped st) Hsta Hap) as [Htr Hst].
  split.
  - rewrite trace_of_prepend. apply Forall_app. split; [apply stop_calls_no_radio | exact Htr].
  - intros v st' tr Hrun.
    destruct (start_interfaces drv cfg (stopped st)) as [t | v1 st1 tr1] eqn:Hs;
      [discriminate Hrun|].
    inversion Hrun; subst. apply (Hst v st' tr1). reflexivity.
Qed.

Lemma X19_no_radio_witness :
  Forall (fun a => is_radio_call a = false)
    (trace_of
       (net_manager_start (drivers_ok 1) kconfig_none nvs_empty
          (repeat Byte.x00 sizeof_net_manager_config_t)
          (Some (store_bytes (repeat Byte.x00 sizeof_net_manager_config_t)
                   offsetof_ethernet_enabled true_byte))
          (component_after_init 77))).
Proof.
  apply (X19_no_radio_without_wifi_interface (drivers_ok 1) kconfig_none nvs_empty
           (repeat Byte.x00 sizeof_net_manager_config_t)
           (store_bytes (repeat Byte.x00 sizeof_net_manager_config_t)
              offsetof_ethernet_enabled true_byte)
           (component_after_init 77));
    reflexivity.
Defined.

Lemma start_interfaces_returned drv cfg st v st' tr :
  start_interfaces drv cfg st = Returned v st' tr ->
  (cfg_wifi_sta_enabled cfg || cfg_wifi_ap_enabled cfg = true ->
     drv_wifi_init drv = ESP_OK /\ drv_wifi_set_mode drv = ESP_OK
     /\ drv_wifi_start drv = ESP_OK)
  /\ (cfg_wifi_sta_enabled cfg = true ->
      drv_wifi_set_config drv ESP_IF_WIFI_STA = ESP_OK
      /\ drv_create_default_wifi_sta drv <> NULL
      /\ s_netif_sta st' = drv_create_default_wifi_sta drv)
  /\ (cfg_wifi_ap_enabled cfg = true ->
      drv_wifi_set_config drv ESP_IF_WIFI_AP = ESP_OK
      /\ drv_create_default_wifi_ap drv <> NULL
      /\ s_netif_ap st' = drv_create_default_wifi_ap drv).
Proof.
  unfold start_interfaces, cfg_wifi_sta_enabled, cfg_wifi_ap_enabled.
  unfold start_sta, start_ap, start_eth, apply_static_ip, discard, checked, when,
    ESP_ERROR_CHECK, assert.
  destruct (drv_ethernet_init_all drv) as [[err handles] num].
  unfold call, modify, get, abort, mbind, M_bind, mret, M_ret.
  destruct (load_bool cfg offsetof_wifi_sta_enabled);
    destruct (load_bool cfg offsetof_wifi_ap_enabled);
    destruct (load_bool cfg offsetof_ethernet_enabled);
    cbn [select_wifi_mode is_mode_null negb andb orb].
  all: repeat (step_if;
               cbn [with_eth_handles with_netif_eth with_netif_sta with_netif_ap
                    s_eth_handles_num s_netif_sta s_netif_ap s_netif_eth negb app]);
    intros H; try discriminate H; inversion H; subst; clear H.
  all: repeat split; intros; try discriminate; try reflexivity;
    try (apply Z.eqb_eq; assumption);
    try (apply is_null_false_inv; apply negb_true_iff; assumption).
Qed.

(** X20.  A failing Wi-Fi driver call is fatal for start: whenever a
    start with a configuration object returns, then, if the station or the
    AP is enabled, [esp_wifi_init], [esp_wifi_set_mode] and [esp_wifi_start]
    answered ESP_OK, and for each enabled Wi-Fi interface its
    [esp_wifi_set_config] answered ESP_OK and its netif was created, is not
    NULL and is the handle the component holds.  In every other case the run
    aborts instead of returning. *)
Theorem X20_start_returns_only_if_wifi_drivers_succeeded :
  forall (drv : drivers) (kc : kconfig) (s : nvs_store) (stack cfg : list Byte.byte)
         (st st' : component) (v : esp_err_t) (tr : list action),
    length cfg = sizeof_net_manager_config_t ->
    net_manager_start drv kc s stack (Some cfg) st = Returned v st' tr ->
    (cfg_wifi_sta_enabled cfg || cfg_wifi_ap_enabled cfg = true ->
       drv_wifi_init drv = ESP_OK /\ drv_wifi_set_mode drv = ESP_OK
       /\ drv_wifi_start drv = ESP_OK)
    /\ (cfg_wifi_sta_enabled cfg = true ->
        drv_wifi_set_config drv ESP_IF_WIFI_STA = ESP_OK
        /\ drv_create_default_wifi_sta drv <> NULL
        /\ s_netif_sta st' = drv_create_default_wifi_sta drv)
    /\ (cfg_wifi_ap_enabled cfg = true ->
        drv_wifi_set_config drv ESP_IF_WIFI_AP = ESP_OK
        /\ drv_create_default_wifi_ap drv <> NULL
        /\ s_netif_ap st' = drv_create_default_wifi_ap drv).
Proof.
  intros drv kc s stack cfg st st' v tr Hlen Hrun.
  rewrite net_manager_start_run in Hrun.
  destruct (s_is_initialized st); [|discriminate Hrun].
  unfold local_config in Hrun. rewrite <- Hlen, firstn_all, bind_ret in Hrun.
  destruct (start_interfaces drv cfg (stopped st)) as [t | v1 st1 tr1] eqn:Hs;
    [discriminate Hrun|].
  inversion Hrun; subst.
  apply (start_interfaces_returned drv cfg (stopped st) v st' tr1 Hs).
Qed.

Lemma X20_start_returns_witness :
  drv_wifi_init (drivers_ok 0) = ESP_OK
  /\ drv_wifi_set_mode (drivers_ok 0) = ESP_OK
  /\ drv_wifi_start (drivers_ok 0) = ESP_OK.
Proof.
  destruct (net_manager_start (drivers_ok 0) kconfig_none nvs_empty
              (repeat Byte.x00 sizeof_net_manager_config_t) (Some config_sta_eth)
              (component_after_init 77)) as [t | v st' tr] eqn:Hrun.
  - vm_compute in Hrun. discriminate Hrun.
  - destruct (X20_start_returns_only_if_wifi_drivers_succeeded (drivers_ok 0)
                kconfig_none nvs_empty (repeat Byte.x00 sizeof_net_manager_config_t)
                config_sta_eth (component_after_init 77) st' v tr) as (H & _).
    + reflexivity.
    + exact Hrun.
    + apply H. reflexivity.
Defined.

(** * Further properties of the configuration store *)

Lemma save_config_not_ready st s config :
  s_is_initialized st = true ->
  nvs_ready s = false ->
  net_manager_save_config_to_nvs st s config = Some (ESP_ERR_NVS_NOT_INITIALIZED, s).
Proof.
  intros Hi Hr. unfold net_manager_save_config_to_nvs, nvs_open.
  rewrite Hi, Hr. reflexivity.
Qed.

Lemma save_config_others st s s' config namespace key :
  net_manager_save_config_to_nvs st s config = Some (ESP_OK, s') ->
  (namespace, key) <> (NVS_NAMESPACE, NVS_CONFIG_KEY) ->
  nvs_lookup s' namespace key = nvs_lookup s namespace key.
Proof.
  unfold net_manager_save_config_to_nvs, nvs_open, nvs_set_blob, nvs_commit, nvs_lookup.
  destruct (s_is_initialized st); [|discriminate]. cbn [negb].
  destruct (nvs_ready s); [|cbn; discriminate]. cbn [negb].
  intros Hsave Hne.
  destruct (nvs_data s !! NVS_NAMESPACE) as [entries|] eqn:Hns;
    change (ESP_OK =? ESP_OK) with true in Hsave; cbn [negb nvs_data nvs_ready] in Hsave;
    inversion Hsave; subst s'; clear Hsave; cbn [nvs_data].
  - destruct (decide (namespace = NVS_NAMESPACE)) as [->|Hn].
    + rewrite lookup_insert_eq, Hns. cbn [from_option id].
      rewrite lookup_insert_ne; [reflexivity | congruence].
    + rewrite lookup_insert_ne by congruence. reflexivity.
  - destruct (decide (namespace = NVS_NAMESPACE)) as [->|Hn].
    + rewrite !lookup_insert_eq, Hns. cbn [from_option id].
      rewrite lookup_insert_ne; [reflexivity | congruence].
    + rewrite !lookup_insert_ne by congruence. reflexivity.
Qed.

(** X21.  The store keeps one configuration, the last one saved: after two
    saves that returned ESP_OK a load returns the second configuration.  A
    save changes no other entry of the store, neither in another namespace
    nor under another key; and on a store that is not ready both save and
    load fail with ESP_ERR_NVS_NOT_INITIALIZED and change nothing. *)
Theorem X21_last_saved_config_wins :
  forall (st : component) (s : nvs_store) (C1 C2 buf : list Byte.byte),
    s_is_initialized st = true ->
    length C2 = sizeof_net_manager_config_t ->
    length buf = sizeof_net_manager_config_t ->
    (forall s1 s2,
        net_manager_save_config_to_nvs st s C1 = Some (ESP_OK, s1) ->
        net_manager_save_config_to_nvs st s1 C2 = Some (ESP_OK, s2) ->
        net_manager_load_config_from_nvs st s2 buf = Some (ESP_OK, C2)
        /\ forall namespace key,
             (namespace, key) <> (NVS_NAMESPACE, NVS_CONFIG_KEY) ->
             nvs_lookup s2 namespace key = nvs_lookup s namespace key)
    /\ (nvs_ready s = false ->
        net_manager_save_config_to_nvs st s C1 = Some (ESP_ERR_NVS_NOT_INITIALIZED, s)
        /\ net_manager_load_config_from_nvs st s buf
           = Some (ESP_ERR_NVS_NOT_INITIALIZED, buf)).
Proof.
  intros st s C1 C2 buf Hi HC2 Hbuf. split.
  - intros s1 s2 Hs1 Hs2. split.
    + assert (nvs_ready s1 = true) as Hr1.
      { destruct (nvs_ready s1) eqn:Hr; [reflexivity|].
        rewrite (save_config_not_ready st s1 C2 Hi Hr) in Hs2. discriminate Hs2. }
      destruct (save_config_stores st s1 C2 Hi Hr1) as (s2' & Hs2' & Hr2 & Hst2).
      rewrite Hs2 in Hs2'. inversion Hs2'; subst s2'. clear Hs2'.
      rewrite <- HC2 in Hst2. rewrite firstn_all in Hst2.
      rewrite (load_config_stored st s2 buf C2 Hi Hr2 Hst2).
      rewrite HC2, Nat.ltb_irrefl, Nat.eqb_refl.
      rewrite <- Hbuf at 1. rewrite drop_all, app_nil_r. reflexivity.
    + intros namespace key Hne.
      rewrite (save_config_others st s1 s2 C2 namespace key Hs2 Hne).
      apply (save_config_others st s s1 C1 namespace key Hs1 Hne).
  - intros Hr. split.
    + apply save_config_not_ready; assumption.
    + apply load_config_not_ready; assumption.
Qed.

Lemma X21_last_saved_config_witness :
  exists s1 s2,
    net_manager_save_config_to_nvs (component_after_init 77) nvs_empty
      (repeat Byte.x00 sizeof_net_manager_config_t) = Some (ESP_OK, s1)
    /\ net_manager_save_config_to_nvs (component_after_init 77) s1 config_sta_eth
       = Some (ESP_OK, s2)
    /\ net_manager_load_config_from_nvs (component_after_init 77) s2
         (repeat Byte.xff sizeof_net_manager_config_t)
       = Some (ESP_OK, config_sta_eth).
Proof.
  destruct (X21_last_saved_config_wins (component_after_init 77) nvs_empty
              (repeat Byte.x00 sizeof_net_manager_config_t) config_sta_eth
              (repeat Byte.xff sizeof_net_manager_config_t)) as [H _];
    try reflexivity.
  do 2 eexists. split; [reflexivity|]. split; [reflexivity|].
  eapply H; reflexivity.
Defined.

(** * Properties of init and deinit *)

Lemma error_check_all_ok calls :
  snd (error_check_all calls) = true ->
  fst (error_check_all calls) = map fst calls
  /\ Forall (fun c => snd c = ESP_OK) calls.
Proof.
  induction calls as [|[c e] calls IH]; intros H.
  - split; [reflexivity | constructor].
  - cbn [error_check_all] in *.
    destruct (Z.eqb_spec e ESP_OK) as [He|He]; [|discriminate H].
    destruct (error_check_all calls) as [tr ok] eqn:Hc. cbn [fst snd] in *.
    destruct (IH H) as [Htr Hall]. split.
    + cbn [map fst]. rewrite Htr. reflexivity.
    + constructor; [exact He | exact Hall].
Qed.

(** X22.  [net_manager_init] on an initialised instance returns ESP_OK and
    changes nothing: the subscriber of the first init is kept and the new
    one is not registered.  On an instance that is not initialised it
    returns ESP_FAIL, leaving the component as it was, when the mutex cannot
    be created; when it returns ESP_OK the instance is initialised with the
    new mutex, the given subscriber and a zeroed status record, the
    interface handles and the retry counter being as before, and all five
    calls into esp_netif and the event loop answered ESP_OK.  It returns
    nothing but ESP_OK or ESP_FAIL. *)
Theorem X22_init_postcondition :
  forall (os : rtos) (cb : ptr) (i i' : instance) (err : esp_err_t)
         (tr : list sys_call),
    net_manager_init os cb i = Finished err i' tr ->
    (s_is_initialized (the_component i) = true ->
       err = ESP_OK /\ i' = i /\ tr = [])
    /\ (s_is_initialized (the_component i) = false ->
        (err = ESP_FAIL /\ rtos_create_mutex os = NULL
         /\ the_component i' = the_component i)
        \/ (err = ESP_OK
            /\ the_component i'
               = with_is_initialized true
                   (with_user_callback cb
                      (with_status (fun _ => status_zero) (the_component i)))
            /\ s_component_mutex i' = rtos_create_mutex os
            /\ s_component_mutex i' <> NULL
            /\ rtos_netif_init os = ESP_OK
            /\ rtos_event_loop_create_default os = ESP_OK
            /\ (forall base, rtos_handler_register os base = ESP_OK)))
    /\ (err = ESP_OK ->
        forall os' cb', net_manager_init os' cb' i' = Finished ESP_OK i' []).
Proof.
  intros os cb i i' err tr. unfold net_manager_init.
  destruct (s_is_initialized (the_component i)) eqn:Hi.
  - intros H. inversion H; subst. repeat split; try discriminate.
    intros _ os' cb'. rewrite Hi. reflexivity.
  - destruct (is_null (rtos_create_mutex os)) eqn:Hm.
    + intros H. inversion H; subst. split; [discriminate|]. split.
      * intros _. left. repeat split. unfold is_null in Hm. apply Z.eqb_eq. exact Hm.
      * discriminate.
    + destruct (error_check_all _) as [tr0 ok] eqn:Hc.
      destruct ok; intros H; [|discriminate H].
      inversion H; subst. clear H. split; [discriminate|]. split.
      * intros _. right.
        pose proof (error_check_all_ok _ (f_equal snd Hc)) as [_ Hall].
        repeat match goal with
               | H : Forall _ (_ :: _) |- _ => inversion H; subst; clear H
               end.
        cbn [snd] in *.
        repeat split; try assumption.
        -- apply is_null_false_inv. exact Hm.
        -- intros []; assumption.
      * intros _ os' cb'. reflexivity.
Qed.

Lemma X22_init_witness :
  exists i1 tr,
    net_manager_init rtos_ok 77 instance_at_boot = Finished ESP_OK i1 tr
    /\ net_manager_init rtos_ok 88 i1 = Finished ESP_OK i1 []
    /\ s_user_callback (the_component i1) = 77.
Proof.
  destruct (net_manager_init rtos_ok 77 instance_at_boot) as [t | err i1 tr] eqn:Hrun;
    [vm_compute in Hrun; discriminate Hrun|].
  destruct (X22_init_postcondition rtos_ok 77 instance_at_boot i1 err tr Hrun)
    as (_ & Hfresh & Hagain).
  assert (err = ESP_OK) as ->.
  { vm_compute in Hrun. inversion Hrun. reflexivity. }
  exists i1, tr. split; [reflexivity|]. split; [apply Hagain; reflexivity|].
  destruct (Hfresh eq_refl) as [(Hbad & _) | (_ & Hc & _)]; [discriminate Hbad|].
  rewrite Hc. reflexivity.
Defined.

(** X23.  [net_manager_deinit] always returns ESP_OK and leaves the
    instance not initialised.  On an instance that is not initialised it
    does nothing.  On an initialised one it performs the stop sequence,
    unregisters the three handlers and deletes the mutex last; afterwards
    the mutex and all handles are NULL, the statuses are Stopped, the retry
    counter is zero, and the subscriber pointer is still the old one.  A
    second deinit does nothing, and an init that follows succeeds again
    with its own subscriber whenever its calls succeed. *)
Theorem X23_deinit_postcondition :
  forall i : instance,
    exists i' tr,
      net_manager_deinit i = Finished ESP_OK i' tr
      /\ s_is_initialized (the_component i') = false
      /\ net_manager_deinit i' = Finished ESP_OK i' []
      /\ (s_is_initialized (the_component i) = false -> i' = i /\ tr = [])
      /\ (s_is_initialized (the_component i) = true ->
          i' = mk_instance (with_is_initialized false (stopped (the_component i))) NULL
          /\ tr = map Component (stop_calls (the_component i))
                  ++ [HandlerUnregister WIFI_EVENT_BASE;
                      HandlerUnregister IP_EVENT_BASE;
                      HandlerUnregister ETH_EVENT_BASE;
                      SemaphoreDelete (s_component_mutex i)]
          /\ s_user_callback (the_component i') = s_user_callback (the_component i))
      /\ (forall os cb,
            rtos_create_mutex os <> NULL ->
            rtos_netif_init os = ESP_OK ->
            rtos_event_loop_create_default os = ESP_OK ->
            (forall base, rtos_handler_register os base = ESP_OK) ->
            exists i2 tr2,
              net_manager_init os cb i' = Finished ESP_OK i2 tr2
              /\ s_is_initialized (the_component i2) = true
              /\ s_user_callback (the_component i2) = cb).
Proof.
  intros i. unfold net_manager_deinit.
  destruct (s_is_initialized (the_component i)) eqn:Hi; cbn [negb].
  - rewrite stop_all_interfaces_run.
    do 2 eexists. split; [reflexivity|]. split; [reflexivity|].
    split; [reflexivity|]. split; [discriminate|]. split.
    + intros _. repeat split.
    + intros os cb Hm Hn He Hr. unfold net_manager_init.
      cbn [the_component with_is_initialized s_is_initialized].
      rewrite (is_null_false _ Hm).
      cbn [error_check_all]. rewrite Hn, He, !Hr.
      change (ESP_OK =? ESP_OK) with true. cbn.
      do 2 eexists. repeat split.
  - do 2 eexists. split; [reflexivity|]. split; [exact Hi|].
    rewrite Hi. cbn [negb]. split; [reflexivity|].
    split; [intros _; split; reflexivity|]. split; [discriminate|].
    intros os cb Hm Hn He Hr. unfold net_manager_init. rewrite Hi.
    rewrite (is_null_false _ Hm).
    cbn [error_check_all]. rewrite Hn, He, !Hr.
    change (ESP_OK =? ESP_OK) with true. cbn.
    do 2 eexists. repeat split.
Qed.

Lemma X23_deinit_witness :
  exists i1 tr1 i2 tr2 i3 tr3,
    net_manager_init rtos_ok 77 instance_at_boot = Finished ESP_OK i1 tr1
    /\ net_manager_deinit i1 = Finished ESP_OK i2 tr2
    /\ net_manager_init rtos_ok 88 i2 = Finished ESP_OK i3 tr3
    /\ s_user_callback (the_component i3) = 88.
Proof.
  eexists. eexists.
  destruct (X23_deinit_postcondition
              (mk_instance (component_after_init 77) 1073700000))
    as (i2 & tr2 & Hd & _ & _ & _ & _ & Hinit).
  destruct (Hinit rtos_ok 88) as (i3 & tr3 & H3 & _ & Hcb);
    try reflexivity; try (intros; reflexivity); try (simpl; unfold NULL; lia).
  exists i2, tr2, i3, tr3.
  split; [reflexivity|]. split; [exact Hd|]. split; [exact H3 | exact Hcb].
Defined.

(** * The vocabulary of the dispatcher *)

Lemma in_vocabulary_step M drv st e :
  Forall (fun ev => in_vocabulary ev = true) (callbacks (snd (event_handler M drv st e))).
Proof.
  destruct e as [[] d | id ev | [] | base id]; unfold event_handler, dispatch, notify;
    simpl;
    repeat match goal with
           | |- context [if ?c then _ else _] => destruct c
           end;
    simpl; repeat constructor.
Qed.

(** X24.  Over every sequence of raw events, every event handed to the
    subscriber belongs to a fixed vocabulary: the station reports
    Connecting, Disconnected and Connected; the AP reports Started, Stopped,
    ClientConnected and ClientDisconnected; Ethernet reports Started,
    Stopped, Connecting, Disconnected and Connected.  Connected and the AP's
    Started carry an address, the two client events carry the client
    descriptor, every other event carries nothing.  In particular
    Uninitialized and WaitingForReconnect are never reported. *)
Theorem X24_emitted_events_stay_in_vocabulary :
  forall (M : Z) (drv : drivers) (es : list raw_event) (st : component),
    Forall (fun ev => in_vocabulary ev = true) (callbacks (snd (run_events M drv st es)))
    /\ Forall (fun ev => status ev <> NET_STATUS_WAITING_FOR_RECONNECT
                         /\ status ev <> NET_STATUS_UNINITIALIZED)
         (callbacks (snd (run_events M drv st es))).
Proof.
  intros M drv es st.
  assert (Forall (fun ev => in_vocabulary ev = true)
            (callbacks (snd (run_events M drv st es)))) as Hvoc.
  { revert st. induction es as [|e es IH]; intros st.
    - constructor.
    - rewrite run_events_cons. cbn [snd]. rewrite callbacks_app.
      apply Forall_app. split; [apply in_vocabulary_step | apply IH]. }
  split; [exact Hvoc|].
  eapply Forall_impl; [exact Hvoc|].
  intros [src sts dat] Hin. unfold in_vocabulary in Hin. cbn [source status data] in *.
  split; intros ->; destruct src; discriminate Hin.
Qed.
